(** * The trading cycle of Super-nof1.ai: [run] and its record builder

    A shallow embedding of [run] (the decision-and-execution cycle) and of
    its helper [createTradingData], with the properties of the cycle that
    the specification states.

    Conventions of the embedding.
    - A JavaScript number ([Js.number]) is a finite value, the negative
      zero, NaN or one of the two infinities, with the arithmetic and the
      comparisons of IEEE 754 on them.  A finite value is an exact
      rational: the rounding of a finite result to a double, and with it
      overflow and underflow, is not modelled, and no property below rests
      on a finite result being exact.
    - [null] and [undefined] are both [None]; every test the code makes on
      them ([== null], [||], [?.], [!x]) treats the two alike.
    - An object literal whose keys may be absent (the [overrides] argument)
      has fields of type [option]: [None] is an absent key, [Some v] a key
      that is present with value [v] (which may itself be [None]).
    - The collaborators of the cycle (market data, account, oracle, venue,
      ledger, risk policy) are not part of the file that defines [run];
      they are the fields of the class [Collaborators].
    - The cycle runs in a monad [M] of state, output and exceptions: a
      computation changes the outside world, writes a trace of the calls it
      makes on the collaborators, and returns or throws.  The rows that a
      cycle adds to the ledger are read off its trace. *)

From Stdlib Require Import List String Ascii ZArith QArith Qround Qabs Bool.
From Stdlib Require Import Lia Lqa DecimalString.
Import ListNotations.

Open Scope string_scope.
Open Scope Q_scope.

(** ** JavaScript values *)

Module Js.

(** A number.  [Finite 0] is the positive zero. *)
Inductive number :=
| Finite (q : Q)
| NegZero
| NaN
| Infinity (negative : bool).

Definition ofZ (z : Z) : number := Finite (inject_Z z).

Definition toZ (x : number) : option Z :=
  match x with
  | Finite (Qmake z 1) => Some z
  | _ => None
  end.

(** [Number.isNaN] and [Number.isFinite] *)
Definition isNaN (x : number) : bool :=
  match x with
  | NaN => true
  | _ => false
  end.

Definition isFinite (x : number) : bool :=
  match x with
  | Finite _ | NegZero => true
  | NaN | Infinity _ => false
  end.

Definition isZero (x : number) : bool :=
  match x with
  | Finite q => Qeq_bool q 0
  | NegZero => true
  | NaN | Infinity _ => false
  end.

(** The rational of a finite number. *)
Definition value (x : number) : Q :=
  match x with
  | Finite q => q
  | _ => 0
  end.

(** The sign bit. *)
Definition negative (x : number) : bool :=
  match x with
  | Finite q => negb (Qle_bool 0 q)
  | NegZero => true
  | NaN => false
  | Infinity s => s
  end.

Definition zero (negative : bool) : number :=
  if negative then NegZero else Finite 0.

(** [x * y] *)
Definition mul (x y : number) : number :=
  match x, y with
  | NaN, _ | _, NaN => NaN
  | Infinity s, _ => if isZero y then NaN else Infinity (xorb s (negative y))
  | _, Infinity s => if isZero x then NaN else Infinity (xorb (negative x) s)
  | _, _ =>
      if isZero x || isZero y then zero (xorb (negative x) (negative y))
      else Finite (value x * value y)
  end.

(** [x / y]: a division by a zero gives an infinity, or NaN for [0 / 0]. *)
Definition div (x y : number) : number :=
  match x, y with
  | NaN, _ | _, NaN => NaN
  | Infinity _, Infinity _ => NaN
  | Infinity s, _ => Infinity (xorb s (negative y))
  | _, Infinity s => zero (xorb (negative x) s)
  | _, _ =>
      if isZero y then
        if isZero x then NaN else Infinity (xorb (negative x) (negative y))
      else if isZero x then zero (xorb (negative x) (negative y))
      else Finite (value x / value y)
  end.

(** [x + y] *)
Definition add (x y : number) : number :=
  match x, y with
  | NaN, _ | _, NaN => NaN
  | Infinity s, Infinity s' => if Bool.eqb s s' then x else NaN
  | Infinity _, _ => x
  | _, Infinity _ => y
  | NegZero, NegZero => NegZero
  | _, _ => Finite (value x + value y)
  end.

(** [x - y] *)
Definition sub (x y : number) : number :=
  match x, y with
  | NaN, _ | _, NaN => NaN
  | Infinity s, Infinity s' => if Bool.eqb s s' then NaN else x
  | Infinity _, _ => x
  | _, Infinity s => Infinity (negb s)
  | NegZero, Finite q => if Qeq_bool q 0 then NegZero else Finite (- q)
  | _, _ => Finite (value x - value y)
  end.

(** The order of two numbers; NaN compares with nothing. *)
Definition compare (x y : number) : option comparison :=
  match x, y with
  | NaN, _ | _, NaN => None
  | Infinity s, Infinity s' =>
      Some (if s then if s' then Eq else Lt else if s' then Gt else Eq)
  | Infinity s, _ => Some (if s then Lt else Gt)
  | _, Infinity s => Some (if s then Gt else Lt)
  | _, _ => Some (value x ?= value y)
  end.

(** [x < y], [x <= y], [x > y], [x >= y] and [x === y] *)
Definition ltb (x y : number) : bool :=
  match compare x y with
  | Some Lt => true
  | _ => false
  end.

Definition leb (x y : number) : bool :=
  match compare x y with
  | Some Lt | Some Eq => true
  | _ => false
  end.

Definition gtb (x y : number) : bool := ltb y x.

Definition geb (x y : number) : bool := leb y x.

Definition eqb (x y : number) : bool :=
  match compare x y with
  | Some Eq => true
  | _ => false
  end.

(** Truthiness of a nullable number: [null], [undefined], the zeros and
    NaN are falsy. *)
Definition truthy (x : option number) : bool :=
  match x with
  | Some n => negb (isZero n || isNaN n)
  | None => false
  end.

(** [a || b] on nullable numbers. *)
Definition or (a b : option number) : option number :=
  if truthy a then a else b.

(** Truthiness of a nullable string: the empty string is falsy. *)
Definition truthyS (x : option string) : bool :=
  match x with
  | Some s => negb (String.eqb s "")
  | None => false
  end.

Definition orS (a b : option string) : option string :=
  if truthyS a then a else b.

(** A template literal prints an undefined value as [undefined]. *)
Definition show (x : option string) : string :=
  match x with
  | Some s => s
  | None => "undefined"
  end.

(** [...overrides] for one key: a key that is present wins, whatever its
    value. *)
Definition spread {A : Type} (base : A) (key : option A) : A :=
  match key with
  | Some v => v
  | None => base
  end.

(** Reading a key of an object literal: an absent key reads [undefined]. *)
Definition read {A : Type} (key : option (option A)) : option A :=
  match key with
  | Some v => v
  | None => None
  end.

Definition nl : string := String (ascii_of_nat 10) EmptyString.

Definition showN (n : N) : string := NilZero.string_of_uint (N.to_uint n).

Definition pad2 (n : N) : string :=
  if (n <? 10)%N then "0" ++ showN n else showN n.

(** [x.toFixed(2)] on a finite value: the integer [n] for which
    [n / 100 - x] is closest to zero, the larger one on a tie, printed
    with two decimals; a negative [x] prints as [-] followed by the
    rendering of [-x]. *)
Definition fixed2 (x : Q) : string :=
  let n := Z.to_N (Qfloor (Qabs x * 100 + (1 # 2))) in
  (if Qle_bool 0 x then "" else "-")
    ++ showN (n / 100) ++ "." ++ pad2 (n mod 100).

(** [x.toFixed(2)].  (A value of 22 digits or more is printed in exponent
    notation, which [fixed2] does not do.) *)
Definition toFixed2 (x : number) : string :=
  match x with
  | Finite q => fixed2 q
  | NegZero => "0.00"
  | NaN => "NaN"
  | Infinity false => "Infinity"
  | Infinity true => "-Infinity"
  end.

(** [hay.includes(needle)]. *)
Fixpoint includes (needle hay : string) : bool :=
  prefix needle hay
  || match hay with
     | EmptyString => false
     | String _ rest => includes needle rest
     end.

End Js.

Notation "a ||| b" := (Js.or a b) (at level 50, left associativity).

Declare Scope js_scope.
Delimit Scope js_scope with js.
Bind Scope js_scope with Js.number.
Number Notation Js.number Js.ofZ Js.toZ : js_scope.
Open Scope js_scope.

(** ** Data model *)

Definition isSome {A : Type} (x : option A) : bool :=
  match x with
  | Some _ => true
  | None => false
  end.

Definition isNone {A : Type} (x : option A) : bool :=
  match x with
  | Some _ => false
  | None => true
  end.

Inductive Opeartion := Buy | Sell | Hold.

Inductive Symbol := BTC | ETH | SOL | BNB | DOGE.

Definition symbolName (s : Symbol) : string :=
  match s with
  | BTC => "BTC" | ETH => "ETH" | SOL => "SOL" | BNB => "BNB" | DOGE => "DOGE"
  end.

Inductive Trend := bullish | bearish | neutral.
Inductive Confidence := high | medium | low.

Record Prediction := {
  short_term_trend : Trend;
  confidence : Confidence;
  support : Q;
  resistance : Q;
  analysis : string
}.

(** The [buy] payload of a decision.  The schema makes the three numbers
    mandatory, [run] tests them against [null] all the same. *)
Module BuyOrder.
Record t := {
  pricing : option Js.number;
  amount : option Js.number;
  leverage : option Js.number;
  stopLossPercent : option Js.number;
  takeProfitPercent : option Js.number
}.
End BuyOrder.

Module SellOrder.
Record t := { percentage : option Js.number }.
End SellOrder.

Module AdjustProfit.
Record t := { stopLoss : option Js.number; takeProfit : option Js.number }.
End AdjustProfit.

(** One decision of the oracle.  [pricing], [amount] and [leverage] are
    the top-level keys that [createTradingData] reads as a fallback. *)
Module Decision.
Record t := {
  opeartion : Opeartion;
  symbol : Symbol;
  buy : option BuyOrder.t;
  sell : option SellOrder.t;
  adjustProfit : option AdjustProfit.t;
  prediction : option Prediction;
  chat : string;
  pricing : option Js.number;
  amount : option Js.number;
  leverage : option Js.number
}.
End Decision.

(** A row of [tradings]: what [createTradingData] returns. *)
Module Trading.
Record t := {
  symbol : Symbol;
  opeartion : Opeartion;
  pricing : option Js.number;
  amount : option Js.number;
  leverage : option Js.number;
  prediction : option Prediction;
  stopLoss : option Js.number;
  takeProfit : option Js.number
}.
End Trading.

(** The second argument of [createTradingData]. *)
Module Overrides.
Record t := {
  opeartion : option Opeartion;
  pricing : option (option Js.number);
  amount : option (option Js.number);
  leverage : option (option Js.number);
  stopLoss : option (option Js.number);
  takeProfit : option (option Js.number)
}.
End Overrides.

(** A row of [chat] with its nested [tradings]. *)
Module Chat.
Record t := {
  reasoning : string;
  chat : string;
  userPrompt : string;
  tradings : list Trading.t
}.
End Chat.

(** [decision.buy?.f] *)
Definition buyField (f : BuyOrder.t -> option Js.number) (decision : Decision.t)
  : option Js.number :=
  match Decision.buy decision with
  | Some b => f b
  | None => None
  end.

(** [createTradingData]: the literal is built first, then [...overrides] is
    spread over it.  [JSON.parse(JSON.stringify(p))] copies [p]. *)
Definition createTradingData (decision : Decision.t) (overrides : Overrides.t)
  : Trading.t :=
  {| Trading.symbol := Decision.symbol decision;
     Trading.opeartion :=
       Js.spread (Decision.opeartion decision) (Overrides.opeartion overrides);
     Trading.pricing :=
       Js.spread
         (Js.read (Overrides.pricing overrides)
            ||| buyField BuyOrder.pricing decision
            ||| Decision.pricing decision
            ||| None)
         (Overrides.pricing overrides);
     Trading.amount :=
       Js.spread
         (Js.read (Overrides.amount overrides)
            ||| buyField BuyOrder.amount decision
            ||| Decision.amount decision
            ||| None)
         (Overrides.amount overrides);
     Trading.leverage :=
       Js.spread
         (buyField BuyOrder.leverage decision
            ||| Decision.leverage decision
            ||| None)
         (Overrides.leverage overrides);
     Trading.prediction := Decision.prediction decision;
     Trading.stopLoss := Js.spread None (Overrides.stopLoss overrides);
     Trading.takeProfit := Js.spread None (Overrides.takeProfit overrides) |}.

(** [z.number().min(lo).max(hi)] *)
Definition between (lo hi : Js.number) (x : option Js.number) : bool :=
  match x with
  | Some q => Js.leb lo q && Js.leb q hi
  | None => false
  end.

(** The bounds of the schema that [run] hands to [generateObject]: the
    numbers of a buy payload are present and its leverage is between 1 and
    30, the percentage of a sell payload is present and between 0 and 100,
    the prediction is present, and no key outside the schema is left.  The
    payloads themselves are optional, whatever the operation. *)
Definition withinSchema (d : Decision.t) : bool :=
  match Decision.buy d with
  | Some o =>
      isSome (BuyOrder.pricing o) && isSome (BuyOrder.amount o)
      && between 1 30 (BuyOrder.leverage o)
  | None => true
  end
  && match Decision.sell d with
     | Some s => between 0 100 (SellOrder.percentage s)
     | None => true
     end
  && isSome (Decision.prediction d)
  && isNone (Decision.pricing d)
  && isNone (Decision.amount d)
  && isNone (Decision.leverage d).

(** [z.array(decisionSchema).min(1).max(5)] *)
Definition batchWithinSchema (ds : list Decision.t) : bool :=
  (1 <=? List.length ds)%nat && (List.length ds <=? 5)%nat
  && forallb withinSchema ds.

(** ** The collaborators *)

Module Position.
Record t := {
  symbol : string;
  contracts : Js.number;
  leverage : option Js.number;
  unrealizedPnl : option Js.number
}.
End Position.

Module Account.
Record t := {
  positions : list Position.t;
  totalCashValue : Js.number;
  availableCash : Js.number
}.
End Account.

(** The verdict of a risk check. *)
Module Verdict.
Record t := { allowed : bool; reason : option string }.
End Verdict.

Module BuyRequest.
Record t := {
  symbol : string;
  amount : Js.number;
  leverage : Js.number;
  stopLossPercent : option Js.number;
  takeProfitPercent : option Js.number
}.
End BuyRequest.

Module SellRequest.
Record t := { symbol : string; percentage : Js.number }.
End SellRequest.

(** What [buy] and [sell] answer; [run] reads the same keys of both. *)
Module OrderResult.
Record t := {
  success : bool;
  orderId : option string;
  executedPrice : option Js.number;
  executedAmount : option Js.number;
  error : option string
}.
End OrderResult.

Module ProtectRequest.
Record t := { symbol : string; stopLoss : option Js.number; takeProfit : option Js.number }.
End ProtectRequest.

Module ProtectResult.
Record t := {
  success : bool;
  stopLossOrderId : option string;
  takeProfitOrderId : option string;
  error : option string
}.
End ProtectResult.

(** The argument of [logTrade]. *)
Module TradeLog.
Record t := {
  action : string;
  symbol : string;
  amount : option Js.number;
  price : option Js.number;
  leverage : option Js.number;
  orderId : option string;
  reason : option string
}.
End TradeLog.

(** The [decisions] key of the object that the oracle answers: absent or
    [null], an array ([Array.isArray]), or any other value. *)
Inductive DecisionsKey :=
| NoDecisions
| DecisionsArray (ds : list Decision.t)
| NotAnArray.

(** The object that the oracle answers.  [single] is [Some] when the
    object has a truthy [opeartion] and [symbol], and is then read as a
    decision. *)
Module OracleObject.
Record t := {
  decisions : DecisionsKey;
  single : option Decision.t;
  reasoning : option string
}.
End OracleObject.

(** What [generateObject] resolves to; [reasoning] and
    [providerReasoning] are already rendered as text. *)
Module OracleResult.
Record t := {
  object : option OracleObject.t;
  reasoning : option string;
  providerReasoning : option string
}.
End OracleResult.

(** How the promise of [generateObject] settles: the time it takes, in
    milliseconds, and what it settles to.  A rejection covers an output
    that fails the schema. *)
Inductive AiCall :=
| Resolves (ms : N) (result : OracleResult.t)
| Rejects (ms : N) (message : string)
| Hangs.

(** What a call returns or throws. *)
Inductive Outcome (A : Type) :=
| Returned (a : A)
| Thrown (e : string).
Arguments Returned {A} a.
Arguments Thrown {A} e.

(** The interfaces that [run] imports.  The fetch of a snapshot, of the
    account and of the positions, the prompt builder and the ledger write
    may throw (an [option] or an [Outcome]); [buy], [sell] and
    [setStopLossTakeProfit] report a failure in the object they answer,
    with its [success] flag and its [error] text.  The two risk checks are
    functions of their arguments.  [stringify] is [JSON.stringify] on the
    decisions, and [notAFunction] is the message of the TypeError that the
    engine raises when [map] is called on a value that has none. *)
Class Collaborators := {
  World : Type;
  MarketState : Type;
  RiskConfig : Type;
  getRiskConfig : World -> RiskConfig;
  live : RiskConfig -> bool;
  getCurrentMarketState : string -> World -> option MarketState * World;
  getAccountInformationAndPerformance :
    option Js.number -> World -> Outcome Account.t * World;
  generateUserPrompt :
    list (string * MarketState) -> Account.t -> World -> Outcome string * World;
  getTradingPrompt : list Symbol -> string;
  generateObject : string -> string -> World -> AiCall * World;
  checkDailyLossLimit : Js.number -> Js.number -> RiskConfig -> Verdict.t;
  checkBuyRisk : Js.number -> Js.number -> Js.number -> Js.number -> RiskConfig -> Verdict.t;
  buy : BuyRequest.t -> World -> OrderResult.t * World;
  sell : SellRequest.t -> World -> OrderResult.t * World;
  fetchPositions : World -> option (list Position.t) * World;
  setStopLossTakeProfit : ProtectRequest.t -> World -> ProtectResult.t * World;
  chatCreate : Chat.t -> World -> option string * World;
  stringify : list Decision.t -> string;
  notAFunction : string
}.

(** ** The trace of a cycle *)

(** The lines that [run] writes with [console.warn] and [console.error]. *)
Inductive LogLine :=
| FetchFailed (symbol : string)
| AiFailed (message : string)
| DailyLossLimit (reason : option string)
| BuyMissingFields
| RiskControl (reason : option string)
| Insufficient (reason : string)
| BuyFailed (error : option string)
| SellMissingPercentage
| PositionInfoFailed
| SellFailed (error : option string)
| PositionClosed
| ProtectFailed (error : option string)
| TradingError (message : string).

(** One entry per call on a collaborator, in the order of the calls.  The
    entry of a [buy] call also keeps the margin computed for the order and
    the entry of [prisma.chat.create] whether the row was stored. *)
Inductive Event :=
| CallMarketState (symbol : string) (ok : bool)
| CallAccount
| CallPrompt
| CallOracle (timeout : N)
| CallBuy (request : BuyRequest.t) (requiredMargin : Js.number)
    (result : OrderResult.t)
| CallFetchPositions
| CallSell (request : SellRequest.t) (result : OrderResult.t)
| CallProtect (request : ProtectRequest.t) (result : ProtectResult.t)
| LogTrade (entry : TradeLog.t)
| Console (line : LogLine)
| ChatCreate (data : Chat.t) (stored : bool).

Definition Trace := list Event.

(** The rows that a trace adds to the ledger. *)
Fixpoint ledgerRows (t : Trace) : list Chat.t :=
  match t with
  | [] => []
  | ChatCreate data true :: t' => data :: ledgerRows t'
  | _ :: t' => ledgerRows t'
  end.

(** The calls of a trace that place an order on the venue. *)
Definition isOrder (e : Event) : bool :=
  match e with
  | CallBuy _ _ _ | CallSell _ _ => true
  | _ => false
  end.

Definition orders (t : Trace) : Trace := filter isOrder t.

Definition isOracle (e : Event) : bool :=
  match e with
  | CallOracle _ => true
  | _ => false
  end.

(** The calls of a trace on the ledger, with their outcome. *)
Fixpoint ledgerCalls (t : Trace) : list (Chat.t * bool) :=
  match t with
  | [] => []
  | ChatCreate data stored :: t' => (data, stored) :: ledgerCalls t'
  | _ :: t' => ledgerCalls t'
  end.

(** The sum of the margins of the buys of a trace that the venue filled. *)
Fixpoint committedMargin (t : Trace) : Js.number :=
  match t with
  | [] => 0
  | CallBuy _ requiredMargin result :: t' =>
      if OrderResult.success result
      then Js.add requiredMargin (committedMargin t')
      else committedMargin t'
  | _ :: t' => committedMargin t'
  end.

(** The running balance at the end of a trace, for a balance that starts
    at [cash] and goes down by the margin of a buy when the venue fills it,
    and only then. *)
Fixpoint balanceAfter (cash : Js.number) (t : Trace) : Js.number :=
  match t with
  | [] => cash
  | CallBuy _ requiredMargin result :: t' =>
      balanceAfter
        (if OrderResult.success result then Js.sub cash requiredMargin
         else cash) t'
  | _ :: t' => balanceAfter cash t'
  end.

(** The running balance after each fill of a trace. *)
Fixpoint balances (cash : Js.number) (t : Trace) : list Js.number :=
  match t with
  | [] => []
  | CallBuy _ requiredMargin result :: t' =>
      if OrderResult.success result
      then Js.sub cash requiredMargin
           :: balances (Js.sub cash requiredMargin) t'
      else balances cash t'
  | _ :: t' => balances cash t'
  end.

(** The buys of a trace are covered by the running balance: no buy is
    sent with a margin greater than the balance at the time of the call. *)
Fixpoint covered (cash : Js.number) (t : Trace) : Prop :=
  match t with
  | [] => True
  | CallBuy _ requiredMargin result :: t' =>
      Js.gtb requiredMargin cash = false
      /\ covered (if OrderResult.success result
                  then Js.sub cash requiredMargin else cash) t'
  | _ :: t' => covered cash t'
  end.

(** The buys of a trace that the venue filled. *)
Definition isFill (e : Event) : bool :=
  match e with
  | CallBuy _ _ result => OrderResult.success result
  | _ => false
  end.

Definition fills (t : Trace) : Trace := filter isFill t.

(** The snapshot fetches of a trace, with their outcome. *)
Fixpoint snapshots (t : Trace) : list (string * bool) :=
  match t with
  | [] => []
  | CallMarketState symbol ok :: t' => (symbol, ok) :: snapshots t'
  | _ :: t' => snapshots t'
  end.

(** The symbols whose failed fetch was logged. *)
Fixpoint warned (t : Trace) : list string :=
  match t with
  | [] => []
  | Console (FetchFailed symbol) :: t' => symbol :: warned t'
  | _ :: t' => warned t'
  end.

(** The entries that [run] writes before it asks the oracle. *)
Definition isPreparation (e : Event) : bool :=
  match e with
  | CallMarketState _ _ | CallAccount | CallPrompt
  | Console (FetchFailed _) => true
  | _ => false
  end.

(** ** The monad of a cycle *)

Section Cycle.

Context {C : Collaborators}.

(** A computation reads and changes the world, appends to the trace and
    returns or throws. *)
Definition M (A : Type) : Type := World -> Outcome A * World * Trace.

Definition ret {A : Type} (a : A) : M A :=
  fun w => (Returned a, w, []).

Definition throw {A : Type} (e : string) : M A :=
  fun w => (Thrown e, w, []).

Definition bind {A B : Type} (m : M A) (k : A -> M B) : M B :=
  fun w =>
    match m w with
    | (Returned a, w1, t1) =>
        match k a w1 with
        | (r, w2, t2) => (r, w2, (t1 ++ t2)%list)
        end
    | (Thrown e, w1, t1) => (Thrown e, w1, t1)
    end.

(** [try { m } catch (e) { handler(e) }] *)
Definition tryCatch {A : Type} (m : M A) (handler : string -> M A) : M A :=
  fun w =>
    match m w with
    | (Returned a, w1, t1) => (Returned a, w1, t1)
    | (Thrown e, w1, t1) =>
        match handler e w1 with
        | (r, w2, t2) => (r, w2, (t1 ++ t2)%list)
        end
    end.

Definition emit (t : Trace) : M unit :=
  fun w => (Returned tt, w, t).

(** A call on a collaborator, with its entry in the trace. *)
Definition call {A : Type} (f : World -> A * World) (entry : A -> Event)
  : M A :=
  fun w =>
    match f w with
    | (a, w1) => (Returned a, w1, [entry a])
    end.

(** A call on a collaborator that may throw. *)
Definition callThrowing {A : Type} (f : World -> Outcome A * World)
  (entry : Event) : M A :=
  fun w =>
    match f w with
    | (r, w1) => (r, w1, [entry])
    end.

(** [await prisma.chat.create({ data })] *)
Definition prismaChatCreate (data : Chat.t) : M unit :=
  fun w =>
    match chatCreate data w with
    | (None, w1) => (Returned tt, w1, [ChatCreate data true])
    | (Some e, w1) => (Thrown e, w1, [ChatCreate data false])
    end.

End Cycle.

Declare Scope cycle_scope.
Delimit Scope cycle_scope with cycle.
Notation "x <- m ;; k" := (bind m (fun x => k))
  (at level 61, m at next level, right associativity) : cycle_scope.
Notation "m ;; k" := (bind m (fun _ => k))
  (at level 61, right associativity) : cycle_scope.
Open Scope cycle_scope.

(** ** [run] *)

Section Run.

Context {C : Collaborators}.

Definition supportedSymbols : list string :=
  ["BTC/USDT"; "ETH/USDT"; "SOL/USDT"; "BNB/USDT"; "DOGE/USDT"].

Definition supportedSymbolEnums : list Symbol := [BTC; ETH; SOL; BNB; DOGE].

(** The callback of [supportedSymbols.map]: a fetch that throws is caught,
    logged and answers [null]. *)
Definition fetchMarketState (symbol : string)
  : M (option (string * MarketState)) :=
  state <- call (getCurrentMarketState symbol)
             (fun s => CallMarketState symbol (isSome s)) ;;
  match state with
  | Some s => ret (Some (symbol, s))
  | None => emit [Console (FetchFailed symbol)] ;; ret None
  end.

(** [Promise.all(symbols.map(...))]: the fetches are started in the order of
    the list, and the results keep that order. *)
Fixpoint fetchMarketStates (symbols : list string)
  : M (list (option (string * MarketState))) :=
  match symbols with
  | [] => ret []
  | symbol :: rest =>
      item <- fetchMarketState symbol ;;
      items <- fetchMarketStates rest ;;
      ret (item :: items)
  end.

(** [marketStates.filter(item => item !== null)] *)
Fixpoint notNull {A : Type} (items : list (option A)) : list A :=
  match items with
  | [] => []
  | Some a :: rest => a :: notNull rest
  | None :: rest => notNull rest
  end.

(** *** The oracle call *)

Definition timeout : N := 120000.

Definition timeoutMessage : string :=
  "AI call timeout after " ++ Js.showN (timeout / 1000) ++ "s".

(** [Promise.race([aiCallPromise, timeoutPromise])]: the promise that
    settles first wins. *)
Definition race (ai : AiCall) : Outcome OracleResult.t :=
  match ai with
  | Resolves ms result =>
      if (ms <? timeout)%N then Returned result else Thrown timeoutMessage
  | Rejects ms message =>
      if (ms <? timeout)%N then Thrown message else Thrown timeoutMessage
  | Hangs => Thrown timeoutMessage
  end.

(** [error?.message || error] inside a template literal. *)
Definition errorText (message : string) : string :=
  if String.eqb message "" then "Error" else message.

Definition chatLine (d : Decision.t) : string :=
  "[" ++ symbolName (Decision.symbol d) ++ "] " ++ Decision.chat d.

(** The [reasoning] of the cycle, by the first source that has one.  The
    last source is [object?.decisions?.map(...).join(...)]: the call of
    [map] throws when [decisions] is there and is not an array. *)
Definition reasoningOf (result : OracleResult.t) : Outcome string :=
  if Js.truthyS (OracleResult.reasoning result) then
    Returned (Js.show (OracleResult.reasoning result))
  else if Js.truthyS (OracleResult.providerReasoning result) then
    Returned (Js.show (OracleResult.providerReasoning result))
  else
    match OracleResult.object result with
    | None => Returned ""
    | Some object =>
        if Js.truthyS (OracleObject.reasoning object) then
          Returned (Js.show (OracleObject.reasoning object))
        else
          match OracleObject.decisions object with
          | DecisionsArray ds =>
              Returned (String.concat Js.nl (map chatLine ds))
          | NoDecisions => Returned ""
          | NotAnArray => Thrown notAFunction
          end
    end.

(** The [catch] of the oracle call: the failure is logged and thrown again
    as [AI failed: ...]. *)
Definition aiFailed {A : Type} (message : string) : M A :=
  emit [Console (AiFailed (errorText message))] ;;
  throw ("AI failed: " ++ errorText message).

(** The oracle is asked once, under the timeout.  The reasoning is read
    inside the same [try]. *)
Definition askOracle (tradingPrompt userPrompt : string)
  : M (option OracleObject.t * string) :=
  ai <- call (generateObject tradingPrompt userPrompt)
          (fun _ => CallOracle timeout) ;;
  match race ai with
  | Returned result =>
      match reasoningOf result with
      | Returned reasoning => ret (OracleResult.object result, reasoning)
      | Thrown message => aiFailed message
      end
  | Thrown message => aiFailed message
  end.

(** The decisions of the answer, with the single-decision shape kept for
    backward compatibility. *)
Definition decisionsOf (object : option OracleObject.t)
  : M (list Decision.t) :=
  match object with
  | None => throw "AI failed to generate valid response"
  | Some o =>
      match OracleObject.decisions o, OracleObject.single o with
      | DecisionsArray ds, _ => ret ds
      | _, Some d => ret [d]
      | _, None => throw "AI response missing 'decisions' array"
      end
  end.

(** *** The decisions of a batch *)

(** What the loop over the decisions carries from one decision to the
    next. *)
Record Batch := {
  remainingAvailableCash : Js.number;
  allTradingRecords : list Trading.t;
  allChatMessages : list string
}.

Definition pushChat (message : string) (b : Batch) : Batch :=
  {| remainingAvailableCash := remainingAvailableCash b;
     allTradingRecords := allTradingRecords b;
     allChatMessages := (allChatMessages b ++ [message])%list |}.

Definition pushRecord (record : Trading.t) (b : Batch) : Batch :=
  {| remainingAvailableCash := remainingAvailableCash b;
     allTradingRecords := (allTradingRecords b ++ [record])%list;
     allChatMessages := allChatMessages b |}.

Definition deduct (requiredMargin : Js.number) (b : Batch) : Batch :=
  {| remainingAvailableCash := Js.sub (remainingAvailableCash b) requiredMargin;
     allTradingRecords := allTradingRecords b;
     allChatMessages := allChatMessages b |}.

Definition tradingSymbol (s : Symbol) : string := symbolName s ++ "/USDT".

(** [tradingSymbol.replace("/", "")] *)
Definition binanceSymbol (s : Symbol) : string := symbolName s ++ "USDT".

Definition blockedLine (s : Symbol) (reason : string) : string :=
  "[" ++ symbolName s ++ " BLOCKED] " ++ reason.

Definition insufficientReason (requiredMargin remaining : Js.number) : string :=
  "Insufficient remaining margin for multi-order batch: need $"
    ++ Js.toFixed2 requiredMargin ++ " but have $" ++ Js.toFixed2 remaining.

(** The three numbers of a buy payload, when none of them is missing. *)
Definition completeBuy (object : Decision.t)
  : option (BuyOrder.t * Js.number * Js.number * Js.number) :=
  match Decision.buy object with
  | Some order =>
      match BuyOrder.pricing order, BuyOrder.amount order,
            BuyOrder.leverage order with
      | Some pricing, Some amount, Some leverage =>
          Some (order, pricing, amount, leverage)
      | _, _, _ => None
      end
  | None => None
  end.

Definition requiredMarginOf (amount pricing leverage : Js.number) : Js.number :=
  Js.div (Js.mul amount pricing) leverage.

Definition outcomeReason (result : OrderResult.t) : option string :=
  if OrderResult.success result then Some "Success"
  else OrderResult.error result.

(** The argument of [buy]. *)
Definition buyRequest (object : Decision.t) (order : BuyOrder.t)
  (amount leverage : Js.number) : BuyRequest.t :=
  {| BuyRequest.symbol := tradingSymbol (Decision.symbol object);
     BuyRequest.amount := amount;
     BuyRequest.leverage := leverage;
     BuyRequest.stopLossPercent := BuyOrder.stopLossPercent order;
     BuyRequest.takeProfitPercent := BuyOrder.takeProfitPercent order |}.

(** The [Buy] branch of the loop. *)
Definition processBuy (riskConfig : RiskConfig) (object : Decision.t)
  (b : Batch) : M Batch :=
  match completeBuy object with
  | None =>
      emit [Console BuyMissingFields] ;;
      ret (pushRecord
             (createTradingData object
                {| Overrides.opeartion := Some Hold;
                   Overrides.pricing :=
                     Some (buyField BuyOrder.pricing object ||| None);
                   Overrides.amount :=
                     Some (buyField BuyOrder.amount object ||| None);
                   Overrides.leverage :=
                     Some (buyField BuyOrder.leverage object ||| None);
                   Overrides.stopLoss := None;
                   Overrides.takeProfit := None |}) b)
  | Some (order, pricing, amount, leverage) =>
      let requiredMargin := requiredMarginOf amount pricing leverage in
      let riskCheck :=
        checkBuyRisk amount pricing leverage (remainingAvailableCash b)
          riskConfig in
      if negb (Verdict.allowed riskCheck) then
        emit [Console (RiskControl (Verdict.reason riskCheck))] ;;
        ret (pushRecord
               (createTradingData object
                  {| Overrides.opeartion := None;
                     Overrides.pricing := Some (Some pricing);
                     Overrides.amount := Some (Some amount);
                     Overrides.leverage := Some (Some leverage);
                     Overrides.stopLoss := None;
                     Overrides.takeProfit := None |})
               (pushChat
                  (blockedLine (Decision.symbol object)
                     (Js.show (Verdict.reason riskCheck))) b))
      else if Js.gtb requiredMargin (remainingAvailableCash b) then
        let reason :=
          insufficientReason requiredMargin (remainingAvailableCash b) in
        emit [Console (Insufficient reason)] ;;
        ret (pushRecord
               (createTradingData object
                  {| Overrides.opeartion := Some Hold;
                     Overrides.pricing := None;
                     Overrides.amount := None;
                     Overrides.leverage := None;
                     Overrides.stopLoss := None;
                     Overrides.takeProfit := None |})
               (pushChat (blockedLine (Decision.symbol object) reason) b))
      else
        let request := buyRequest object order amount leverage in
        buyResult <- call (buy request)
                       (fun r => CallBuy request requiredMargin r) ;;
        emit (if OrderResult.success buyResult then []
              else [Console (BuyFailed (OrderResult.error buyResult))]) ;;
        emit [LogTrade
                {| TradeLog.action :=
                     if live riskConfig then "buy" else "dry-run-buy";
                   TradeLog.symbol := tradingSymbol (Decision.symbol object);
                   TradeLog.amount := Some amount;
                   TradeLog.price := OrderResult.executedPrice buyResult;
                   TradeLog.leverage := Some leverage;
                   TradeLog.orderId := OrderResult.orderId buyResult;
                   TradeLog.reason := outcomeReason buyResult |}] ;;
        let b1 :=
          if OrderResult.success buyResult then deduct requiredMargin b
          else b in
        ret (pushRecord
               (createTradingData object
                  {| Overrides.opeartion := None;
                     Overrides.pricing :=
                       Some (OrderResult.executedPrice buyResult
                               ||| Some pricing);
                     Overrides.amount :=
                       Some (OrderResult.executedAmount buyResult
                               ||| Some amount);
                     Overrides.leverage := Some (Some leverage);
                     Overrides.stopLoss := None;
                     Overrides.takeProfit := None |}) b1)
  end.

(** [positions.find(p => p.symbol === binanceSymbol && p.contracts !== 0)],
    inside its [try]: a failing lookup is logged and leaves [null]. *)
Definition positionInfoOf (s : Symbol) : M (option Position.t) :=
  positions <- call fetchPositions (fun _ => CallFetchPositions) ;;
  match positions with
  | Some ps =>
      ret (find (fun p =>
                   String.eqb (Position.symbol p) (binanceSymbol s)
                   && negb (Js.eqb (Position.contracts p) 0)) ps)
  | None => emit [Console PositionInfoFailed] ;; ret None
  end.

Definition noOpenPosition (error : option string) : bool :=
  match error with
  | Some e => Js.includes "No open position" e
  | None => false
  end.

(** The argument of [sell]. *)
Definition sellRequest (object : Decision.t) (percentage : Js.number)
  : SellRequest.t :=
  {| SellRequest.symbol := tradingSymbol (Decision.symbol object);
     SellRequest.percentage := percentage |}.

(** The [Sell] branch of the loop. *)
Definition processSell (riskConfig : RiskConfig) (object : Decision.t)
  (b : Batch) : M Batch :=
  match Decision.sell object with
  | Some {| SellOrder.percentage := Some percentage |} =>
      positionInfo <- positionInfoOf (Decision.symbol object) ;;
      let request := sellRequest object percentage in
      sellResult <- call (sell request) (fun r => CallSell request r) ;;
      emit (if OrderResult.success sellResult then []
            else Console (SellFailed (OrderResult.error sellResult))
                 :: if noOpenPosition (OrderResult.error sellResult)
                    then [Console PositionClosed] else []) ;;
      emit [LogTrade
              {| TradeLog.action :=
                   if live riskConfig then "sell" else "dry-run-sell";
                 TradeLog.symbol := tradingSymbol (Decision.symbol object);
                 TradeLog.amount :=
                   OrderResult.executedAmount sellResult ||| Some 0;
                 TradeLog.price := OrderResult.executedPrice sellResult;
                 TradeLog.leverage := None;
                 TradeLog.orderId := OrderResult.orderId sellResult;
                 TradeLog.reason := outcomeReason sellResult |}] ;;
      ret (pushRecord
             (createTradingData object
                {| Overrides.opeartion := None;
                   Overrides.pricing :=
                     Some (OrderResult.executedPrice sellResult);
                   Overrides.amount :=
                     Some (OrderResult.executedAmount sellResult ||| Some 0);
                   Overrides.leverage :=
                     Some (match positionInfo with
                           | Some p => Position.leverage p
                           | None => None
                           end ||| None);
                   Overrides.stopLoss := None;
                   Overrides.takeProfit := None |}) b)
  | _ =>
      emit [Console SellMissingPercentage] ;;
      ret (pushRecord
             (createTradingData object
                {| Overrides.opeartion := Some Hold;
                   Overrides.pricing := None;
                   Overrides.amount := None;
                   Overrides.leverage := None;
                   Overrides.stopLoss := None;
                   Overrides.takeProfit := None |}) b)
  end.

(** [object.adjustProfit?.f] *)
Definition adjustField (f : AdjustProfit.t -> option Js.number) (object : Decision.t)
  : option Js.number :=
  match Decision.adjustProfit object with
  | Some a => f a
  | None => None
  end.

(** The [Hold] branch of the loop. *)
Definition processHold (object : Decision.t) (b : Batch) : M Batch :=
  let shouldAdjustProfit :=
    isSome (Decision.adjustProfit object)
    && (isSome (adjustField AdjustProfit.stopLoss object)
        || isSome (adjustField AdjustProfit.takeProfit object)) in
  (if shouldAdjustProfit then
     let request :=
       {| ProtectRequest.symbol := tradingSymbol (Decision.symbol object);
          ProtectRequest.stopLoss := adjustField AdjustProfit.stopLoss object;
          ProtectRequest.takeProfit :=
            adjustField AdjustProfit.takeProfit object |} in
     slTpResult <- call (setStopLossTakeProfit request)
                     (fun r => CallProtect request r) ;;
     emit (if ProtectResult.success slTpResult then []
           else [Console (ProtectFailed (ProtectResult.error slTpResult))])
   else ret tt) ;;
  ret (pushRecord
         (createTradingData object
            {| Overrides.opeartion := None;
               Overrides.pricing := None;
               Overrides.amount := None;
               Overrides.leverage := None;
               Overrides.stopLoss :=
                 Some (adjustField AdjustProfit.stopLoss object ||| None);
               Overrides.takeProfit :=
                 Some (adjustField AdjustProfit.takeProfit object ||| None) |})
         b).

(** [if (object.chat) allChatMessages.push(...)] *)
Definition withChat (object : Decision.t) (b : Batch) : Batch :=
  if String.eqb (Decision.chat object) "" then b
  else pushChat (chatLine object) b.

(** The body of [for (const decision of decisions)]. *)
Definition processDecision (riskConfig : RiskConfig) (object : Decision.t)
  (b : Batch) : M Batch :=
  match Decision.opeartion object with
  | Buy => processBuy riskConfig object (withChat object b)
  | Sell => processSell riskConfig object (withChat object b)
  | Hold => processHold object (withChat object b)
  end.

Fixpoint processDecisions (riskConfig : RiskConfig)
  (decisions : list Decision.t) (b : Batch) : M Batch :=
  match decisions with
  | [] => ret b
  | decision :: rest =>
      b1 <- processDecision riskConfig decision b ;;
      processDecisions riskConfig rest b1
  end.

(** *** The daily-loss gate and the ledger write *)

(** [pos.unrealizedPnl || 0] *)
Definition orZero (x : option Js.number) : Js.number :=
  match x ||| Some 0 with
  | Some q => q
  | None => 0
  end.

Definition totalUnrealizedPnl (positions : list Position.t) : Js.number :=
  fold_left (fun sum pos => Js.add sum (orZero (Position.unrealizedPnl pos)))
    positions 0.

(** [text || placeholder] *)
Definition orPlaceholder (text placeholder : string) : string :=
  if String.eqb text "" then placeholder else text.

Definition holdOverride : Overrides.t :=
  {| Overrides.opeartion := Some Hold;
     Overrides.pricing := None;
     Overrides.amount := None;
     Overrides.leverage := None;
     Overrides.stopLoss := None;
     Overrides.takeProfit := None |}.

Definition blockedChat (reason : option string) (decisions : list Decision.t)
  : string :=
  "[BLOCKED BY RISK CONTROL] " ++ Js.show reason ++ Js.nl ++ Js.nl
    ++ "Original AI decisions: " ++ substring 0 1000 (stringify decisions).

(** The row of a cycle that the daily-loss gate blocks: every decision is
    recorded with its operation set to [Hold]. *)
Definition blockedRow (reasoning userPrompt : string)
  (decisions : list Decision.t) (dailyLossCheck : Verdict.t) : Chat.t :=
  {| Chat.reasoning := orPlaceholder reasoning "<no reasoning>";
     Chat.chat := blockedChat (Verdict.reason dailyLossCheck) decisions;
     Chat.userPrompt := userPrompt;
     Chat.tradings :=
       map (fun d => createTradingData d holdOverride) decisions |}.

Definition startOfBatch (account : Account.t) : Batch :=
  {| remainingAvailableCash := Account.availableCash account;
     allTradingRecords := [];
     allChatMessages := [] |}.

Definition combinedChat (b : Batch) : string :=
  match allChatMessages b with
  | [] => "<no chat>"
  | messages => String.concat (Js.nl ++ Js.nl) messages
  end.

(** The row of a cycle that went through its decisions. *)
Definition batchRow (reasoning userPrompt : string) (b : Batch) : Chat.t :=
  {| Chat.reasoning := orPlaceholder reasoning "<no reasoning>";
     Chat.chat := combinedChat b;
     Chat.userPrompt := userPrompt;
     Chat.tradings := allTradingRecords b |}.

(** What the cycle knows once the oracle has answered. *)
Record Decided := {
  account : Account.t;
  userPrompt : string;
  reasoning : string;
  decisions : list Decision.t
}.

Definition dailyLossCheck (riskConfig : RiskConfig) (account : Account.t)
  : Verdict.t :=
  checkDailyLossLimit
    (totalUnrealizedPnl (Account.positions account))
    (Account.totalCashValue account) riskConfig.

(** [run] from the daily-loss check to the ledger write.  A cycle that the
    gate blocks writes its row and returns. *)
Definition trade (riskConfig : RiskConfig) (d : Decided) : M unit :=
  let check := dailyLossCheck riskConfig (account d) in
  if negb (Verdict.allowed check) then
    emit [Console (DailyLossLimit (Verdict.reason check))] ;;
    prismaChatCreate
      (blockedRow (reasoning d) (userPrompt d) (decisions d) check)
  else
    b <- processDecisions riskConfig (decisions d)
           (startOfBatch (account d)) ;;
    prismaChatCreate (batchRow (reasoning d) (userPrompt d) b).

(** [run] up to the oracle call: the snapshots, the account and the
    prompt. *)
Definition prepare (initialCapital : option Js.number) : M (Account.t * string) :=
  marketStates <- fetchMarketStates supportedSymbols ;;
  account <- callThrowing (getAccountInformationAndPerformance initialCapital)
               CallAccount ;;
  userPrompt <- callThrowing
                  (generateUserPrompt (notNull marketStates) account)
                  CallPrompt ;;
  ret (account, userPrompt).

(** [run] up to the decisions of the oracle. *)
Definition decide (initialCapital : option Js.number) : M Decided :=
  prepared <- prepare initialCapital ;;
  answer <- askOracle (getTradingPrompt supportedSymbolEnums) (snd prepared) ;;
  decisions <- decisionsOf (fst answer) ;;
  ret {| account := fst prepared;
         userPrompt := snd prepared;
         reasoning := snd answer;
         decisions := decisions |}.

(** [run]: whatever the body throws is logged and thrown again. *)
Definition run (initialCapital : option Js.number) : M unit :=
  fun w =>
    let riskConfig := getRiskConfig w in
    tryCatch
      (d <- decide initialCapital ;;
       trade riskConfig d)
      (fun e => emit [Console (TradingError e)] ;; throw e) w.

End Run.

(** ** The vocabulary of the properties *)

(** What every branch of the loop body does: it returns, appends one
    record, built for the decision, keeps the accounts of the running
    balance, and writes nothing to the ledger. *)
Record StepSpec (d : Decision.t) (b b' : Batch) (t : Trace) : Prop := {
  step_record :
    exists r,
      allTradingRecords b' = (allTradingRecords b ++ [r])%list
      /\ Trading.symbol r = Decision.symbol d
      /\ Trading.prediction r = Decision.prediction d;
  step_balance :
    remainingAvailableCash b' = balanceAfter (remainingAvailableCash b) t;
  step_covered : covered (remainingAvailableCash b) t;
  step_ledger : ledgerRows t = [];
  step_oracle : filter isOracle t = []
}.

Definition recordFor (d : Decision.t) (r : Trading.t) : Prop :=
  Trading.symbol r = Decision.symbol d
  /\ Trading.prediction r = Decision.prediction d.

(** The same for the whole loop: one record per decision, in the order of
    the decisions. *)
Record BatchSpec (ds : list Decision.t) (b b' : Batch) (t : Trace) : Prop := {
  batch_records :
    exists rs,
      allTradingRecords b' = (allTradingRecords b ++ rs)%list
      /\ Forall2 recordFor ds rs;
  batch_balance :
    remainingAvailableCash b' = balanceAfter (remainingAvailableCash b) t;
  batch_covered : covered (remainingAvailableCash b) t;
  batch_ledger : ledgerRows t = [];
  batch_oracle : filter isOracle t = []
}.

(** What [getCurrentMarketState] answers for the instruments of a list,
    asked one after the other. *)
Fixpoint answersOf {C : Collaborators} (symbols : list string) (w : World)
  : list (string * option MarketState) * World :=
  match symbols with
  | [] => ([], w)
  | symbol :: rest =>
      match getCurrentMarketState symbol w with
      | (state, w1) =>
          match answersOf rest w1 with
          | (states, w2) => ((symbol, state) :: states, w2)
          end
      end
  end.

(** The instruments that were answered with a snapshot, with their
    snapshot, and those whose fetch failed. *)
Fixpoint successful {S : Type} (answers : list (string * option S))
  : list (string * S) :=
  match answers with
  | [] => []
  | (symbol, Some state) :: rest => (symbol, state) :: successful rest
  | (_, None) :: rest => successful rest
  end.

Fixpoint failing {S : Type} (answers : list (string * option S))
  : list string :=
  match answers with
  | [] => []
  | (_, Some _) :: rest => failing rest
  | (symbol, None) :: rest => symbol :: failing rest
  end.

(** An answer of the oracle brings a reasoning of its own, beside the
    chats of its decisions. *)
Definition hasReasoning (result : OracleResult.t) (o : OracleObject.t)
  : bool :=
  Js.truthyS (OracleResult.reasoning result)
  || Js.truthyS (OracleResult.providerReasoning result)
  || Js.truthyS (OracleObject.reasoning o).

(** The margin that a Buy with its three numbers asks for is a finite
    number. *)
Definition finiteMargin (d : Decision.t) : Prop :=
  match Decision.opeartion d, completeBuy d with
  | Buy, Some (_, pricing, amount, leverage) =>
      Js.isFinite (Js.div (Js.mul amount pricing) leverage) = true
  | _, _ => True
  end.

(** The margin of a call of [buy]. *)
Definition marginOf (e : Event) : Js.number :=
  match e with
  | CallBuy _ requiredMargin _ => requiredMargin
  | _ => 0
  end.

(** The oracle does not answer in time, or rejects. *)
Definition lateOrRejected (ai : AiCall) : Prop :=
  match ai with
  | Resolves ms _ => (timeout < ms)%N
  | Rejects _ _ => True
  | Hangs => True
  end.

(** A decision that lacks a field its operation needs. *)
Definition missingField (d : Decision.t) : bool :=
  match Decision.opeartion d with
  | Buy => isNone (completeBuy d)
  | Sell =>
      match Decision.sell d with
      | Some {| SellOrder.percentage := Some _ |} => false
      | _ => true
      end
  | Hold => false
  end.



(** ** A scripted desk

    Collaborators that answer from a script, whatever the world: used to
    run the cycle on concrete inputs. *)

Module Desk.

Record Script := {
  snapshot : string -> bool;
  accountState : Outcome Account.t;
  prompt : Outcome string;
  answer : AiCall;
  dailyLoss : Verdict.t;
  buyRisk : Js.number -> Js.number -> Js.number -> Js.number -> Verdict.t;
  buyFill : BuyRequest.t -> OrderResult.t;
  sellFill : SellRequest.t -> OrderResult.t;
  openPositions : option (list Position.t);
  protect : ProtectResult.t;
  ledgerError : option string
}.

Definition collaborators (s : Script) : Collaborators :=
  {| World := unit;
     MarketState := unit;
     RiskConfig := unit;
     getRiskConfig := fun _ => tt;
     live := fun _ => false;
     getCurrentMarketState := fun symbol w =>
       (if snapshot s symbol then Some tt else None, w);
     getAccountInformationAndPerformance := fun _ w => (accountState s, w);
     generateUserPrompt := fun _ _ w => (prompt s, w);
     getTradingPrompt := fun _ => "system";
     generateObject := fun _ _ w => (answer s, w);
     checkDailyLossLimit := fun _ _ _ => dailyLoss s;
     checkBuyRisk := fun amount price leverage balance _ =>
       buyRisk s amount price leverage balance;
     buy := fun request w => (buyFill s request, w);
     sell := fun request w => (sellFill s request, w);
     fetchPositions := fun w => (openPositions s, w);
     setStopLossTakeProfit := fun _ w => (protect s, w);
     chatCreate := fun _ w => (ledgerError s, w);
     stringify := fun _ => "[]";
     notAFunction := "object?.decisions?.map is not a function" |}.

Definition allow : Verdict.t :=
  {| Verdict.allowed := true; Verdict.reason := None |}.

Definition deny (reason : string) : Verdict.t :=
  {| Verdict.allowed := false; Verdict.reason := Some reason |}.

(** A fill at the given price for the amount asked. *)
Definition filled (price : Js.number) (request : BuyRequest.t) : OrderResult.t :=
  {| OrderResult.success := true;
     OrderResult.orderId := Some "1";
     OrderResult.executedPrice := Some price;
     OrderResult.executedAmount := Some (BuyRequest.amount request);
     OrderResult.error := None |}.

Definition failed (error : string) : OrderResult.t :=
  {| OrderResult.success := false;
     OrderResult.orderId := None;
     OrderResult.executedPrice := None;
     OrderResult.executedAmount := None;
     OrderResult.error := Some error |}.

Definition cash (available : Js.number) : Account.t :=
  {| Account.positions := [];
     Account.totalCashValue := available;
     Account.availableCash := available |}.

Definition outlook : Prediction :=
  {| short_term_trend := neutral; confidence := low;
     support := 90; resistance := 110; analysis := "range" |}.

Definition decision (opeartion : Opeartion) (symbol : Symbol)
  (buy : option BuyOrder.t) (sell : option SellOrder.t) (chat : string)
  : Decision.t :=
  {| Decision.opeartion := opeartion;
     Decision.symbol := symbol;
     Decision.buy := buy;
     Decision.sell := sell;
     Decision.adjustProfit := None;
     Decision.prediction := Some outlook;
     Decision.chat := chat;
     Decision.pricing := None;
     Decision.amount := None;
     Decision.leverage := None |}.

Definition order (pricing amount leverage : Js.number) : option BuyOrder.t :=
  Some {| BuyOrder.pricing := Some pricing;
          BuyOrder.amount := Some amount;
          BuyOrder.leverage := Some leverage;
          BuyOrder.stopLossPercent := None;
          BuyOrder.takeProfitPercent := None |}.

Definition close (percentage : Js.number) : option SellOrder.t :=
  Some {| SellOrder.percentage := Some percentage |}.

Definition answers (ds : list Decision.t) : AiCall :=
  Resolves 1500
    {| OracleResult.object :=
         Some {| OracleObject.decisions := DecisionsArray ds;
                 OracleObject.single := None;
                 OracleObject.reasoning := None |};
       OracleResult.reasoning := Some "thinking";
       OracleResult.providerReasoning := None |}.

(** A desk with 1000 of cash: every buy is filled at 100, every sell finds
    no open position, and every other call succeeds. *)
Definition calm (ds : list Decision.t) : Script :=
  {| snapshot := fun _ => true;
     accountState := Returned (cash 1000);
     prompt := Returned "prompt";
     answer := answers ds;
     dailyLoss := allow;
     buyRisk := fun _ _ _ _ => allow;
     buyFill := filled 100;
     sellFill := fun _ => failed "No open position";
     openPositions := Some [];
     protect :=
       {| ProtectResult.success := true;
          ProtectResult.stopLossOrderId := None;
          ProtectResult.takeProfitOrderId := None;
          ProtectResult.error := None |};
     ledgerError := None |}.

End Desk.

(** ** The cycle on the scripted desk *)

Module Runs.

Import Desk.

(** Two buys of 600 of margin each, on 1000 of cash. *)
Definition twoBuys : list Decision.t :=
  [decision Buy BTC (order 100 30 5) None "breakout";
   decision Buy ETH (order 100 30 5) None "follow"].

Definition oneBuy : list Decision.t :=
  [decision Buy BTC (order 100 3 5) None "momentum"].

Definition buyWithoutPayload : list Decision.t :=
  [decision Buy BTC None None "go long"].

Definition plainHold : list Decision.t :=
  [decision Hold BTC None None "go long"].

Definition oneSell : list Decision.t :=
  [decision Sell SOL None (close 50) "take profit"].


(** The desk of [calm], with the venue refusing every buy. *)
Definition refusing (error : string) (ds : list Decision.t) : Script :=
  {| snapshot := snapshot (calm ds);
     accountState := accountState (calm ds);
     prompt := prompt (calm ds);
     answer := answer (calm ds);
     dailyLoss := dailyLoss (calm ds);
     buyRisk := buyRisk (calm ds);
     buyFill := fun _ => failed error;
     sellFill := sellFill (calm ds);
     openPositions := openPositions (calm ds);
     protect := protect (calm ds);
     ledgerError := ledgerError (calm ds) |}.

(** The desk of [calm], with [checkBuyRisk] denying every buy. *)
Definition cautious (reason : string) (ds : list Decision.t) : Script :=
  {| snapshot := snapshot (calm ds);
     accountState := accountState (calm ds);
     prompt := prompt (calm ds);
     answer := answer (calm ds);
     dailyLoss := dailyLoss (calm ds);
     buyRisk := fun _ _ _ _ => deny reason;
     buyFill := buyFill (calm ds);
     sellFill := sellFill (calm ds);
     openPositions := openPositions (calm ds);
     protect := protect (calm ds);
     ledgerError := ledgerError (calm ds) |}.

(** The desk of [calm], with the daily-loss check denying. *)
Definition halted (reason : string) (ds : list Decision.t) : Script :=
  {| snapshot := snapshot (calm ds);
     accountState := accountState (calm ds);
     prompt := prompt (calm ds);
     answer := answer (calm ds);
     dailyLoss := deny reason;
     buyRisk := buyRisk (calm ds);
     buyFill := buyFill (calm ds);
     sellFill := sellFill (calm ds);
     openPositions := openPositions (calm ds);
     protect := protect (calm ds);
     ledgerError := ledgerError (calm ds) |}.

(** The desk of [calm], with an oracle that does not settle. *)
Definition silent (ds : list Decision.t) : Script :=
  {| snapshot := snapshot (calm ds);
     accountState := accountState (calm ds);
     prompt := prompt (calm ds);
     answer := Hangs;
     dailyLoss := dailyLoss (calm ds);
     buyRisk := buyRisk (calm ds);
     buyFill := buyFill (calm ds);
     sellFill := sellFill (calm ds);
     openPositions := openPositions (calm ds);
     protect := protect (calm ds);
     ledgerError := ledgerError (calm ds) |}.

(** The text of a ledger row: its three strings and the analyses of its
    records. *)
Definition rowText (row : Chat.t) : list string :=
  (Chat.chat row :: Chat.reasoning row :: Chat.userPrompt row
   :: map (fun r => match Trading.prediction r with
                    | Some p => analysis p
                    | None => ""
                    end) (Chat.tradings row))%list.

Definition mentions (text : string) (row : Chat.t) : bool :=
  existsb (Js.includes text) (rowText row).

(** The cycle on a desk. *)
Definition cycle (s : Script) : Outcome unit * unit * Trace :=
  @run (collaborators s) None tt.

End Runs.

(** ** The orders and the messages of a batch *)

(** The order that a decision can place: a buy for a Buy with its three
    numbers, a sell for a Sell with its percentage, each for the
    instrument of the decision and with its figures. *)
Definition orderFor (d : Decision.t) (e : Event) : Prop :=
  match e with
  | CallBuy request requiredMargin _ =>
      Decision.opeartion d = Buy
      /\ exists order pricing amount leverage,
           completeBuy d = Some (order, pricing, amount, leverage)
           /\ request = buyRequest d order amount leverage
           /\ requiredMargin = Js.div (Js.mul amount pricing) leverage
  | CallSell request _ =>
      Decision.opeartion d = Sell
      /\ exists percentage,
           Decision.sell d
           = Some {| SellOrder.percentage := Some percentage |}
           /\ request = sellRequest d percentage
  | _ => False
  end.

(** The orders follow the decisions: in the order of the decisions, at most
    one order per decision, and each order is the order of its decision. *)
Inductive Placed : list Decision.t -> Trace -> Prop :=
| placed_none : Placed [] []
| placed_skip (d : Decision.t) (ds : list Decision.t) (os : Trace) :
    Placed ds os -> Placed (d :: ds) os
| placed_order (d : Decision.t) (ds : list Decision.t) (e : Event)
    (os : Trace) :
    orderFor d e -> Placed ds os -> Placed (d :: ds) (e :: os).

(** The margin that a decision asks for is not negative. *)
Definition nonNegativeMargin (d : Decision.t) : Prop :=
  match completeBuy d with
  | Some (_, pricing, amount, leverage) =>
      Js.leb 0 (Js.div (Js.mul amount pricing) leverage) = true
  | None => True
  end.

Definition isProtect (e : Event) : bool :=
  match e with
  | CallProtect _ _ => true
  | _ => false
  end.

(** The argument of [setStopLossTakeProfit]. *)
Definition protectRequest (d : Decision.t) : ProtectRequest.t :=
  {| ProtectRequest.symbol := tradingSymbol (Decision.symbol d);
     ProtectRequest.stopLoss := adjustField AdjustProfit.stopLoss d;
     ProtectRequest.takeProfit := adjustField AdjustProfit.takeProfit d |}.

(** [positions.find(...)?.leverage || null] for the instrument of a sell;
    [None] for the positions is a lookup that threw. *)
Definition positionLeverage (s : Symbol)
  (positions : option (list Position.t)) : option Js.number :=
  match positions with
  | Some ps =>
      match find (fun p =>
                    String.eqb (Position.symbol p) (binanceSymbol s)
                    && negb (Js.eqb (Position.contracts p) 0)) ps with
      | Some p => Position.leverage p ||| None
      | None => None
      end
  | None => None
  end.

(** One list is the other with some of its elements left out. *)
Inductive Subsequence {A : Type} : list A -> list A -> Prop :=
| subsequence_nil : Subsequence [] []
| subsequence_skip (x : A) (l m : list A) :
    Subsequence l m -> Subsequence l (x :: m)
| subsequence_keep (x : A) (l m : list A) :
    Subsequence l m -> Subsequence (x :: l) (x :: m).

(** The chat lines of the decisions that have a chat. *)
Definition chatLines (ds : list Decision.t) : list string :=
  map chatLine
    (filter (fun d => negb (String.eqb (Decision.chat d) "")) ds).

(** A message of the batch starts with the bracket of its instrument. *)
Definition isLine (m : string) : Prop := prefix "[" m = true.

(** What a risk gate adds to the messages for a decision: nothing, or,
    for a Buy, one line with the instrument and a reason. *)
Definition gateLine (d : Decision.t) (gate : list string) : Prop :=
  gate = []
  \/ (Decision.opeartion d = Buy
      /\ exists reason, gate = [blockedLine (Decision.symbol d) reason]).

(** The messages follow the decisions: for each decision in turn its chat
    line, when it has a chat, and then what a risk gate adds, and nothing
    else. *)
Inductive Said : list Decision.t -> list string -> Prop :=
| said_none : Said [] []
| said_more (d : Decision.t) (ds : list Decision.t) (gate ms : list string) :
    gateLine d gate -> Said ds ms ->
    Said (d :: ds) (chatLines [d] ++ gate ++ ms).

(** ** The activity view

    The computations of [ModelsView] on the rows that it shows: the list
    of completed trades, the figures derived for a trade, and the five
    decisions shown for a chat. *)

Module View.

Module Trading.
Record t := {
  id : string;
  symbol : string;
  opeartion : Opeartion;
  leverage : option Js.number;
  amount : option Js.number;
  pricing : option Js.number;
  stopLoss : option Js.number;
  takeProfit : option Js.number;
  prediction : option Prediction;
  createdAt : string
}.
End Trading.

Module Chat.
Record t := {
  id : string;
  model : string;
  chat : string;
  reasoning : string;
  userPrompt : string;
  tradings : list Trading.t;
  createdAt : string;
  updatedAt : string
}.
End Chat.

(** [{ ...t, chatId: chat.id, model: chat.model }] *)
Module Completed.
Record t := {
  trade : Trading.t;
  chatId : string;
  model : string
}.
End Completed.

(** [t.opeartion === "Buy" || t.opeartion === "Sell"] *)
Definition isTrade (t : Trading.t) : bool :=
  match Trading.opeartion t with
  | Buy | Sell => true
  | Hold => false
  end.

(** [chats.flatMap(chat => chat.tradings.filter(...).map(...))] *)
Definition completedTrades (chats : list Chat.t) : list Completed.t :=
  flat_map
    (fun chat =>
       map (fun t => {| Completed.trade := t;
                        Completed.chatId := Chat.id chat;
                        Completed.model := Chat.model chat |})
         (filter isTrade (Chat.tradings chat)))
    chats.




(** [x!]: the number of a field that is known to be there. *)
Definition number (x : option Js.number) : Js.number :=
  match x with
  | Some q => q
  | None => 0
  end.



(** The percentage of a level against the price, with two decimals;
    [null] when the price or the level is falsy. *)
Definition levelPercent (pricing level : option Js.number) : option string :=
  if Js.truthy pricing && Js.truthy level
  then Some (Js.toFixed2
               (Js.mul
                  (Js.div (Js.sub (number level) (number pricing))
                     (number pricing))
                  100))
  else None.

Definition stopLossPercent (trade : Trading.t) : option string :=
  levelPercent (Trading.pricing trade) (Trading.stopLoss trade).

Definition takeProfitPercent (trade : Trading.t) : option string :=
  levelPercent (Trading.pricing trade) (Trading.takeProfit trade).

Definition getAmountPrecision (amount : Js.number) : nat :=
  if Js.geb amount 1000 then 2%nat
  else if Js.geb amount 10 then 4%nat
  else if Js.geb amount 1 then 6%nat
  else 8%nat.

Definition DEFAULT_FIVE_SYMBOLS : list string :=
  ["BTC"; "ETH"; "BNB"; "SOL"; "DOGE"].

(** A [Map<string, Trading>]: its entries in the order of their first
    insertion. *)
Definition SymbolMap : Type := list (string * Trading.t).

(** [map.set(key, value)]: the value of a key that is there is replaced. *)
Fixpoint mapSet (key : string) (value : Trading.t) (m : SymbolMap)
  : SymbolMap :=
  match m with
  | [] => [(key, value)]
  | (k, v) :: m' =>
      if String.eqb k key then (k, value) :: m'
      else (k, v) :: mapSet key value m'
  end.

(** [map.get(key)] *)
Definition mapGet (key : string) (m : SymbolMap) : option Trading.t :=
  match find (fun entry => String.eqb (fst entry) key) m with
  | Some entry => Some (snd entry)
  | None => None
  end.

(** [for (const t of chat.tradings) bySymbol.set(t.symbol, t)] *)
Definition bySymbol (tradings : list Trading.t) : SymbolMap :=
  fold_left (fun m t => mapSet (Trading.symbol t) t m) tradings [].

(** The placeholder of an instrument without a record. *)
Definition placeholder (chat : Chat.t) (sym : string) : Trading.t :=
  {| Trading.id := "virtual-" ++ Chat.id chat ++ "-" ++ sym;
     Trading.symbol := sym;
     Trading.opeartion := Hold;
     Trading.leverage := None;
     Trading.amount := None;
     Trading.pricing := None;
     Trading.stopLoss := None;
     Trading.takeProfit := None;
     Trading.prediction := None;
     Trading.createdAt := Chat.createdAt chat |}.

(** The decisions shown for a chat: one per default instrument, the
    record of the chat or a placeholder. *)
Definition decisions (chat : Chat.t) : list Trading.t :=
  let m := bySymbol (Chat.tradings chat) in
  map (fun sym =>
         match mapGet sym m with
         | Some existing => existing
         | None => placeholder chat sym
         end)
    DEFAULT_FIVE_SYMBOLS.

(** The chat with other records. *)
Definition withTradings (chat : Chat.t) (tradings : list Trading.t)
  : Chat.t :=
  {| Chat.id := Chat.id chat;
     Chat.model := Chat.model chat;
     Chat.chat := Chat.chat chat;
     Chat.reasoning := Chat.reasoning chat;
     Chat.userPrompt := Chat.userPrompt chat;
     Chat.tradings := tradings;
     Chat.createdAt := Chat.createdAt chat;
     Chat.updatedAt := Chat.updatedAt chat |}.

(** The last record of an instrument in a list of records. *)
Definition lastOf (sym : string) (tradings : list Trading.t)
  : option Trading.t :=
  find (fun t => String.eqb (Trading.symbol t) sym) (rev tradings).

(** What is shown for an instrument: the last record of the chat for it,
    or its placeholder. *)
Definition shown (chat : Chat.t) (sym : string) : Trading.t :=
  match lastOf sym (Chat.tradings chat) with
  | Some t => t
  | None => placeholder chat sym
  end.

End View.

(** ** The token script

    The script that prints a signed token for the scheduler: [base64url]
    and the assembly of the token.  A JavaScript string is the list of its
    UTF-16 code units and [Buffer.from] takes it to its UTF-8 bytes;
    [Buffer.toString('base64')] is the base64 of RFC 4648 on these bytes;
    the digest of [crypto.createHmac] is a parameter of the script. *)

Module Token.

(** Six bits, the most significant first. *)
Definition Sextet : Type := (bool * bool * bool * bool * bool * bool)%type.

Definition bit (b : bool) : N := if b then 1%N else 0%N.

Definition sextetValue (s : Sextet) : N :=
  match s with
  | (b5, b4, b3, b2, b1, b0) =>
      (32 * bit b5 + 16 * bit b4 + 8 * bit b3 + 4 * bit b2 + 2 * bit b1
       + bit b0)%N
  end.

(** The alphabet of base64: [A-Z], [a-z], [0-9], [+] and [/]. *)
Definition base64Char (s : Sextet) : ascii :=
  let v := sextetValue s in
  if (v <? 26)%N then ascii_of_N (65 + v)
  else if (v <? 52)%N then ascii_of_N (97 + (v - 26))
  else if (v <? 62)%N then ascii_of_N (48 + (v - 52))
  else if (v =? 62)%N then "+"%char
  else "/"%char.

(** The 24 bits of three bytes as four sextets. *)
Definition sextets (a b c : ascii)
  : Sextet * Sextet * Sextet * Sextet :=
  match a, b, c with
  | Ascii a0 a1 a2 a3 a4 a5 a6 a7, Ascii b0 b1 b2 b3 b4 b5 b6 b7,
    Ascii c0 c1 c2 c3 c4 c5 c6 c7 =>
      ((a7, a6, a5, a4, a3, a2), (a1, a0, b7, b6, b5, b4),
       (b3, b2, b1, b0, c7, c6), (c5, c4, c3, c2, c1, c0))
  end.

(** [buffer.toString('base64')] on the bytes of a buffer: three bytes give
    four characters; one or two bytes at the end are filled up with zero
    bits and the group is padded with [=]. *)
Fixpoint base64 (input : string) : string :=
  match input with
  | EmptyString => EmptyString
  | String a EmptyString =>
      match sextets a zero zero with
      | (s1, s2, _, _) =>
          String (base64Char s1) (String (base64Char s2) "==")
      end
  | String a (String b EmptyString) =>
      match sextets a b zero with
      | (s1, s2, s3, _) =>
          String (base64Char s1)
            (String (base64Char s2) (String (base64Char s3) "="))
      end
  | String a (String b (String c rest)) =>
      match sextets a b c with
      | (s1, s2, s3, s4) =>
          String (base64Char s1)
            (String (base64Char s2)
               (String (base64Char s3)
                  (String (base64Char s4) (base64 rest))))
      end
  end.

(** The code units of a text whose characters are all below 256. *)
Fixpoint codeUnits (s : string) : list N :=
  match s with
  | EmptyString => []
  | String c rest => N_of_ascii c :: codeUnits rest
  end.

Definition isHighSurrogate (u : N) : bool :=
  ((55296 <=? u) && (u <=? 56319))%N.

Definition isLowSurrogate (u : N) : bool :=
  ((56320 <=? u) && (u <=? 57343))%N.

Definition bytes (l : list N) : string :=
  fold_right (fun n s => String (ascii_of_N n) s) EmptyString l.

(** The UTF-8 bytes of a code point. *)
Definition encode (cp : N) : string :=
  (if cp <? 128 then bytes [cp]
   else if cp <? 2048 then bytes [192 + cp / 64; 128 + cp mod 64]
   else if cp <? 65536 then
     bytes [224 + cp / 4096; 128 + (cp / 64) mod 64; 128 + cp mod 64]
   else
     bytes [240 + cp / 262144; 128 + (cp / 4096) mod 64;
            128 + (cp / 64) mod 64; 128 + cp mod 64])%N.

(** The bytes of U+FFFD, which stands for a surrogate without its pair. *)
Definition replacement : string := bytes [239; 191; 189]%N.

(** [Buffer.from(input)] for a string: two surrogates that pair are one
    code point, a lone surrogate is replaced. *)
Fixpoint utf8 (input : list N) : string :=
  match input with
  | [] => EmptyString
  | u :: rest =>
      if isHighSurrogate u then
        match rest with
        | v :: rest' =>
            if isLowSurrogate v then
              encode (65536 + (u - 55296) * 1024 + (v - 56320))%N
                ++ utf8 rest'
            else replacement ++ utf8 rest
        | [] => replacement
        end
      else if isLowSurrogate u then replacement ++ utf8 rest
      else encode u ++ utf8 rest
  end.

(** [s.replace(/c/g, '')] *)
Fixpoint remove (c : ascii) (s : string) : string :=
  match s with
  | EmptyString => EmptyString
  | String x rest =>
      if Ascii.eqb x c then remove c rest else String x (remove c rest)
  end.

(** [s.replace(/c/g, 'd')] *)
Fixpoint replace (c d : ascii) (s : string) : string :=
  match s with
  | EmptyString => EmptyString
  | String x rest =>
      String (if Ascii.eqb x c then d else x) (replace c d rest)
  end.

(** The three replacements that make a base64 text safe in a URL. *)
Definition urlSafe (s : string) : string :=
  replace "/" "_" (replace "+" "-" (remove "=" s)).

Definition base64url (input : list N) : string :=
  urlSafe (base64 (utf8 input)).

(** What the two replacements make of one character. *)
Definition urlChar (x : ascii) : ascii :=
  let y := if Ascii.eqb x "+" then "-"%char else x in
  if Ascii.eqb y "/" then "_"%char else y.

Definition quote : string := String (ascii_of_nat 34) EmptyString.

(** [JSON.stringify({ alg: 'HS256', typ: 'JWT' })] *)
Definition header : string :=
  "{" ++ quote ++ "alg" ++ quote ++ ":" ++ quote ++ "HS256" ++ quote ++ ","
    ++ quote ++ "typ" ++ quote ++ ":" ++ quote ++ "JWT" ++ quote ++ "}".

(** [JSON.stringify({ sub: 'cron-token', iat })] *)
Definition payload (iat : N) : string :=
  "{" ++ quote ++ "sub" ++ quote ++ ":" ++ quote ++ "cron-token" ++ quote
    ++ "," ++ quote ++ "iat" ++ quote ++ ":" ++ Js.showN iat ++ "}".

(** What the script does: it prints a token, or it writes an error and
    exits with a code. *)
Inductive Exit :=
| Printed (stdout : string)
| Failed (stderr : string) (code : N).

Section Script.

(** The bytes of [createHmac('sha256', secret).update(data).digest()],
    for a secret and for data that are ASCII texts. *)
Variable hmacSha256 : string -> string -> string.

(** The script, for the value of [CRON_SECRET_KEY] in the environment and
    the time of [Date.now()] in milliseconds. *)
Definition main (CRON_SECRET_KEY : option string) (now : N) : Exit :=
  let secret :=
    match CRON_SECRET_KEY with
    | Some s => s
    | None => ""
    end in
  if String.eqb secret "" then Failed "CRON_SECRET_KEY is not set" 1
  else
    let headerB64 := base64url (codeUnits header) in
    let payloadB64 := base64url (codeUnits (payload (now / 1000))) in
    let data := headerB64 ++ "." ++ payloadB64 in
    let signature := urlSafe (base64 (hmacSha256 secret data)) in
    Printed (data ++ "." ++ signature).

End Script.

(** The value of a character of the URL-safe alphabet. *)
Definition sextetOf (n : N) : Sextet :=
  (N.testbit n 5, N.testbit n 4, N.testbit n 3, N.testbit n 2,
   N.testbit n 1, N.testbit n 0).

Definition charValue (c : ascii) : option Sextet :=
  let n := N_of_ascii c in
  if (65 <=? n)%N && (n <=? 90)%N then Some (sextetOf (n - 65))
  else if (97 <=? n)%N && (n <=? 122)%N then Some (sextetOf (n - 97 + 26))
  else if (48 <=? n)%N && (n <=? 57)%N then Some (sextetOf (n - 48 + 52))
  else if Ascii.eqb c "-" then Some (sextetOf 62)
  else if Ascii.eqb c "_" then Some (sextetOf 63)
  else None.

(** The bytes of two, three and four sextets. *)
Definition firstByte (s1 s2 : Sextet) : ascii :=
  match s1, s2 with
  | (a7, a6, a5, a4, a3, a2), (a1, a0, _, _, _, _) =>
      Ascii a0 a1 a2 a3 a4 a5 a6 a7
  end.

Definition secondByte (s2 s3 : Sextet) : ascii :=
  match s2, s3 with
  | (_, _, b7, b6, b5, b4), (b3, b2, b1, b0, _, _) =>
      Ascii b0 b1 b2 b3 b4 b5 b6 b7
  end.

Definition thirdByte (s3 s4 : Sextet) : ascii :=
  match s3, s4 with
  | (_, _, _, _, c7, c6), (c5, c4, c3, c2, c1, c0) =>
      Ascii c0 c1 c2 c3 c4 c5 c6 c7
  end.

(** The bytes that a URL-safe text without padding stands for. *)
Fixpoint decode (s : string) : option string :=
  match s with
  | EmptyString => Some EmptyString
  | String _ EmptyString => None
  | String c1 (String c2 EmptyString) =>
      match charValue c1, charValue c2 with
      | Some s1, Some s2 => Some (String (firstByte s1 s2) EmptyString)
      | _, _ => None
      end
  | String c1 (String c2 (String c3 EmptyString)) =>
      match charValue c1, charValue c2, charValue c3 with
      | Some s1, Some s2, Some s3 =>
          Some (String (firstByte s1 s2)
                  (String (secondByte s2 s3) EmptyString))
      | _, _, _ => None
      end
  | String c1 (String c2 (String c3 (String c4 rest))) =>
      match charValue c1, charValue c2, charValue c3, charValue c4,
            decode rest with
      | Some s1, Some s2, Some s3, Some s4, Some bytes =>
          Some (String (firstByte s1 s2)
                  (String (secondByte s2 s3)
                     (String (thirdByte s3 s4) bytes)))
      | _, _, _, _, _ => None
      end
  end.

(** A character of the URL-safe alphabet: a letter, a digit, [-] or [_]. *)
Definition isUrlSafe (c : ascii) : bool := isSome (charValue c).

(** [s.split(c)] *)
Fixpoint split (c : ascii) (s : string) : list string :=
  match s with
  | EmptyString => [EmptyString]
  | String x rest =>
      if Ascii.eqb x c then EmptyString :: split c rest
      else
        match split c rest with
        | segment :: segments => String x segment :: segments
        | [] => [String x EmptyString]
        end
  end.

Fixpoint chars (s : string) : list ascii :=
  match s with
  | EmptyString => []
  | String x rest => x :: chars rest
  end.

(** A text of ASCII characters only. *)
Definition isAscii (s : string) : bool :=
  forallb (fun c => (N_of_ascii c <? 128)%N) (chars s).

End Token.

(** ** More scripts for the desk *)

Module Cases.

Import Desk.

Definition withAccount (state : Outcome Account.t) (s : Script) : Script :=
  {| snapshot := snapshot s;
     accountState := state;
     prompt := prompt s;
     answer := answer s;
     dailyLoss := dailyLoss s;
     buyRisk := buyRisk s;
     buyFill := buyFill s;
     sellFill := sellFill s;
     openPositions := openPositions s;
     protect := protect s;
     ledgerError := ledgerError s |}.

Definition withAnswer (ai : AiCall) (s : Script) : Script :=
  {| snapshot := snapshot s;
     accountState := accountState s;
     prompt := prompt s;
     answer := ai;
     dailyLoss := dailyLoss s;
     buyRisk := buyRisk s;
     buyFill := buyFill s;
     sellFill := sellFill s;
     openPositions := openPositions s;
     protect := protect s;
     ledgerError := ledgerError s |}.

Definition withLedger (error : option string) (s : Script) : Script :=
  {| snapshot := snapshot s;
     accountState := accountState s;
     prompt := prompt s;
     answer := answer s;
     dailyLoss := dailyLoss s;
     buyRisk := buyRisk s;
     buyFill := buyFill s;
     sellFill := sellFill s;
     openPositions := openPositions s;
     protect := protect s;
     ledgerError := error |}.

(** A desk where the instrument of a sell has an open position and the
    venue fills the sell. *)
Definition withPosition (p : Position.t) (fill : OrderResult.t)
  (s : Script) : Script :=
  {| snapshot := snapshot s;
     accountState := accountState s;
     prompt := prompt s;
     answer := answer s;
     dailyLoss := dailyLoss s;
     buyRisk := buyRisk s;
     buyFill := buyFill s;
     sellFill := fun _ => fill;
     openPositions := Some [p];
     protect := protect s;
     ledgerError := ledgerError s |}.

Definition solPosition : Position.t :=
  {| Position.symbol := "SOLUSDT";
     Position.contracts := 2;
     Position.leverage := Some 3;
     Position.unrealizedPnl := Some 5 |}.

Definition soldAt (price amount : Js.number) : OrderResult.t :=
  {| OrderResult.success := true;
     OrderResult.orderId := Some "2";
     OrderResult.executedPrice := Some price;
     OrderResult.executedAmount := Some amount;
     OrderResult.error := None |}.

Definition withSnapshots (ok : string -> bool) (s : Script) : Script :=
  {| snapshot := ok;
     accountState := accountState s;
     prompt := prompt s;
     answer := answer s;
     dailyLoss := dailyLoss s;
     buyRisk := buyRisk s;
     buyFill := buyFill s;
     sellFill := sellFill s;
     openPositions := openPositions s;
     protect := protect s;
     ledgerError := ledgerError s |}.

(** A desk on which the snapshots of two instruments cannot be fetched. *)
Definition patchy (ds : list Decision.t) : Script :=
  withSnapshots
    (fun symbol =>
       negb (String.eqb symbol "ETH/USDT" || String.eqb symbol "DOGE/USDT"))
    (calm ds).

(** A desk whose account has a negative available cash. *)
Definition overdrawn (ds : list Decision.t) : Script :=
  withAccount (Returned (cash (-50))) (calm ds).

(** A buy of nothing at an infinite price, which takes a margin that is
    not a number, and two buys of 600 of margin each. *)
Definition unpriced : list Decision.t :=
  [decision Buy BTC (order (Js.Infinity false) 0 1) None "at any price";
   decision Buy ETH (order 100 30 5) None "breakout";
   decision Buy SOL (order 100 30 5) None "follow"].

(** An answer without an object. *)
Definition noObject : AiCall :=
  Resolves 1500
    {| OracleResult.object := None;
       OracleResult.reasoning := None;
       OracleResult.providerReasoning := None |}.

(** An answer whose [decisions] is not an array, with or without a
    reasoning of its own. *)
Definition notAnArray (reasoning : option string) : AiCall :=
  Resolves 1500
    {| OracleResult.object :=
         Some {| OracleObject.decisions := NotAnArray;
                 OracleObject.single := None;
                 OracleObject.reasoning := None |};
       OracleResult.reasoning := reasoning;
       OracleResult.providerReasoning := None |}.

(** An answer that is one decision, not an array. *)
Definition oneDecision (d : Decision.t) : AiCall :=
  Resolves 1500
    {| OracleResult.object :=
         Some {| OracleObject.decisions := NoDecisions;
                 OracleObject.single := Some d;
                 OracleObject.reasoning := None |};
       OracleResult.reasoning := None;
       OracleResult.providerReasoning := None |}.

(** A Hold that moves the stop-loss. *)
Definition holdWithStop (level : Js.number) : Decision.t :=
  {| Decision.opeartion := Hold;
     Decision.symbol := BTC;
     Decision.buy := None;
     Decision.sell := None;
     Decision.adjustProfit :=
       Some {| AdjustProfit.stopLoss := Some level;
               AdjustProfit.takeProfit := None |};
     Decision.prediction := Some outlook;
     Decision.chat := "tighten";
     Decision.pricing := None;
     Decision.amount := None;
     Decision.leverage := None |}.

(** Records of the view. *)
Definition record (id symbol : string) (opeartion : Opeartion)
  (pricing amount : option Js.number) : View.Trading.t :=
  {| View.Trading.id := id;
     View.Trading.symbol := symbol;
     View.Trading.opeartion := opeartion;
     View.Trading.leverage := Some 5;
     View.Trading.amount := amount;
     View.Trading.pricing := pricing;
     View.Trading.stopLoss := None;
     View.Trading.takeProfit := None;
     View.Trading.prediction := None;
     View.Trading.createdAt := "2025-01-01T00:00:00Z" |}.

(** A chat with two records for BTC, one for an instrument that is not
    shown, and none for the three others. *)
Definition sampleChat : View.Chat.t :=
  {| View.Chat.id := "c1";
     View.Chat.model := "Chat";
     View.Chat.chat := "";
     View.Chat.reasoning := "";
     View.Chat.userPrompt := "";
     View.Chat.tradings :=
       [record "t1" "BTC" Buy (Some 100) (Some 3);
        record "t2" "XRP" Sell (Some 2) (Some 10);
        record "t3" "BTC" Hold None None;
        record "t4" "ETH" Buy (Some 0) (Some 1)];
     View.Chat.createdAt := "2025-01-01T00:00:00Z";
     View.Chat.updatedAt := "2025-01-01T00:00:00Z" |}.

End Cases.

(** ** Tactics *)

Ltac run_step :=
  unfold bind, call, emit, ret; simpl;
  repeat match goal with
    | |- context [buy ?r ?w] => destruct (buy r w) as [? ?]; simpl
    | |- context [sell ?r ?w] => destruct (sell r w) as [? ?]; simpl
    | |- context [fetchPositions ?w] =>
        destruct (fetchPositions w) as [[?|] ?]; simpl
    | |- context [setStopLossTakeProfit ?r ?w] =>
        destruct (setStopLossTakeProfit r w) as [? ?]; simpl
    end.

Ltac close_step :=
  do 3 eexists; split; [reflexivity|];
  constructor; simpl;
  repeat match goal with
    | H : allTradingRecords _ = allTradingRecords _ |- _ => rewrite H
    | H : remainingAvailableCash _ = remainingAvailableCash _ |- _ =>
        rewrite H
    end;
  [ eexists; split; [|split]; reflexivity
  | try reflexivity
  | try exact I
  | try reflexivity
  | try reflexivity ].

Ltac pick_entry :=
  solve [repeat first [left; reflexivity | right]].

(** ** Properties of the trace *)

Lemma ledgerRows_app (t1 t2 : Trace) :
  ledgerRows (t1 ++ t2)%list = (ledgerRows t1 ++ ledgerRows t2)%list.
Proof.
  induction t1 as [|e t1 IH]; simpl; [reflexivity|].
  destruct e; simpl; rewrite ?IH; try reflexivity.
  destruct stored; simpl; rewrite ?IH; reflexivity.
Qed.

Lemma ledgerCalls_app (t1 t2 : Trace) :
  ledgerCalls (t1 ++ t2)%list = (ledgerCalls t1 ++ ledgerCalls t2)%list.
Proof.
  induction t1 as [|e t1 IH]; simpl; [reflexivity|].
  destruct e; simpl; rewrite ?IH; reflexivity.
Qed.

Lemma ledgerCalls_rows (t : Trace) :
  ledgerRows t = map fst (filter snd (ledgerCalls t)).
Proof.
  induction t as [|e t IH]; simpl; [reflexivity|].
  destruct e; simpl; try exact IH.
  destruct stored; simpl; rewrite IH; reflexivity.
Qed.

Lemma orders_app (t1 t2 : Trace) :
  orders (t1 ++ t2)%list = (orders t1 ++ orders t2)%list.
Proof. apply filter_app. Qed.

Lemma balanceAfter_app (t1 t2 : Trace) (c : Js.number) :
  balanceAfter c (t1 ++ t2)%list = balanceAfter (balanceAfter c t1) t2.
Proof.
  revert c; induction t1 as [|e t1 IH]; intros c; simpl; [reflexivity|].
  destruct e; apply IH.
Qed.

Lemma balances_app (t1 t2 : Trace) (c : Js.number) :
  balances c (t1 ++ t2)%list
  = (balances c t1 ++ balances (balanceAfter c t1) t2)%list.
Proof.
  revert c; induction t1 as [|e t1 IH]; intros c; simpl; [reflexivity|].
  destruct e; try apply IH.
  destruct (OrderResult.success result); simpl; rewrite IH; reflexivity.
Qed.

Lemma covered_app (t1 t2 : Trace) (c : Js.number) :
  covered c t1 -> covered (balanceAfter c t1) t2 ->
  covered c (t1 ++ t2)%list.
Proof.
  revert c; induction t1 as [|e t1 IH]; intros c; simpl; [auto|].
  destruct e; try (apply IH).
  intros [Hm Ht] H2; split; [exact Hm|].
  apply IH; assumption.
Qed.

Lemma no_order_no_margin (t : Trace) :
  orders t = [] ->
  forall c, balanceAfter c t = c /\ balances c t = [] /\ covered c t.
Proof.
  induction t as [|e t IH]; simpl; [intros _ c; auto|].
  unfold orders in *; simpl.
  destruct e; simpl; try discriminate; intros H c; apply (IH H).
Qed.

(** ** Arithmetic on the running balance *)

Lemma cmp_cases (a b : Q) :
  match a ?= b with
  | Lt => a < b
  | Eq => a == b
  | Gt => b < a
  end.
Proof.
  destruct (a ?= b) eqn:E;
    [apply Qeq_alt|apply Qlt_alt|apply Qgt_alt]; exact E.
Qed.

Ltac order_cases :=
  repeat match goal with
    | H : context [?a ?= ?b] |- _ =>
        let E := fresh "E" in
        pose proof (cmp_cases a b) as E; destruct (a ?= b); try discriminate H
    | |- context [?a ?= ?b] =>
        let E := fresh "E" in
        pose proof (cmp_cases a b) as E; destruct (a ?= b)
    | H : context [Qeq_bool ?a ?b] |- _ =>
        let E := fresh "E" in
        destruct (Qeq_bool a b) eqn:E;
        [apply Qeq_bool_iff in E|apply Qeq_bool_neq in E]
    | |- context [Qeq_bool ?a ?b] =>
        let E := fresh "E" in
        destruct (Qeq_bool a b) eqn:E;
        [apply Qeq_bool_iff in E|apply Qeq_bool_neq in E]
    end.

Ltac number_cases :=
  unfold Js.gtb, Js.geb, Js.ltb, Js.leb, Js.eqb in *;
  cbn [Js.compare Js.value Js.sub Js.isFinite Js.isNaN Js.ofZ] in *;
  try discriminate; order_cases;
  cbn [Js.compare Js.value Js.isFinite Js.isNaN] in *; order_cases;
  try discriminate.

(** A margin that is not greater than the balance leaves a balance that
    is not negative. *)
Lemma sub_solvent (r m : Js.number) :
  Js.isFinite m = true -> Js.isNaN r = false -> Js.gtb m r = false ->
  Js.leb 0 (Js.sub r m) = true /\ Js.isNaN (Js.sub r m) = false.
Proof.
  destruct r as [r| | |[|]], m as [m| | |[|]]; intros Hm Hr Hg;
    number_cases; try (split; reflexivity);
    exfalso; simpl in *; lra.
Qed.

(** With a margin that is not negative, the balance does not grow and
    stays finite. *)
Lemma sub_bounded (r m : Js.number) :
  Js.isFinite r = true -> Js.leb 0 m = true -> Js.gtb m r = false ->
  Js.isFinite (Js.sub r m) = true
  /\ Js.leb 0 (Js.sub r m) = true
  /\ Js.leb (Js.sub r m) r = true.
Proof.
  destruct r as [r| | |[|]], m as [m| | |[|]]; intros Hr Hm Hg;
    number_cases; try (repeat split; reflexivity);
    exfalso; simpl in *; lra.
Qed.

(** ** One decision *)

Section Decisions.

Context {C : Collaborators}.

Lemma processDecision_spec (riskConfig : RiskConfig) (d : Decision.t)
  (b : Batch) (w : World) :
  exists b' w' t,
    processDecision riskConfig d b w = (Returned b', w', t)
    /\ StepSpec d b b' t.
Proof.
  unfold processDecision.
  assert (Hr : allTradingRecords (withChat d b) = allTradingRecords b)
    by (unfold withChat; destruct (String.eqb _ _); reflexivity).
  assert (Hc : remainingAvailableCash (withChat d b)
               = remainingAvailableCash b)
    by (unfold withChat; destruct (String.eqb _ _); reflexivity).
  generalize dependent (withChat d b); intros b0 Hr Hc.
  destruct (Decision.opeartion d).
  - unfold processBuy.
    destruct (completeBuy d) as [[[[order pricing] amount] leverage]|].
    + destruct (Verdict.allowed _); simpl.
      * destruct (Js.gtb _ _) eqn:Hm; simpl.
        -- run_step. close_step.
        -- run_step.
           rewrite Hc in Hm.
           destruct (OrderResult.success _) eqn:Hs; close_step;
             rewrite ?Hs; try reflexivity; try (split; [exact Hm|exact I]).
      * run_step. close_step.
    + run_step. close_step.
  - unfold processSell, positionInfoOf.
    destruct (Decision.sell d) as [[[percentage|]]|];
      [ | run_step; close_step | run_step; close_step ].
    run_step.
    all: destruct (OrderResult.success _); simpl;
      [close_step | destruct (noOpenPosition _); close_step].
  - unfold processHold.
    destruct (_ && _); run_step; [|close_step].
    destruct (ProtectResult.success _); close_step.
Qed.

Lemma processDecisions_spec (riskConfig : RiskConfig)
  (ds : list Decision.t) (b : Batch) (w : World) :
  exists b' w' t,
    processDecisions riskConfig ds b w = (Returned b', w', t)
    /\ BatchSpec ds b b' t.
Proof.
  revert b w; induction ds as [|d ds IH]; intros b w; simpl.
  - exists b, w, []; split; [reflexivity|].
    constructor; simpl; try reflexivity; try exact I.
    exists []; rewrite app_nil_r; split; [reflexivity|constructor].
  - destruct (processDecision_spec riskConfig d b w)
      as (b1 & w1 & t1 & E1 & S1).
    destruct (IH b1 w1) as (b2 & w2 & t2 & E2 & S2).
    exists b2, w2, (t1 ++ t2)%list; split.
    + unfold bind; rewrite E1, E2; reflexivity.
    + destruct S1 as [(r & R1 & Rs & Rp) B1 K1 L1 O1].
      destruct S2 as [(rs & R2 & F2) B2 K2 L2 O2].
      constructor.
      * exists (r :: rs); split.
        -- rewrite R2, R1, <- app_assoc; reflexivity.
        -- constructor; [split; assumption|exact F2].
      * rewrite B2, B1, balanceAfter_app; reflexivity.
      * apply covered_app; [exact K1|].
        rewrite <- B1; exact K2.
      * rewrite ledgerRows_app, L1, L2; reflexivity.
      * rewrite filter_app, O1, O2; reflexivity.
Qed.

End Decisions.

(** ** The phases of a cycle *)

Section Phases.

Context {C : Collaborators}.

Lemma preparation_trace (t : Trace) :
  forallb isPreparation t = true ->
  orders t = [] /\ ledgerRows t = [] /\ filter isOracle t = [].
Proof.
  induction t as [|e t IH]; simpl; [auto|].
  intros H; apply andb_prop in H; destruct H as [He Ht].
  destruct (IH Ht) as (H1 & H2 & H3).
  unfold orders in *.
  destruct e; simpl in *; try discriminate; auto.
Qed.

Lemma fetchMarketStates_returns (symbols : list string) (w : World) :
  exists items w1 t1,
    fetchMarketStates symbols w = (Returned items, w1, t1)
    /\ forallb isPreparation t1 = true
    /\ List.length items = List.length symbols.
Proof.
  revert w; induction symbols as [|s symbols IH]; intros w; simpl.
  - exists [], w, []; repeat split.
  - unfold bind at 1, fetchMarketState, bind at 1, call.
    destruct (getCurrentMarketState s w) as [[state|] w0]; simpl;
      destruct (IH w0) as (items & w1 & t1 & E & P & L);
      unfold bind; rewrite E; simpl;
      do 3 eexists; (split; [reflexivity|]); simpl;
      rewrite ?app_nil_r, ?P, ?L; auto.
Qed.

Lemma prepare_trace (initialCapital : option Js.number) (w : World) :
  forallb isPreparation (snd (prepare initialCapital w)) = true.
Proof.
  unfold prepare.
  destruct (fetchMarketStates_returns supportedSymbols w)
    as (items & w1 & t1 & E & P & _).
  unfold bind at 1; rewrite E.
  unfold bind, callThrowing, ret.
  destruct (getAccountInformationAndPerformance initialCapital w1)
    as [[acc|e] w2]; simpl.
  - destruct (generateUserPrompt (notNull items) acc w2) as [[p|e] w3];
      simpl; rewrite forallb_app, P; reflexivity.
  - rewrite forallb_app, P; reflexivity.
Qed.

(** The trace of [decide]: no order, no ledger row, and one call of the
    oracle once the preparation is through. *)
Lemma decide_trace (initialCapital : option Js.number) (w w' : World)
  (r : Outcome Decided) (t : Trace) :
  decide initialCapital w = (r, w', t) ->
  orders t = [] /\ ledgerRows t = []
  /\ (forall d, r = Returned d -> filter isOracle t = [CallOracle timeout]).
Proof.
  unfold decide.
  pose proof (prepare_trace initialCapital w) as P.
  unfold bind at 1.
  destruct (prepare initialCapital w) as [[[p|e] w1] t1]; simpl in P.
  2: { intros E; inversion E; subst.
       destruct (preparation_trace _ P) as (H1 & H2 & _).
       (split; [|split]); auto; discriminate. }
  destruct (preparation_trace _ P) as (H1 & H2 & H3).
  unfold bind, askOracle, aiFailed, bind, call, emit, throw, ret,
    decisionsOf.
  destruct (generateObject _ _ w1) as [ai w2]; simpl.
  destruct (race ai) as [result|message]; simpl.
  2: { intros E; inversion E; subst.
       rewrite orders_app, ledgerRows_app, H1, H2.
       (split; [|split]); auto; discriminate. }
  destruct (reasoningOf result) as [text|message]; simpl.
  2: { intros E; inversion E; subst.
       rewrite orders_app, ledgerRows_app, H1, H2.
       (split; [|split]); auto; discriminate. }
  destruct (OracleResult.object result) as [o|]; simpl.
  2: { intros E; inversion E; subst.
       rewrite orders_app, ledgerRows_app, H1, H2.
       (split; [|split]); auto; discriminate. }
  destruct (OracleObject.decisions o) as [|ds|];
    destruct (OracleObject.single o) as [d1|]; simpl;
    intros E; inversion E; subst;
    rewrite orders_app, ledgerRows_app, filter_app, H1, H2, H3;
    (split; [|split]); auto; discriminate.
Qed.

(** [run] once the decisions are known: the rest of the cycle is [trade],
    and what [trade] throws is logged and thrown again. *)
Lemma run_decided (initialCapital : option Js.number) (w w1 : World) (d : Decided)
  (t1 : Trace) :
  decide initialCapital w = (Returned d, w1, t1) ->
  run initialCapital w
  = match trade (getRiskConfig w) d w1 with
    | (Returned a, w2, t2) => (Returned a, w2, (t1 ++ t2)%list)
    | (Thrown e, w2, t2) =>
        (Thrown e, w2, ((t1 ++ t2) ++ [Console (TradingError e)])%list)
    end.
Proof.
  intros E; unfold run, tryCatch, bind; rewrite E.
  destruct (trade (getRiskConfig w) d w1) as [[[a|e] w2] t2]; reflexivity.
Qed.

Lemma run_undecided (initialCapital : option Js.number) (w w1 : World) (e : string)
  (t1 : Trace) :
  decide initialCapital w = (Thrown e, w1, t1) ->
  run initialCapital w
  = (Thrown e, w1, (t1 ++ [Console (TradingError e)])%list).
Proof.
  intros E; unfold run, tryCatch, bind; rewrite E; reflexivity.
Qed.

(** A cycle that the daily-loss gate lets through. *)
Lemma trade_open (riskConfig : RiskConfig) (d : Decided) (w : World) :
  Verdict.allowed (dailyLossCheck riskConfig (account d)) = true ->
  exists b w1 t1,
    processDecisions riskConfig (decisions d) (startOfBatch (account d)) w
    = (Returned b, w1, t1)
    /\ BatchSpec (decisions d) (startOfBatch (account d)) b t1
    /\ trade riskConfig d w
       = match prismaChatCreate (batchRow (reasoning d) (userPrompt d) b) w1
         with
         | (r, w2, t2) => (r, w2, (t1 ++ t2)%list)
         end.
Proof.
  intros A.
  destruct (processDecisions_spec riskConfig (decisions d)
              (startOfBatch (account d)) w) as (b & w1 & t1 & E & S).
  exists b, w1, t1; split; [exact E|split; [exact S|]].
  unfold trade; cbv zeta; rewrite A; simpl.
  unfold bind; rewrite E; reflexivity.
Qed.

(** A cycle that the daily-loss gate blocks. *)
Lemma trade_blocked (riskConfig : RiskConfig) (d : Decided) (w : World) :
  Verdict.allowed (dailyLossCheck riskConfig (account d)) = false ->
  trade riskConfig d w
  = match prismaChatCreate
            (blockedRow (reasoning d) (userPrompt d) (decisions d)
               (dailyLossCheck riskConfig (account d))) w
    with
    | (r, w2, t2) =>
        (r, w2,
         Console (DailyLossLimit
                    (Verdict.reason (dailyLossCheck riskConfig (account d))))
         :: t2)
    end.
Proof.
  intros A; unfold trade; cbv zeta; rewrite A; simpl.
  unfold bind, emit; simpl.
  destruct (prismaChatCreate _ w) as [[r w2] t2]; reflexivity.
Qed.

Lemma prismaChatCreate_trace (row : Chat.t) (w : World) :
  exists r w1 stored,
    prismaChatCreate row w = (r, w1, [ChatCreate row stored])
    /\ (r = Returned tt <-> stored = true)
    /\ (stored = true <-> fst (chatCreate row w) = None).
Proof.
  unfold prismaChatCreate.
  destruct (chatCreate row w) as [[e|] w1]; simpl.
  - exists (Thrown e), w1, false; repeat split; intros; discriminate.
  - exists (Returned tt), w1, true; repeat split; reflexivity.
Qed.

End Phases.

(** ** The orders of a batch *)

Section Placement.

Context {C : Collaborators}.

Lemma processDecision_orders (riskConfig : RiskConfig) (d : Decision.t)
  (b : Batch) (w : World) :
  orders (snd (processDecision riskConfig d b w)) = []
  \/ exists e,
       orders (snd (processDecision riskConfig d b w)) = [e]
       /\ orderFor d e.
Proof.
  unfold processDecision, orders.
  destruct (Decision.opeartion d) eqn:Hop.
  - unfold processBuy.
    destruct (completeBuy d) as [[[[order pricing] amount] leverage]|] eqn:Hb;
      [|left; reflexivity].
    destruct (Verdict.allowed _); [|left; reflexivity].
    destruct (Js.gtb _ _); [left; reflexivity|].
    run_step; right; eexists; split.
    + destruct (OrderResult.success _); reflexivity.
    + simpl; split; [exact Hop|].
      exists order, pricing, amount, leverage.
      split; [exact Hb|split; reflexivity].
  - unfold processSell, positionInfoOf.
    destruct (Decision.sell d) as [[[percentage|]]|] eqn:Hs;
      [|left; reflexivity|left; reflexivity].
    run_step; right; eexists; (split;
      [destruct (OrderResult.success _); simpl;
       [reflexivity|destruct (noOpenPosition _); reflexivity]
      |simpl; split;
       [exact Hop|exists percentage; split; [exact Hs|reflexivity]]]).
  - unfold processHold.
    left; destruct (_ && _); run_step; [|reflexivity].
    destruct (ProtectResult.success _); reflexivity.
Qed.

Lemma placed_nothing (ds : list Decision.t) : Placed ds [].
Proof. induction ds; constructor; assumption. Qed.

Lemma placed_length (ds : list Decision.t) (os : Trace) :
  Placed ds os -> (List.length os <= List.length ds)%nat.
Proof. induction 1; simpl; lia. Qed.

Lemma processDecisions_placed (riskConfig : RiskConfig)
  (ds : list Decision.t) (b : Batch) (w : World) :
  Placed ds (orders (snd (processDecisions riskConfig ds b w))).
Proof.
  revert b w; induction ds as [|d ds IH]; intros b w; simpl.
  - constructor.
  - destruct (processDecision_spec riskConfig d b w)
      as (b1 & w1 & t1 & E1 & _).
    pose proof (processDecision_orders riskConfig d b w) as H1.
    unfold bind; rewrite E1 in *; simpl in H1.
    specialize (IH b1 w1).
    destruct (processDecisions riskConfig ds b1 w1) as [[r w2] t2].
    simpl in *; rewrite orders_app.
    destruct H1 as [H1|(e & H1 & He)]; rewrite H1; simpl.
    + apply placed_skip; exact IH.
    + apply placed_order; assumption.
Qed.

(** The margins of the orders of decisions that ask for finite margins. *)
Lemma placed_finite (ds : list Decision.t) (os : Trace) :
  Placed ds os -> Forall finiteMargin ds ->
  Forall (fun e => Js.isFinite (marginOf e) = true) os.
Proof.
  induction 1 as [|d ds os P IH|d ds e os He P IH]; intros F.
  - constructor.
  - inversion F; subst; auto.
  - inversion F as [|? ? Hd Hds]; subst.
    constructor; [|exact (IH Hds)].
    destruct e; simpl in He; try contradiction; [|reflexivity].
    destruct He as (Hop & order & pricing & amount & leverage & Hb & _ & Hm).
    unfold finiteMargin in Hd; rewrite Hop, Hb in Hd; subst; exact Hd.
Qed.

Lemma balances_orders (t : Trace) (c : Js.number) :
  balances c (orders t) = balances c t.
Proof.
  unfold orders; revert c; induction t as [|e t IH]; intros c; simpl;
    [reflexivity|].
  destruct e; simpl; rewrite ?IH; reflexivity.
Qed.

Lemma covered_orders (t : Trace) (c : Js.number) :
  covered c t -> covered c (orders t).
Proof.
  unfold orders; revert c; induction t as [|e t IH]; intros c; simpl;
    [trivial|].
  destruct e; simpl; try apply IH.
  intros [Hm Ht]; split; [exact Hm|apply IH; exact Ht].
Qed.

(** Orders with finite margins that a balance covers leave, after each
    fill, a balance that is not negative. *)
Lemma covered_solvent (os : Trace) (c : Js.number) :
  Js.isNaN c = false ->
  Forall (fun e => Js.isFinite (marginOf e) = true) os ->
  covered c os ->
  Forall (fun balance => Js.leb 0 balance = true) (balances c os).
Proof.
  revert c; induction os as [|e os IH]; intros c Hc F K; simpl;
    [constructor|].
  inversion F as [|? ? He Hos]; subst.
  destruct e; simpl in *; try (apply IH; assumption).
  destruct K as [Hm K].
  destruct (sub_solvent c requiredMargin He Hc Hm) as [H0 Hn].
  destruct (OrderResult.success result).
  - constructor; [exact H0|apply IH; assumption].
  - apply IH; assumption.
Qed.

End Placement.

(** ** The cycle as a whole *)

Section Cycles.

Context {C : Collaborators}.

Lemma quiet_frame (t1 t2 t3 : Trace) (c : Js.number) :
  orders t1 = [] -> orders t3 = [] ->
  balances c (t1 ++ t2 ++ t3)%list = balances c t2
  /\ (covered c t2 -> covered c (t1 ++ t2 ++ t3)%list).
Proof.
  intros H1 H3.
  destruct (no_order_no_margin _ H1 c) as (B1 & L1 & K1).
  split.
  - rewrite !balances_app, L1, B1; simpl.
    destruct (no_order_no_margin _ H3 (balanceAfter c t2)) as (_ & L3 & _).
    rewrite L3, app_nil_r; reflexivity.
  - intros K2.
    apply covered_app; [exact K1|rewrite B1].
    apply covered_app; [exact K2|].
    apply (no_order_no_margin _ H3).
Qed.

(** The trace of a cycle whose decisions are known: the trace of [decide],
    then that of [trade], then at most the line that reports a throw. *)
Lemma run_trace (initialCapital : option Js.number) (w w1 : World)
  (d : Decided) (t1 : Trace) :
  decide initialCapital w = (Returned d, w1, t1) ->
  exists tail,
    snd (run initialCapital w)
    = (t1 ++ snd (trade (getRiskConfig w) d w1) ++ tail)%list
    /\ fst (fst (run initialCapital w))
       = fst (fst (trade (getRiskConfig w) d w1))
    /\ forallb (fun e => match e with Console _ => true | _ => false end)
         tail = true.
Proof.
  intros E; rewrite (run_decided _ _ _ _ _ E).
  destruct (trade (getRiskConfig w) d w1) as [[[a|e] w2] t2]; simpl.
  - exists []; rewrite app_nil_r; auto.
  - exists [Console (TradingError e)]; rewrite app_assoc; auto.
Qed.

Lemma console_trace (t : Trace) :
  forallb (fun e => match e with Console _ => true | _ => false end) t = true ->
  orders t = [] /\ ledgerRows t = [] /\ filter isOracle t = [].
Proof.
  induction t as [|e t IH]; simpl; [auto|].
  destruct e; try discriminate; simpl; exact IH.
Qed.

(** The orders of [trade] follow the decisions, and its running balance,
    which starts from the available cash of the account, covers every
    buy. *)
Lemma trade_placed (riskConfig : RiskConfig) (d : Decided) (w : World) :
  Placed (decisions d) (orders (snd (trade riskConfig d w)))
  /\ covered (Account.availableCash (account d)) (snd (trade riskConfig d w)).
Proof.
  destruct (Verdict.allowed (dailyLossCheck riskConfig (account d))) eqn:A.
  - destruct (trade_open riskConfig d w A) as (b & w1 & t1 & E1 & S & E).
    rewrite E.
    destruct (prismaChatCreate_trace
                (batchRow (reasoning d) (userPrompt d) b) w1)
      as (r & w2 & stored & E2 & _).
    rewrite E2; simpl; split.
    + rewrite orders_app; simpl; rewrite app_nil_r.
      pose proof (processDecisions_placed riskConfig (decisions d)
                    (startOfBatch (account d)) w) as P.
      rewrite E1 in P; exact P.
    + apply covered_app; [exact (batch_covered _ _ _ _ S)|exact I].
  - rewrite (trade_blocked riskConfig d w A).
    destruct (prismaChatCreate_trace
                (blockedRow (reasoning d) (userPrompt d) (decisions d)
                   (dailyLossCheck riskConfig (account d))) w)
      as (r & w2 & stored & E2 & _).
    rewrite E2; simpl; split; [apply placed_nothing|exact I].
Qed.

Lemma run_placed (initialCapital : option Js.number) (w w1 : World)
  (d : Decided) (t1 : Trace) :
  decide initialCapital w = (Returned d, w1, t1) ->
  Placed (decisions d) (orders (snd (run initialCapital w)))
  /\ covered (Account.availableCash (account d)) (snd (run initialCapital w)).
Proof.
  intros E.
  destruct (run_trace _ _ _ _ _ E) as (tail & Et & _ & Htail).
  destruct (decide_trace _ _ _ _ _ E) as (O1 & _ & _).
  destruct (console_trace _ Htail) as (O3 & _ & _).
  destruct (trade_placed (getRiskConfig w) d w1) as [P K].
  rewrite Et; split.
  - rewrite !orders_app, O1, O3, app_nil_r; exact P.
  - apply quiet_frame; assumption.
Qed.

(** C1, as amended.  In every cycle that gets decisions from the oracle,
    whatever their number and order: the buys that are sent are buys of the
    decisions, each with the margin amount * pricing / leverage of its
    decision; each is sent only when that margin is not greater than the
    running balance, which starts from the available cash read at the
    start of the cycle and goes down by the margin of a buy when it is
    filled, and only then.  When the available cash is not NaN and every
    margin is a finite number, the balance that is left after each fill,
    the available cash less the margins of the buys filled so far, is not
    negative.  The balance that the loop carries is that balance: at the
    end of the loop it is the available cash less the margin of each buy
    that was filled, and of no other. *)
Theorem buys_are_covered_by_the_running_balance
  (initialCapital : option Js.number) (w w1 : World) (d : Decided)
  (t1 : Trace) :
  decide initialCapital w = (Returned d, w1, t1) ->
  Placed (decisions d) (orders (snd (run initialCapital w)))
  /\ covered (Account.availableCash (account d)) (snd (run initialCapital w))
  /\ (Js.isNaN (Account.availableCash (account d)) = false ->
      Forall finiteMargin (decisions d) ->
      Forall (fun balance => Js.leb 0 balance = true)
        (balances (Account.availableCash (account d))
           (snd (run initialCapital w))))
  /\ forall (b : Batch) (w2 : World) (t2 : Trace),
       processDecisions (getRiskConfig w) (decisions d)
         (startOfBatch (account d)) w1 = (Returned b, w2, t2) ->
       remainingAvailableCash b
       = balanceAfter (Account.availableCash (account d)) t2.
Proof.
  intros E.
  destruct (run_placed _ _ _ _ _ E) as [P K].
  split; [exact P|split; [exact K|split]].
  - intros Hcash F.
    rewrite <- balances_orders.
    apply covered_solvent;
      [exact Hcash|exact (placed_finite _ _ P F)
      |exact (covered_orders _ _ K)].
  - intros b w2 t2 E2.
    destruct (processDecisions_spec (getRiskConfig w) (decisions d)
                (startOfBatch (account d)) w1) as (b' & w' & t' & E' & S).
    rewrite E2 in E'; inversion E'; subst b' w' t'.
    exact (batch_balance _ _ _ _ S).
Qed.

Lemma blockedRow_holds (reasoning userPrompt : string)
  (ds : list Decision.t) (v : Verdict.t) :
  Forall (fun r => Trading.opeartion r = Hold)
    (Chat.tradings (blockedRow reasoning userPrompt ds v))
  /\ Forall2 recordFor ds (Chat.tradings (blockedRow reasoning userPrompt ds v)).
Proof.
  unfold blockedRow; simpl; induction ds as [|d ds [IH1 IH2]]; simpl.
  - split; constructor.
  - split; constructor; try assumption; try reflexivity.
    split; reflexivity.
Qed.

(** C3.  In a cycle whose daily-loss check denies, no buy and no sell is
    sent to the venue; the cycle hands one row to the ledger, in which
    every decision is recorded with the operation Hold, and that row is
    the one row the cycle adds when the ledger accepts it. *)
Theorem daily_loss_gate_blocks_the_cycle
  (initialCapital : option Js.number) (w w1 : World) (d : Decided)
  (t1 : Trace) :
  decide initialCapital w = (Returned d, w1, t1) ->
  Verdict.allowed (dailyLossCheck (getRiskConfig w) (account d)) = false ->
  let row :=
    blockedRow (reasoning d) (userPrompt d) (decisions d)
      (dailyLossCheck (getRiskConfig w) (account d)) in
  orders (snd (run initialCapital w)) = []
  /\ In (ChatCreate row (isNone (fst (chatCreate row w1))))
       (snd (run initialCapital w))
  /\ (fst (chatCreate row w1) = None ->
      fst (fst (run initialCapital w)) = Returned tt
      /\ ledgerRows (snd (run initialCapital w)) = [row])
  /\ Forall (fun r => Trading.opeartion r = Hold) (Chat.tradings row)
  /\ List.length (Chat.tradings row) = List.length (decisions d).
Proof.
  intros E A row.
  destruct (run_trace _ _ _ _ _ E) as (tail & Et & Er & Htail).
  destruct (decide_trace _ _ _ _ _ E) as (O1 & L1 & _).
  destruct (console_trace _ Htail) as (O3 & L3 & _).
  rewrite Et, Er, (trade_blocked _ d w1 A); fold row.
  unfold prismaChatCreate, orders in *.
  destruct (chatCreate row w1) as [[e|] w2]; simpl;
    rewrite !filter_app, !ledgerRows_app, O1, L1; simpl;
    rewrite ?O3, ?L3.
  all: split; [reflexivity|].
  all: split; [apply in_or_app; right; right; left; reflexivity|].
  all: split; [first [discriminate | auto]|].
  all: destruct (blockedRow_holds (reasoning d) (userPrompt d) (decisions d)
                   (dailyLossCheck (getRiskConfig w) (account d)))
         as [H1 H2].
  all: split; [exact H1|symmetry; exact (Forall2_length H2)].
Qed.

(** The calls of a cycle on the ledger: none before [trade], and in
    [trade] one call, the last entry of its trace, with the row of the
    batch or the row of the blocked cycle. *)
Lemma quiet_ledger (t : Trace) :
  forallb
    (fun e => match e with ChatCreate _ _ => false | _ => true end) t = true ->
  ledgerCalls t = [].
Proof.
  induction t as [|e t IH]; simpl; [reflexivity|].
  destruct e; simpl; try discriminate; exact IH.
Qed.

Lemma decide_ledger (initialCapital : option Js.number) (w w' : World)
  (r : Outcome Decided) (t : Trace) :
  decide initialCapital w = (r, w', t) -> ledgerCalls t = [].
Proof.
  unfold decide.
  pose proof (prepare_trace initialCapital w) as P.
  unfold bind at 1.
  destruct (prepare initialCapital w) as [[[p|e] w1] t1]; simpl in P.
  2: { intros E; inversion E; subst; apply quiet_ledger.
       clear - P; induction t as [|e t IH]; simpl in *; [reflexivity|].
       apply andb_prop in P; destruct P as [He Ht].
       rewrite (IH Ht), andb_true_r; destruct e; try reflexivity.
       discriminate He. }
  assert (L1 : ledgerCalls t1 = []).
  { apply quiet_ledger.
    clear - P; induction t1 as [|e t IH]; simpl in *; [reflexivity|].
    apply andb_prop in P; destruct P as [He Ht].
    rewrite (IH Ht), andb_true_r; destruct e; try reflexivity.
    discriminate He. }
  unfold bind, askOracle, aiFailed, bind, call, emit, throw, ret,
    decisionsOf.
  destruct (generateObject _ _ w1) as [ai w2]; simpl.
  destruct (race ai) as [result|message]; simpl.
  2: { intros E; inversion E; subst; rewrite ledgerCalls_app, L1;
       reflexivity. }
  destruct (reasoningOf result) as [text|message]; simpl.
  2: { intros E; inversion E; subst; rewrite ledgerCalls_app, L1;
       reflexivity. }
  destruct (OracleResult.object result) as [o|]; simpl.
  2: { intros E; inversion E; subst; rewrite ledgerCalls_app, L1;
       reflexivity. }
  destruct (OracleObject.decisions o) as [|ds|];
    destruct (OracleObject.single o) as [d1|]; simpl;
    intros E; inversion E; subst; rewrite ledgerCalls_app, L1; reflexivity.
Qed.

Lemma processDecisions_ledger (riskConfig : RiskConfig)
  (ds : list Decision.t) (b : Batch) (w : World) :
  ledgerCalls (snd (processDecisions riskConfig ds b w)) = [].
Proof.
  revert b w; induction ds as [|d ds IH]; intros b w; simpl; [reflexivity|].
  destruct (processDecision_spec riskConfig d b w)
    as (b1 & w1 & t1 & E1 & _).
  assert (L1 : ledgerCalls t1 = []).
  { revert E1; clear.
    unfold processDecision, processBuy, processSell, positionInfoOf,
      processHold.
    destruct (Decision.opeartion d).
    - destruct (completeBuy d) as [[[[order pricing] amount] leverage]|];
        [destruct (Verdict.allowed _);
         [destruct (Js.gtb _ _)|]|];
        run_step; try destruct (OrderResult.success _);
        intros E; inversion E; reflexivity.
    - destruct (Decision.sell d) as [[[percentage|]]|]; run_step;
        try (destruct (OrderResult.success _); simpl;
             [|destruct (noOpenPosition _)]);
        intros E; inversion E; reflexivity.
    - destruct (_ && _); run_step;
        try destruct (ProtectResult.success _);
        intros E; inversion E; reflexivity. }
  unfold bind; rewrite E1.
  specialize (IH b1 w1).
  destruct (processDecisions riskConfig ds b1 w1) as [[r w2] t2].
  simpl in *; rewrite ledgerCalls_app, L1, IH; reflexivity.
Qed.

(** What a cycle that returns has written: the row, the world in which
    the ledger got it and accepted it, and the calls on the ledger. *)
Lemma trade_written (riskConfig : RiskConfig) (d : Decided)
  (w w2 : World) (t : Trace) :
  trade riskConfig d w = (Returned tt, w2, t) ->
  exists row w1,
    chatCreate row w1 = (None, w2)
    /\ ledgerCalls t = [(row, true)]
    /\ Forall2 recordFor (decisions d) (Chat.tradings row).
Proof.
  destruct (Verdict.allowed (dailyLossCheck riskConfig (account d))) eqn:A.
  - destruct (trade_open riskConfig d w A) as (b & w1 & t1 & E1 & S & E).
    rewrite E; unfold prismaChatCreate.
    pose proof (processDecisions_ledger riskConfig (decisions d)
                  (startOfBatch (account d)) w) as L1.
    rewrite E1 in L1; simpl in L1.
    destruct (chatCreate (batchRow (reasoning d) (userPrompt d) b) w1)
      as [[e|] w3] eqn:G; intros R; inversion R; subst.
    exists (batchRow (reasoning d) (userPrompt d) b), w1.
    split; [exact G|].
    rewrite ledgerCalls_app, L1; split; [reflexivity|].
    destruct (batch_records _ _ _ _ S) as (rs & Hrs & F).
    simpl in *; rewrite Hrs; exact F.
  - rewrite (trade_blocked riskConfig d w A); unfold prismaChatCreate.
    destruct (chatCreate
                (blockedRow (reasoning d) (userPrompt d) (decisions d)
                   (dailyLossCheck riskConfig (account d))) w)
      as [[e|] w3] eqn:G; intros R; inversion R; subst.
    eexists; exists w; split; [exact G|].
    split; [reflexivity|].
    apply blockedRow_holds.
Qed.

(** C4.  A cycle that returns has called the ledger once, and the ledger
    has accepted the row: it is the one row that the cycle adds.  The row
    has one record per decision of the oracle, in the order of the
    decisions: the record at each position carries the symbol and the
    prediction of the decision at that position. *)
Theorem one_record_per_decision
  (initialCapital : option Js.number) (w w1 w2 : World) (d : Decided)
  (t1 t : Trace) :
  decide initialCapital w = (Returned d, w1, t1) ->
  run initialCapital w = (Returned tt, w2, t) ->
  exists row w3,
    chatCreate row w3 = (None, w2)
    /\ ledgerCalls t = [(row, true)]
    /\ ledgerRows t = [row]
    /\ List.length (Chat.tradings row) = List.length (decisions d)
    /\ Forall2 recordFor (decisions d) (Chat.tradings row).
Proof.
  intros E R.
  pose proof (run_decided _ _ _ _ _ E) as Rd; rewrite R in Rd.
  destruct (trade (getRiskConfig w) d w1) as [[[[]|e] w3] t3] eqn:T;
    [|discriminate Rd].
  inversion Rd; subst w3 t.
  destruct (trade_written _ _ _ _ _ T) as (row & w4 & G & L & F).
  exists row, w4.
  assert (Lt : ledgerCalls (t1 ++ t3)%list = [(row, true)])
    by (rewrite ledgerCalls_app, (decide_ledger _ _ _ _ _ E), L;
        reflexivity).
  split; [exact G|split; [exact Lt|split]].
  - rewrite ledgerCalls_rows, Lt; reflexivity.
  - split; [symmetry; exact (Forall2_length F)|exact F].
Qed.

(** C5.  When the call of the oracle takes longer than the timeout of
    120000 ms, or rejects (as it does on an answer outside the schema), the
    cycle throws to its caller: nothing is added to the ledger, no order is
    sent to the venue, and the oracle has been called once. *)
Theorem oracle_failure_is_fatal
  (initialCapital : option Js.number) (w w1 w2 : World)
  (p : Account.t * string) (t1 : Trace) (ai : AiCall) :
  prepare initialCapital w = (Returned p, w1, t1) ->
  generateObject (getTradingPrompt supportedSymbolEnums) (snd p) w1
  = (ai, w2) ->
  lateOrRejected ai ->
  exists message t,
    run initialCapital w = (Thrown ("AI failed: " ++ message), w2, t)
    /\ ledgerRows t = []
    /\ orders t = []
    /\ filter isOracle t = [CallOracle 120000].
Proof.
  intros E G H.
  pose proof (prepare_trace initialCapital w) as P; rewrite E in P.
  destruct (preparation_trace _ P) as (O1 & L1 & K1); simpl in O1, L1, K1.
  assert (R : exists message, race ai = Thrown message).
  { destruct ai as [ms result|ms message|]; simpl in *.
    - destruct (N.ltb_spec ms timeout); [lia|eauto].
    - destruct (ms <? timeout)%N; eauto.
    - eauto. }
  destruct R as [message R].
  exists (errorText message); eexists.
  split.
  - apply run_undecided.
    unfold decide, bind at 1; rewrite E.
    unfold bind at 1, askOracle, bind at 1, call; rewrite G, R.
    unfold aiFailed, bind, emit, throw; simpl. reflexivity.
  - simpl.
    rewrite !ledgerRows_app, !orders_app, !filter_app, O1, L1, K1.
    simpl; auto.
Qed.

End Cycles.

(** ** Snapshot collection *)

Section Snapshots.

Context {C : Collaborators}.

Lemma snapshots_app (t1 t2 : Trace) :
  snapshots (t1 ++ t2)%list = (snapshots t1 ++ snapshots t2)%list.
Proof.
  induction t1 as [|e t1 IH]; simpl; [reflexivity|].
  destruct e; simpl; rewrite ?IH; reflexivity.
Qed.

Lemma warned_app (t1 t2 : Trace) :
  warned (t1 ++ t2)%list = (warned t1 ++ warned t2)%list.
Proof.
  induction t1 as [|e t1 IH]; simpl; [reflexivity|].
  destruct e as [| | | | | | | | |[]|]; simpl; rewrite ?IH; reflexivity.
Qed.

Lemma notNull_successful {S : Type} (answers : list (string * option S)) :
  notNull (map (fun a => option_map (pair (fst a)) (snd a)) answers)
  = successful answers.
Proof.
  induction answers as [|[symbol [state|]] answers IH]; simpl;
    rewrite ?IH; reflexivity.
Qed.

Lemma fetchMarketStates_spec (symbols : list string) (w w1 : World)
  (answers : list (string * option MarketState)) :
  answersOf symbols w = (answers, w1) ->
  map fst answers = symbols
  /\ exists t1,
       fetchMarketStates symbols w
       = (Returned (map (fun a => option_map (pair (fst a)) (snd a)) answers),
          w1, t1)
       /\ snapshots t1 = map (fun a => (fst a, isSome (snd a))) answers
       /\ warned t1 = failing answers.
Proof.
  revert w w1 answers; induction symbols as [|s symbols IH];
    intros w w1 answers; simpl.
  - intros E; inversion E; subst; split; [reflexivity|].
    exists []; repeat split.
  - unfold bind at 1, fetchMarketState, bind at 1, call.
    destruct (getCurrentMarketState s w) as [state w0].
    destruct (answersOf symbols w0) as [states w2] eqn:A.
    intros E; inversion E; subst.
    destruct (IH _ _ _ A) as (H1 & t1 & E1 & H2 & H3).
    split; [simpl; rewrite H1; reflexivity|].
    destruct state as [state|]; simpl;
      unfold bind; rewrite E1; simpl;
      eexists; (split; [reflexivity|]); simpl;
      rewrite ?app_nil_r, H2, H3; auto.
Qed.

(** C9.  The snapshot step asks for every configured instrument, one
    after the other in the order of the configuration, and never throws,
    whatever the fetches answer.  A fetch that fails is logged and leaves
    out its instrument and no other: the instruments that are handed on
    are those whose fetch answered with a snapshot, with that snapshot
    (none at all when every fetch fails).  Whatever the subset, the cycle
    goes on: it reads the account in the world the fetches left and builds
    the prompt from that subset. *)
Theorem snapshot_failures_are_tolerated
  (initialCapital : option Js.number) (w w1 : World)
  (answers : list (string * option MarketState)) :
  answersOf supportedSymbols w = (answers, w1) ->
  map fst answers = supportedSymbols
  /\ exists t1,
       fetchMarketStates supportedSymbols w
       = (Returned (map (fun a => option_map (pair (fst a)) (snd a)) answers),
          w1, t1)
       /\ warned t1 = failing answers
       /\ prepare initialCapital w
          = match getAccountInformationAndPerformance initialCapital w1 with
            | (Returned account, w2) =>
                match generateUserPrompt (successful answers) account w2 with
                | (Returned userPrompt, w3) =>
                    (Returned (account, userPrompt), w3,
                     (t1 ++ [CallAccount; CallPrompt])%list)
                | (Thrown e, w3) =>
                    (Thrown e, w3, (t1 ++ [CallAccount; CallPrompt])%list)
                end
            | (Thrown e, w2) => (Thrown e, w2, (t1 ++ [CallAccount])%list)
            end.
Proof.
  intros A.
  destruct (fetchMarketStates_spec _ _ _ _ A) as (H1 & t1 & E & _ & H3).
  split; [exact H1|].
  exists t1; split; [exact E|split; [exact H3|]].
  unfold prepare, bind at 1; rewrite E.
  unfold bind, callThrowing, ret.
  rewrite notNull_successful.
  destruct (getAccountInformationAndPerformance initialCapital w1)
    as [[acc|e] w2]; simpl; [|reflexivity].
  destruct (generateUserPrompt (successful answers) acc w2) as [[p|e] w3];
    simpl; rewrite ?app_nil_r; reflexivity.
Qed.

End Snapshots.

(** ** The branches of the loop *)
Section Branches.

Context {C : Collaborators}.

(** The loop goes on with the rest of the batch after a decision whose
    processing returned. *)
Lemma loop_continues (riskConfig : RiskConfig) (d : Decision.t)
  (rest : list Decision.t) (b b1 : Batch) (w w1 : World) (t1 : Trace) :
  processDecision riskConfig d b w = (Returned b1, w1, t1) ->
  processDecisions riskConfig (d :: rest) b w
  = match processDecisions riskConfig rest b1 w1 with
    | (r, w2, t2) => (r, w2, (t1 ++ t2)%list)
    end.
Proof.
  intros E; simpl; unfold bind; rewrite E; reflexivity.
Qed.

(** C7, as the code has it.  A Buy without its price, amount or leverage,
    and a Sell without its percentage, is recorded with the operation Hold.
    No call is made for it and the running balance is unchanged; the one
    trace it leaves is a console warning: the messages of the batch gain
    nothing but the decision's own chat line, so no block reason reaches
    the ledger.  The loop goes on with the next decision. *)
Theorem missing_field_is_recorded_as_hold
  (riskConfig : RiskConfig) (d : Decision.t) (rest : list Decision.t)
  (b : Batch) (w : World) :
  missingField d = true ->
  exists r line,
    processDecision riskConfig d b w
    = (Returned (pushRecord r (withChat d b)), w, [Console line])
    /\ (line = BuyMissingFields \/ line = SellMissingPercentage)
    /\ Trading.opeartion r = Hold
    /\ Trading.symbol r = Decision.symbol d
    /\ processDecisions riskConfig (d :: rest) b w
       = match processDecisions riskConfig rest
                 (pushRecord r (withChat d b)) w with
         | (res, w2, t2) => (res, w2, Console line :: t2)
         end.
Proof.
  unfold missingField, processDecision; intros H.
  assert (G : forall r line,
            processDecision riskConfig d b w
            = (Returned (pushRecord r (withChat d b)), w, [Console line]) ->
            processDecisions riskConfig (d :: rest) b w
            = match processDecisions riskConfig rest
                      (pushRecord r (withChat d b)) w with
              | (res, w2, t2) => (res, w2, Console line :: t2)
              end).
  { intros r line E; rewrite (loop_continues _ _ rest _ _ _ _ _ E).
    reflexivity. }
  unfold processDecision in G.
  destruct (Decision.opeartion d); [| |discriminate].
  - unfold processBuy in *.
    destruct (completeBuy d); [discriminate|].
    do 2 eexists; split; [reflexivity|].
    split; [left; reflexivity|].
    split; [reflexivity|]. split; [reflexivity|].
    apply G; reflexivity.
  - unfold processSell in *.
    destruct (Decision.sell d) as [[[percentage|]]|]; [discriminate| |];
      (do 2 eexists; split; [reflexivity|];
       split; [right; reflexivity|];
       split; [reflexivity|]; split; [reflexivity|];
       apply G; reflexivity).
Qed.

(** The two risk gates of a buy.  A buy that [checkBuyRisk] denies is not
    sent to the venue and its reason goes to the messages of the batch;
    its record keeps the operation of the decision. *)
Lemma risk_denied_buy_keeps_operation
  (riskConfig : RiskConfig) (d : Decision.t) (b : Batch) (w : World)
  (order : BuyOrder.t) (pricing amount leverage : Js.number) :
  Decision.opeartion d = Buy ->
  completeBuy d = Some (order, pricing, amount, leverage) ->
  Verdict.allowed
    (checkBuyRisk amount pricing leverage (remainingAvailableCash b)
       riskConfig) = false ->
  exists b1 r t,
    processDecision riskConfig d b w = (Returned b1, w, t)
    /\ allTradingRecords b1 = (allTradingRecords b ++ [r])%list
    /\ Trading.opeartion r = Buy
    /\ allChatMessages b1
       = (allChatMessages (withChat d b)
          ++ [blockedLine (Decision.symbol d)
                (Js.show
                   (Verdict.reason
                      (checkBuyRisk amount pricing leverage
                         (remainingAvailableCash b) riskConfig)))])%list
    /\ remainingAvailableCash b1 = remainingAvailableCash b
    /\ orders t = [].
Proof.
  intros Hop Hbuy Hrisk.
  assert (Hr : allTradingRecords (withChat d b) = allTradingRecords b)
    by (unfold withChat; destruct (String.eqb _ _); reflexivity).
  assert (Hc : remainingAvailableCash (withChat d b)
               = remainingAvailableCash b)
    by (unfold withChat; destruct (String.eqb _ _); reflexivity).
  unfold processDecision, processBuy; rewrite Hop, Hbuy, Hc, Hrisk; simpl.
  do 3 eexists; split; [reflexivity|]; simpl; rewrite Hr, Hc.
  split; [reflexivity|]; simpl; rewrite Hop.
  repeat split.
Qed.

(** A buy that [checkBuyRisk] allows and whose margin exceeds the running
    balance is not sent to the venue either, and its reason goes to the
    messages of the batch; its record has the operation Hold. *)
Lemma insufficient_margin_is_held
  (riskConfig : RiskConfig) (d : Decision.t) (b : Batch) (w : World)
  (order : BuyOrder.t) (pricing amount leverage : Js.number) :
  Decision.opeartion d = Buy ->
  completeBuy d = Some (order, pricing, amount, leverage) ->
  Verdict.allowed
    (checkBuyRisk amount pricing leverage (remainingAvailableCash b)
       riskConfig) = true ->
  Js.gtb (Js.div (Js.mul amount pricing) leverage)
    (remainingAvailableCash b) = true ->
  exists b1 r t,
    processDecision riskConfig d b w = (Returned b1, w, t)
    /\ allTradingRecords b1 = (allTradingRecords b ++ [r])%list
    /\ Trading.opeartion r = Hold
    /\ allChatMessages b1
       = (allChatMessages (withChat d b)
          ++ [blockedLine (Decision.symbol d)
                (insufficientReason (Js.div (Js.mul amount pricing) leverage)
                   (remainingAvailableCash b))])%list
    /\ remainingAvailableCash b1 = remainingAvailableCash b
    /\ orders t = [].
Proof.
  intros Hop Hbuy Hrisk Hmargin.
  assert (Hr : allTradingRecords (withChat d b) = allTradingRecords b)
    by (unfold withChat; destruct (String.eqb _ _); reflexivity).
  assert (Hc : remainingAvailableCash (withChat d b)
               = remainingAvailableCash b)
    by (unfold withChat; destruct (String.eqb _ _); reflexivity).
  unfold processDecision, processBuy; rewrite Hop, Hbuy, Hc, Hrisk.
  unfold requiredMarginOf; rewrite Hmargin; simpl.
  do 3 eexists; split; [reflexivity|]; simpl; rewrite Hr, Hc.
  repeat split.
Qed.

(** C6, as the code has it.  A Buy with its three numbers, allowed by
    [checkBuyRisk] and with a margin that is not greater than the running
    balance, is sent to the venue.  On a fill the running balance goes down
    by the margin of the request, amount * pricing / leverage; on a
    failure it is unchanged.  In both cases one record is added, with the
    operation Buy, the leverage asked and, for price and amount, what the
    venue reports when it reports a truthy value and what was asked
    otherwise.  The outcome goes to [logTrade], and a failure goes to the
    console before, each with the reason of the venue; the messages of the
    batch gain nothing but the decision's own chat line. *)
Theorem approved_buy_is_executed
  (riskConfig : RiskConfig) (d : Decision.t) (b : Batch) (w w1 : World)
  (order : BuyOrder.t) (pricing amount leverage : Js.number)
  (result : OrderResult.t) :
  Decision.opeartion d = Buy ->
  completeBuy d = Some (order, pricing, amount, leverage) ->
  Verdict.allowed
    (checkBuyRisk amount pricing leverage (remainingAvailableCash b)
       riskConfig) = true ->
  Js.gtb (Js.div (Js.mul amount pricing) leverage)
    (remainingAvailableCash b) = false ->
  buy (buyRequest d order amount leverage) w = (result, w1) ->
  exists b1 r entry,
    processDecision riskConfig d b w
    = (Returned b1, w1,
       (CallBuy (buyRequest d order amount leverage)
          (Js.div (Js.mul amount pricing) leverage) result
        :: (if OrderResult.success result then []
            else [Console (BuyFailed (OrderResult.error result))])
        ++ [LogTrade entry])%list)
    /\ TradeLog.reason entry
       = (if OrderResult.success result then Some "Success"
          else OrderResult.error result)
    /\ TradeLog.symbol entry = tradingSymbol (Decision.symbol d)
    /\ remainingAvailableCash b1
       = (if OrderResult.success result
          then Js.sub (remainingAvailableCash b)
                 (Js.div (Js.mul amount pricing) leverage)
          else remainingAvailableCash b)
    /\ allTradingRecords b1 = (allTradingRecords b ++ [r])%list
    /\ Trading.opeartion r = Buy
    /\ Trading.pricing r = (OrderResult.executedPrice result ||| Some pricing)
    /\ Trading.amount r = (OrderResult.executedAmount result ||| Some amount)
    /\ Trading.leverage r = Some leverage
    /\ allChatMessages b1 = allChatMessages (withChat d b).
Proof.
  intros Hop Hbuy Hrisk Hmargin Hcall.
  assert (Hr : allTradingRecords (withChat d b) = allTradingRecords b)
    by (unfold withChat; destruct (String.eqb _ _); reflexivity).
  assert (Hc : remainingAvailableCash (withChat d b)
               = remainingAvailableCash b)
    by (unfold withChat; destruct (String.eqb _ _); reflexivity).
  unfold processDecision, processBuy; rewrite Hop, Hbuy, Hc, Hrisk.
  unfold requiredMarginOf; rewrite Hmargin; simpl.
  unfold bind, call, emit, ret; rewrite Hcall; simpl.
  unfold outcomeReason.
  destruct (OrderResult.success result) eqn:Hs; simpl;
    (do 3 eexists; split; [reflexivity|]); simpl;
    rewrite Hr, ?Hc;
    repeat (split; [simpl; rewrite ?Hop; reflexivity|]);
    simpl; reflexivity.
Qed.

(** C8, as the code has it.  A Sell that the venue refuses is recorded all
    the same: the record keeps the operation Sell and has the amount 0
    when the venue reports no executed amount.  The failure is logged and
    handed to [logTrade] with its reason; the messages of the batch gain
    nothing but the decision's own chat line, and the running balance is
    unchanged.  The loop goes on with the next decision. *)
Theorem failed_sell_is_recorded
  (riskConfig : RiskConfig) (d : Decision.t) (rest : list Decision.t)
  (b : Batch) (w w0 w1 : World) (percentage : Js.number)
  (positions : option (list Position.t)) (result : OrderResult.t) :
  Decision.opeartion d = Sell ->
  Decision.sell d = Some {| SellOrder.percentage := Some percentage |} ->
  fetchPositions w = (positions, w0) ->
  sell (sellRequest d percentage) w0 = (result, w1) ->
  OrderResult.success result = false ->
  Js.truthy (OrderResult.executedAmount result) = false ->
  exists r t,
    processDecision riskConfig d b w
    = (Returned (pushRecord r (withChat d b)), w1, t)
    /\ Trading.opeartion r = Sell
    /\ Trading.amount r = Some 0
    /\ Trading.pricing r = OrderResult.executedPrice result
    /\ orders t = [CallSell (sellRequest d percentage) result]
    /\ In (Console (SellFailed (OrderResult.error result))) t
    /\ (exists entry,
          In (LogTrade entry) t
          /\ TradeLog.reason entry = OrderResult.error result)
    /\ processDecisions riskConfig (d :: rest) b w
       = match processDecisions riskConfig rest
                 (pushRecord r (withChat d b)) w1 with
         | (res, w2, t2) => (res, w2, (t ++ t2)%list)
         end.
Proof.
  intros Hop Hsell Hpos Hcall Hfail Hamount.
  assert (Hz : (OrderResult.executedAmount result ||| Some 0) = Some 0)
    by (unfold Js.or; rewrite Hamount; reflexivity).
  assert (E : exists r t,
            processDecision riskConfig d b w
            = (Returned (pushRecord r (withChat d b)), w1, t)
            /\ Trading.opeartion r = Sell
            /\ Trading.amount r = Some 0
            /\ Trading.pricing r = OrderResult.executedPrice result
            /\ orders t = [CallSell (sellRequest d percentage) result]
            /\ In (Console (SellFailed (OrderResult.error result))) t
            /\ (exists entry,
                  In (LogTrade entry) t
                  /\ TradeLog.reason entry = OrderResult.error result)).
  { unfold processDecision; rewrite Hop.
    unfold processSell, positionInfoOf; rewrite Hsell.
    unfold bind, call, emit, ret, orders; rewrite Hpos.
    destruct positions as [ps|]; simpl; rewrite Hcall; simpl;
      rewrite Hfail; simpl;
      (do 2 eexists; split; [reflexivity|];
       repeat (split; [simpl; rewrite ?Hop, ?Hz; reflexivity|]);
       destruct (noOpenPosition (OrderResult.error result)); simpl;
       (split; [reflexivity|]); (split; [pick_entry|]);
       (eexists; split;
        [pick_entry|unfold outcomeReason; simpl; rewrite Hfail;
                    reflexivity])). }
  destruct E as (r & t & E & H1 & H2 & H3 & H4 & H5 & H6).
  exists r, t; repeat (split; [assumption|]).
  apply (loop_continues _ _ rest _ _ _ _ _ E).
Qed.



End Branches.

(** ** The theorems at work *)

Section Evidence.

Import Desk Runs Cases.

(** C1 fails as stated.  On 1000 of cash, a buy whose margin is NaN
    passes the check against the balance and, once filled, leaves a
    balance that is NaN and that no later margin exceeds: the two buys of
    600 that follow are both sent and filled, and their margins alone sum
    to 1200.  And on a negative available cash with no buy at all, the sum
    of the margins, 0, exceeds it. *)
Lemma filled_margin_can_exceed_available_cash :
  (batchWithinSchema unpriced = true
   /\ (exists d t1,
         @decide (collaborators (calm unpriced)) None tt
         = (Returned d, tt, t1)
         /\ Account.availableCash (account d) = 1000)
   /\ map (fun e => Js.toFixed2 (marginOf e))
        (fills (snd (cycle (calm unpriced))))
      = ["NaN"; "600.00"; "600.00"]
   /\ Js.leb (committedMargin (snd (cycle (calm unpriced)))) 1000 = false
   /\ Js.toFixed2 (committedMargin (tl (fills (snd (cycle (calm unpriced))))))
      = "1200.00"
   /\ Js.gtb (committedMargin (tl (fills (snd (cycle (calm unpriced))))))
        1000 = true)
  /\ (batchWithinSchema plainHold = true
      /\ (exists d t1,
            @decide (collaborators (overdrawn plainHold)) None tt
            = (Returned d, tt, t1)
            /\ Account.availableCash (account d) = -50)
      /\ committedMargin (snd (cycle (overdrawn plainHold))) = 0
      /\ Js.leb 0 (-50) = false).
Proof.
  split.
  - split; [reflexivity|].
    split; [do 2 eexists; split; reflexivity|].
    repeat split; reflexivity.
  - split; [reflexivity|].
    split; [do 2 eexists; split; reflexivity|].
    split; reflexivity.
Qed.

(** The theorem of C1 on the desk of [calm] with two buys of 600 each: the
    first is filled and leaves 400, the second exceeds them. *)
Lemma running_balance_witness :
  exists d t1,
    @decide (collaborators (calm twoBuys)) None tt = (Returned d, tt, t1)
    /\ Js.isNaN (Account.availableCash (account d)) = false
    /\ Forall finiteMargin (decisions d)
    /\ covered 1000 (snd (cycle (calm twoBuys)))
    /\ Forall (fun balance => Js.leb 0 balance = true)
         (balances 1000 (snd (cycle (calm twoBuys)))).
Proof.
  do 2 eexists.
  split; [reflexivity|].
  split; [reflexivity|].
  assert (F : Forall finiteMargin twoBuys) by (repeat constructor).
  split; [exact F|].
  destruct (@buys_are_covered_by_the_running_balance
              (collaborators (calm twoBuys)) None tt tt _ _ eq_refl)
    as (_ & K & B & _).
  split; [exact K|exact (B eq_refl F)].
Defined.

(** The scenario of the two buys, run: 600 of margin is committed and 400
    are left, the second buy is recorded as Hold with the reason in the
    chat. *)
Example two_buys_of_600_on_1000 :
  exists row,
    ledgerRows (snd (cycle (calm twoBuys))) = [row]
    /\ map Trading.opeartion (Chat.tradings row) = [Buy; Hold]
    /\ map Js.toFixed2 (balances 1000 (snd (cycle (calm twoBuys))))
       = ["400.00"]
    /\ mentions "[ETH BLOCKED] Insufficient remaining margin for multi-order batch: need $600.00 but have $400.00"
         row = true.
Proof.
  eexists; split; [reflexivity|].
  split; [reflexivity|]. split; reflexivity.
Qed.

(** C2 on the desk whose risk check denies every buy: the buy is not sent
    to the venue and its reason is in the chat of the row, but the record
    keeps the operation Buy. *)
Theorem risk_denied_buy_is_recorded_as_buy :
  batchWithinSchema oneBuy = true
  /\ exists row r,
       ledgerRows (snd (cycle (cautious "Leverage 5x exceeds maximum 3x"
                                 oneBuy))) = [row]
       /\ Chat.tradings row = [r]
       /\ Trading.opeartion r = Buy
       /\ mentions "[BTC BLOCKED] Leverage 5x exceeds maximum 3x" row = true
       /\ orders (snd (cycle (cautious "Leverage 5x exceeds maximum 3x"
                                oneBuy))) = [].
Proof.
  split; [reflexivity|].
  do 2 eexists; split; [reflexivity|].
  split; [reflexivity|]. repeat split.
Qed.

(** The theorem of C3 on the desk whose daily-loss check denies. *)
Lemma daily_loss_gate_witness :
  exists d t1,
    @decide (collaborators (halted "Daily loss 15% exceeds 10%" twoBuys))
      None tt = (Returned d, tt, t1)
    /\ Verdict.allowed
         (@dailyLossCheck
            (collaborators (halted "Daily loss 15% exceeds 10%" twoBuys))
            tt (account d)) = false
    /\ orders (snd (cycle (halted "Daily loss 15% exceeds 10%" twoBuys)))
       = []
    /\ exists row,
         ledgerRows
           (snd (cycle (halted "Daily loss 15% exceeds 10%" twoBuys)))
         = [row]
         /\ Forall (fun r => Trading.opeartion r = Hold) (Chat.tradings row).
Proof.
  do 2 eexists.
  split; [reflexivity|].
  split; [reflexivity|].
  destruct (@daily_loss_gate_blocks_the_cycle
              (collaborators (halted "Daily loss 15% exceeds 10%" twoBuys))
              None tt tt _ _ eq_refl eq_refl)
    as (H1 & _ & H3 & H4 & _).
  split; [exact H1|].
  eexists; split; [exact (proj2 (H3 eq_refl))|exact H4].
Defined.

(** The theorem of C4 on the desk of [calm]. *)
Lemma one_record_per_decision_witness :
  exists d t1 t,
    @decide (collaborators (calm twoBuys)) None tt = (Returned d, tt, t1)
    /\ cycle (calm twoBuys) = (Returned tt, tt, t)
    /\ exists row,
         ledgerCalls t = [(row, true)]
         /\ ledgerRows t = [row]
         /\ List.length (Chat.tradings row) = 2%nat.
Proof.
  do 3 eexists.
  split; [reflexivity|].
  split; [reflexivity|].
  destruct (@one_record_per_decision (collaborators (calm twoBuys))
              None tt tt tt _ _ _ eq_refl eq_refl)
    as (row & w3 & _ & H1 & H2 & H3 & _).
  exists row; split; [exact H1|split; [exact H2|exact H3]].
Defined.

(** The theorem of C5 on the desk whose oracle does not settle. *)
Lemma oracle_failure_witness :
  exists p t1,
    @prepare (collaborators (silent oneBuy)) None tt = (Returned p, tt, t1)
    /\ lateOrRejected Hangs
    /\ exists message t,
         cycle (silent oneBuy) = (Thrown ("AI failed: " ++ message), tt, t)
         /\ ledgerRows t = []
         /\ orders t = []
         /\ filter isOracle t = [CallOracle 120000].
Proof.
  do 2 eexists.
  split; [reflexivity|].
  split; [exact I|].
  exact (@oracle_failure_is_fatal (collaborators (silent oneBuy))
           None tt tt tt _ _ Hangs eq_refl eq_refl I).
Defined.

(** The message of the timeout. *)
Example silent_oracle_message :
  fst (fst (cycle (silent oneBuy)))
  = Thrown "AI failed: AI call timeout after 120s".
Proof. reflexivity. Qed.

(** C6 fails as stated where it has the failure reason in the record.  The
    venue refuses the buy with a reason; the row that the cycle stores has
    the record of the attempt, and the reason is nowhere in its text: it
    is in the entry of [logTrade] only. *)
Lemma failed_buy_reason_is_not_recorded :
  batchWithinSchema oneBuy = true
  /\ exists row r entry,
       ledgerRows (snd (cycle (refusing "Margin is insufficient" oneBuy)))
       = [row]
       /\ Chat.tradings row = [r]
       /\ Trading.opeartion r = Buy
       /\ Trading.pricing r = Some 100
       /\ Trading.amount r = Some 3
       /\ Chat.chat row = "[BTC] momentum"
       /\ mentions "Margin is insufficient" row = false
       /\ In (LogTrade entry)
            (snd (cycle (refusing "Margin is insufficient" oneBuy)))
       /\ TradeLog.reason entry = Some "Margin is insufficient".
Proof.
  split; [reflexivity|].
  do 3 eexists; split; [reflexivity|].
  split; [reflexivity|].
  repeat (split; [reflexivity|]).
  split; [simpl; pick_entry|reflexivity].
Qed.

(** The theorem of C6 on the desk whose venue refuses every buy: the buy
    of 3 at 100 with leverage 5 is sent, the refusal goes to the console
    and to [logTrade], and the 1000 are left as they are. *)
Lemma approved_buy_witness :
  let d := decision Buy BTC (order 100 3 5) None "momentum" in
  let b := @startOfBatch (cash 1000) in
  let s := refusing "Margin is insufficient" oneBuy in
  exists o result,
    completeBuy d = Some (o, 100, 3, 5)
    /\ Js.gtb (Js.div (Js.mul 3 100) 5) (remainingAvailableCash b) = false
    /\ @buy (collaborators s) (buyRequest d o 3 5) tt = (result, tt)
    /\ exists b1 t,
         @processDecision (collaborators s) tt d b tt = (Returned b1, tt, t)
         /\ In (Console (BuyFailed (Some "Margin is insufficient"))) t
         /\ remainingAvailableCash b1 = 1000.
Proof.
  intros d b s.
  do 2 eexists.
  split; [reflexivity|].
  split; [reflexivity|].
  split; [reflexivity|].
  destruct (@approved_buy_is_executed (collaborators s)
              tt d b tt tt _ 100 3 5 _ eq_refl eq_refl eq_refl eq_refl
              eq_refl)
    as (b1 & r & entry & E & _ & _ & H & _).
  exists b1; eexists; split; [exact E|].
  split; [right; left; reflexivity|exact H].
Defined.

(** The same buy on the desk of [calm], where it is filled: it takes 60
    of the 1000. *)
Example filled_buy_takes_its_margin :
  let d := decision Buy BTC (order 100 3 5) None "momentum" in
  exists b1 w t,
    @processDecision (collaborators (calm oneBuy)) tt d
      (startOfBatch (cash 1000)) tt = (Returned b1, w, t)
    /\ Js.toFixed2 (remainingAvailableCash b1) = "940.00"
    /\ List.length t = 2%nat.
Proof.
  intros d; do 3 eexists; split; [cbv; reflexivity|split; reflexivity].
Qed.

(** A leverage of zero makes the margin infinite, and the buy is held. *)
Example buy_at_leverage_zero_is_held :
  let d := decision Buy BTC (order 100 3 0) None "momentum" in
  exists b1 w t r,
    @processDecision (collaborators (calm [d])) tt d
      (startOfBatch (cash 1000)) tt = (Returned b1, w, t)
    /\ orders t = []
    /\ allTradingRecords b1 = [r]
    /\ Trading.opeartion r = Hold.
Proof.
  intros d; do 4 eexists; split; [cbv; reflexivity|].
  split; [reflexivity|split; reflexivity].
Qed.

(** C7 fails as stated where it has a block reason in the record.  A
    cycle whose one decision is a Buy without its payload stores the very
    row that a cycle stores whose one decision is a Hold: the record has
    the operation Hold and the chat is the oracle's own line, so nothing
    in the ledger tells that, or why, the buy was blocked. *)
Lemma missing_field_leaves_no_block_reason :
  batchWithinSchema buyWithoutPayload = true
  /\ exists row,
       ledgerRows (snd (cycle (calm buyWithoutPayload))) = [row]
       /\ ledgerRows (snd (cycle (calm plainHold))) = [row]
       /\ map Trading.opeartion (Chat.tradings row) = [Hold]
       /\ Chat.chat row = "[BTC] go long"
       /\ mentions "BLOCKED" row = false.
Proof.
  split; [reflexivity|].
  eexists; split; [reflexivity|].
  repeat split.
Qed.

(** The theorem of C7 on the desk of [calm]. *)
Lemma missing_field_witness :
  let d := decision Buy BTC None None "go long" in
  let b := @startOfBatch (cash 1000) in
  missingField d = true
  /\ exists r line,
       @processDecision (collaborators (calm buyWithoutPayload)) tt d b tt
       = (Returned (pushRecord r (withChat d b)), tt, [Console line])
       /\ Trading.opeartion r = Hold.
Proof.
  intros d b.
  split; [reflexivity|].
  destruct (@missing_field_is_recorded_as_hold
              (collaborators (calm buyWithoutPayload)) tt d [] b tt eq_refl)
    as (r & line & E & _ & H & _).
  exists r, line; split; [exact E|exact H].
Defined.

(** C8 fails as stated where it has the failure reason in the record.  The
    venue answers the sell with [No open position]; the row that the cycle
    stores has the record with the amount 0, and the reason is nowhere in
    its text: it is in the entry of [logTrade] only. *)
Lemma failed_sell_reason_is_not_recorded :
  batchWithinSchema oneSell = true
  /\ exists row r entry,
       ledgerRows (snd (cycle (calm oneSell))) = [row]
       /\ Chat.tradings row = [r]
       /\ Trading.opeartion r = Sell
       /\ Trading.amount r = Some 0
       /\ Chat.chat row = "[SOL] take profit"
       /\ mentions "No open position" row = false
       /\ In (LogTrade entry) (snd (cycle (calm oneSell)))
       /\ TradeLog.reason entry = Some "No open position".
Proof.
  split; [reflexivity|].
  do 3 eexists; split; [reflexivity|].
  split; [reflexivity|].
  repeat (split; [reflexivity|]).
  split; [simpl; pick_entry|reflexivity].
Qed.

(** The theorem of C8 on the desk of [calm], where no position is open. *)
Lemma failed_sell_witness :
  let d := decision Sell SOL None (close 50) "take profit" in
  let b := @startOfBatch (cash 1000) in
  exists result,
    @sell (collaborators (calm oneSell)) (sellRequest d 50) tt = (result, tt)
    /\ OrderResult.success result = false
    /\ Js.truthy (OrderResult.executedAmount result) = false
    /\ exists r t,
         @processDecision (collaborators (calm oneSell)) tt d b tt
         = (Returned (pushRecord r (withChat d b)), tt, t)
         /\ Trading.opeartion r = Sell
         /\ Trading.amount r = Some 0.
Proof.
  intros d b.
  eexists.
  split; [reflexivity|].
  split; [reflexivity|].
  split; [reflexivity|].
  destruct (@failed_sell_is_recorded (collaborators (calm oneSell))
              tt d [] b tt tt tt 50 _ _ eq_refl eq_refl eq_refl eq_refl
              eq_refl eq_refl)
    as (r & t & E & H1 & H2 & _).
  exists r, t; split; [exact E|split; [exact H1|exact H2]].
Defined.


(** The theorem of C9 on the desk where two of the five fetches fail:
    the three other instruments are handed on, and the cycle returns. *)
Lemma snapshot_failures_witness :
  exists answers,
    @answersOf (collaborators (patchy plainHold)) supportedSymbols tt
    = (answers, tt)
    /\ map fst (successful answers) = ["BTC/USDT"; "SOL/USDT"; "BNB/USDT"]
    /\ (exists t1,
          fst (fst (@fetchMarketStates (collaborators (patchy plainHold))
                      supportedSymbols tt))
          = Returned
              (map (fun a => option_map (pair (fst a)) (snd a)) answers)
          /\ warned t1 = ["ETH/USDT"; "DOGE/USDT"])
    /\ fst (fst (cycle (patchy plainHold))) = Returned tt.
Proof.
  eexists.
  split; [reflexivity|].
  split; [reflexivity|].
  destruct (@snapshot_failures_are_tolerated (collaborators (patchy plainHold))
              None tt tt _ eq_refl)
    as (_ & t1 & E & H & _).
  split; [|reflexivity].
  exists t1; split; [rewrite E; reflexivity|exact H].
Defined.

(** When every fetch fails the cycle still runs, on no snapshot at all. *)
Example no_snapshot_at_all :
  let s := withSnapshots (fun _ => false) (calm plainHold) in
  successful (fst (@answersOf (collaborators s) supportedSymbols tt)) = []
  /\ warned (snd (cycle s)) = supportedSymbols
  /\ fst (fst (cycle s)) = Returned tt.
Proof. repeat split. Qed.

End Evidence.

(** ** The orders of a cycle *)

Section Orders.

Context {C : Collaborators}.

(** X1.  The orders of a cycle follow the decisions of the oracle: taken in
    the order of the calls, they are the orders of some of the decisions,
    in the order of the decisions and at most one for each; every buy is
    for the instrument, the amount and the leverage of a Buy decision, and
    every sell for the instrument and the percentage of a Sell decision. *)
Theorem orders_follow_the_decisions
  (initialCapital : option Js.number) (w w1 : World) (d : Decided)
  (t1 : Trace) :
  decide initialCapital w = (Returned d, w1, t1) ->
  Placed (decisions d) (orders (snd (run initialCapital w)))
  /\ (List.length (orders (snd (run initialCapital w)))
      <= List.length (decisions d))%nat.
Proof.
  intros E.
  destruct (run_placed _ _ _ _ _ E) as [P _].
  split; [exact P|exact (placed_length _ _ P)].
Qed.

End Orders.

(** ** The running balance *)

Section Balance.

Context {C : Collaborators}.

Lemma leb_trans (x y z : Js.number) :
  Js.leb x y = true -> Js.leb y z = true -> Js.leb x z = true.
Proof.
  destruct x as [x| | |[|]], y as [y| | |[|]], z as [z| | |[|]];
    intros H1 H2; number_cases; try reflexivity;
    exfalso; simpl in *; lra.
Qed.

Lemma balanceAfter_orders (t : Trace) (c : Js.number) :
  balanceAfter c (orders t) = balanceAfter c t.
Proof.
  unfold orders; revert c; induction t as [|e t IH]; intros c; simpl;
    [reflexivity|].
  destruct e; simpl; rewrite ?IH; reflexivity.
Qed.

Lemma placed_margin (ds : list Decision.t) (os : Trace) :
  Placed ds os -> Forall nonNegativeMargin ds ->
  Forall (fun e => Js.leb 0 (marginOf e) = true) os.
Proof.
  induction 1 as [|d ds os P IH|d ds e os He P IH]; intros F.
  - constructor.
  - inversion F; subst; auto.
  - inversion F as [|? ? Hd Hds]; subst.
    constructor; [|exact (IH Hds)].
    destruct e; simpl in He; try contradiction; [|reflexivity].
    destruct He as (_ & order & pricing & amount & leverage & Hb & _ & Hm).
    unfold nonNegativeMargin in Hd; rewrite Hb in Hd; subst; exact Hd.
Qed.

(** Orders with margins that are not negative take from a finite balance
    that covers them, and leave it finite and not negative. *)
Lemma covered_bounded (os : Trace) (c : Js.number) :
  Js.isFinite c = true -> Js.leb 0 c = true ->
  Forall (fun e => Js.leb 0 (marginOf e) = true) os ->
  covered c os ->
  Js.isFinite (balanceAfter c os) = true
  /\ Js.leb 0 (balanceAfter c os) = true
  /\ Js.leb (balanceAfter c os) c = true.
Proof.
  revert c; induction os as [|e os IH]; intros c Hf Hc F K; simpl.
  - split; [exact Hf|split; [exact Hc|]].
    destruct c as [c| | |[|]]; number_cases; try reflexivity;
      exfalso; simpl in *; lra.
  - inversion F as [|? ? He Hos]; subst.
    destruct e; simpl in *; try (apply IH; assumption).
    destruct K as [Hm K].
    destruct (OrderResult.success result); [|apply IH; assumption].
    destruct (sub_bounded c requiredMargin Hf He Hm) as (B1 & B2 & B3).
    destruct (IH _ B1 B2 Hos K) as (I1 & I2 & I3).
    split; [exact I1|split; [exact I2|]].
    exact (leb_trans _ _ _ I3 B3).
Qed.

(** X2.  When no decision of the batch asks for a negative margin and the
    running balance is a finite number that is not negative at the start
    of the batch, it is finite and not negative at the end, and has not
    grown: sells and holds leave it as it is, and fills only take from
    it. *)
Theorem balance_stays_within_its_start
  (riskConfig : RiskConfig) (ds : list Decision.t) (b b' : Batch)
  (w w' : World) (t : Trace) :
  processDecisions riskConfig ds b w = (Returned b', w', t) ->
  Forall nonNegativeMargin ds ->
  Js.isFinite (remainingAvailableCash b) = true ->
  Js.leb 0 (remainingAvailableCash b) = true ->
  Js.leb 0 (remainingAvailableCash b') = true
  /\ Js.leb (remainingAvailableCash b') (remainingAvailableCash b) = true
  /\ Js.isFinite (remainingAvailableCash b') = true.
Proof.
  intros E F Hf Hb.
  destruct (processDecisions_spec riskConfig ds b w)
    as (b1 & w1 & t1 & E1 & S).
  rewrite E in E1; inversion E1; subst b1 w1 t1.
  pose proof (processDecisions_placed riskConfig ds b w) as P.
  rewrite E in P; simpl in P.
  pose proof (placed_margin _ _ P F) as Hm.
  pose proof (covered_orders _ _ (batch_covered _ _ _ _ S)) as K.
  destruct (covered_bounded _ _ Hf Hb Hm K) as (B1 & B2 & B3).
  rewrite balanceAfter_orders, <- (batch_balance _ _ _ _ S) in B1, B2, B3.
  auto.
Qed.

End Balance.

(** ** Holds and sells *)

Section HoldsAndSells.

Context {C : Collaborators}.

(** X3.  A Hold places no buy and no sell, and leaves the running balance
    and the messages of the batch as they are but for the decision's own
    chat line.  It asks the venue for protective orders exactly when the
    decision carries a stop-loss or a take-profit, once, with the two
    levels of the decision; whatever the venue answers, the record is the
    same: the operation Hold, with the two levels where they are not
    zero. *)
Theorem hold_touches_only_protective_orders
  (riskConfig : RiskConfig) (d : Decision.t) (b : Batch) (w : World) :
  Decision.opeartion d = Hold ->
  exists r w1 t,
    processDecision riskConfig d b w
    = (Returned (pushRecord r (withChat d b)), w1, t)
    /\ Trading.opeartion r = Hold
    /\ Trading.stopLoss r = (adjustField AdjustProfit.stopLoss d ||| None)
    /\ Trading.takeProfit r
       = (adjustField AdjustProfit.takeProfit d ||| None)
    /\ orders t = []
    /\ (adjustField AdjustProfit.stopLoss d = None ->
        adjustField AdjustProfit.takeProfit d = None ->
        w1 = w /\ t = [])
    /\ (adjustField AdjustProfit.stopLoss d <> None
        \/ adjustField AdjustProfit.takeProfit d <> None ->
        exists result,
          setStopLossTakeProfit (protectRequest d) w = (result, w1)
          /\ filter isProtect t = [CallProtect (protectRequest d) result]).
Proof.
  intros Hop; unfold processDecision, processHold; rewrite Hop.
  unfold adjustField, protectRequest, adjustField.
  destruct (Decision.adjustProfit d) as [[sl tp]|]; simpl.
  - destruct sl as [sl|]; [|destruct tp as [tp|]]; simpl; run_step.
    3: { do 3 eexists; split; [reflexivity|]; simpl; rewrite Hop.
         repeat (split; [reflexivity|]).
         split; [auto|intros [H|H]; contradiction H; reflexivity]. }
    all: do 3 eexists; (split; [reflexivity|]); simpl; rewrite Hop.
    all: repeat (split; [reflexivity|]).
    all: split; [destruct (ProtectResult.success _); reflexivity|].
    all: split; [intros; discriminate|intros _].
    all: eexists; split; [reflexivity|].
    all: destruct (ProtectResult.success _); reflexivity.
  - run_step.
    do 3 eexists; split; [reflexivity|]; simpl; rewrite Hop.
    repeat (split; [reflexivity|]).
    split; [auto|intros [H|H]; contradiction H; reflexivity].
Qed.

(** X4.  A Sell with its percentage is sent to the venue whether the
    lookup of the positions succeeds or throws, and whatever the venue
    answers one record is added with the operation Sell, the price that
    the venue reports and the amount it reports (0 for none).  The
    leverage of the record is that of the first open position of the
    instrument, and [null] when the lookup threw or found none.  The
    running balance is unchanged, also when the sell is filled. *)
Theorem sell_is_sent_and_recorded
  (riskConfig : RiskConfig) (d : Decision.t) (b : Batch) (w w0 w1 : World)
  (percentage : Js.number) (positions : option (list Position.t))
  (result : OrderResult.t) :
  Decision.opeartion d = Sell ->
  Decision.sell d = Some {| SellOrder.percentage := Some percentage |} ->
  fetchPositions w = (positions, w0) ->
  sell (sellRequest d percentage) w0 = (result, w1) ->
  exists r t,
    processDecision riskConfig d b w
    = (Returned (pushRecord r (withChat d b)), w1, t)
    /\ Trading.opeartion r = Sell
    /\ Trading.pricing r = OrderResult.executedPrice result
    /\ Trading.amount r = (OrderResult.executedAmount result ||| Some 0)
    /\ Trading.leverage r = positionLeverage (Decision.symbol d) positions
    /\ orders t = [CallSell (sellRequest d percentage) result]
    /\ remainingAvailableCash (pushRecord r (withChat d b))
       = remainingAvailableCash b.
Proof.
  intros Hop Hsell Hpos Hcall.
  assert (Hc : remainingAvailableCash (withChat d b)
               = remainingAvailableCash b)
    by (unfold withChat; destruct (String.eqb _ _); reflexivity).
  unfold processDecision; rewrite Hop.
  unfold processSell, positionInfoOf; rewrite Hsell.
  unfold bind, call, emit, ret, orders, positionLeverage; rewrite Hpos.
  destruct positions as [ps|]; simpl; rewrite Hcall; simpl.
  - do 2 eexists; split; [reflexivity|]; simpl; rewrite Hop, Hc.
    repeat (split; [reflexivity|]).
    split; [destruct (find _ ps); reflexivity|].
    split; [|reflexivity].
    destruct (OrderResult.success result); simpl; [reflexivity|].
    destruct (noOpenPosition _); reflexivity.
  - do 2 eexists; split; [reflexivity|]; simpl; rewrite Hop, Hc.
    repeat (split; [reflexivity|]).
    split; [|reflexivity].
    destruct (OrderResult.success result); simpl; [reflexivity|].
    destruct (noOpenPosition _); reflexivity.
Qed.

End HoldsAndSells.

(** ** Failures around the batch *)

Section Failures.

Context {C : Collaborators}.

Lemma trade_oracle (riskConfig : RiskConfig) (d : Decided) (w : World) :
  filter isOracle (snd (trade riskConfig d w)) = [].
Proof.
  destruct (Verdict.allowed (dailyLossCheck riskConfig (account d))) eqn:A.
  - destruct (trade_open riskConfig d w A) as (b & w1 & t1 & _ & S & E).
    rewrite E.
    destruct (prismaChatCreate_trace
                (batchRow (reasoning d) (userPrompt d) b) w1)
      as (r & w2 & stored & E2 & _).
    rewrite E2; simpl.
    rewrite filter_app, (batch_oracle _ _ _ _ S); reflexivity.
  - rewrite (trade_blocked riskConfig d w A).
    destruct (prismaChatCreate_trace
                (blockedRow (reasoning d) (userPrompt d) (decisions d)
                   (dailyLossCheck riskConfig (account d))) w)
      as (r & w2 & stored & E2 & _).
    rewrite E2; reflexivity.
Qed.

Lemma decide_oracle (initialCapital : option Js.number) (w : World) :
  (List.length (filter isOracle (snd (decide initialCapital w))) <= 1)%nat.
Proof.
  unfold decide.
  pose proof (prepare_trace initialCapital w) as P.
  unfold bind at 1.
  destruct (prepare initialCapital w) as [[[p|e] w1] t1]; simpl in P;
    destruct (preparation_trace _ P) as (_ & _ & H3).
  2: { simpl; rewrite H3; simpl; lia. }
  unfold bind, askOracle, aiFailed, bind, call, emit, throw, ret,
    decisionsOf.
  destruct (generateObject _ _ w1) as [ai w2]; simpl.
  destruct (race ai) as [result|message]; simpl.
  2: { rewrite filter_app, H3; simpl; lia. }
  destruct (reasoningOf result) as [text|message]; simpl.
  2: { rewrite filter_app, H3; simpl; lia. }
  destruct (OracleResult.object result) as [o|]; simpl.
  2: { rewrite filter_app, H3; simpl; lia. }
  destruct (OracleObject.decisions o) as [|ds|];
    destruct (OracleObject.single o) as [d1|]; simpl;
    rewrite filter_app, H3; simpl; lia.
Qed.

(** X5.  No cycle calls the oracle more than once, whatever the
    collaborators answer: there is no retry and no second model. *)
Theorem oracle_is_called_at_most_once
  (initialCapital : option Js.number) (w : World) :
  (List.length (filter isOracle (snd (run initialCapital w))) <= 1)%nat.
Proof.
  pose proof (decide_oracle initialCapital w) as H.
  destruct (decide initialCapital w) as [[[d|e] w1] t1] eqn:E.
  - destruct (run_trace _ _ _ _ _ E) as (tail & Et & _ & Htail).
    destruct (console_trace _ Htail) as (_ & _ & K3).
    rewrite Et, !filter_app, trade_oracle, K3, app_nil_r.
    exact H.
  - rewrite (run_undecided _ _ _ _ _ E); simpl.
    rewrite filter_app; simpl; rewrite app_nil_r; exact H.
Qed.

(** X6.  When the read of the account or the building of the prompt
    throws, the cycle throws that very error to its caller; the oracle is
    not called, no order is sent and nothing is added to the ledger. *)
Theorem preparation_failure_is_fatal
  (initialCapital : option Js.number) (w w1 : World) (e : string) (t1 : Trace) :
  prepare initialCapital w = (Thrown e, w1, t1) ->
  exists t,
    run initialCapital w = (Thrown e, w1, t)
    /\ filter isOracle t = []
    /\ orders t = []
    /\ ledgerRows t = [].
Proof.
  intros E.
  pose proof (prepare_trace initialCapital w) as P; rewrite E in P.
  destruct (preparation_trace _ P) as (O1 & L1 & K1); simpl in O1, L1, K1.
  eexists; split.
  - apply run_undecided; unfold decide, bind; rewrite E; reflexivity.
  - rewrite filter_app, orders_app, ledgerRows_app, O1, L1, K1.
    repeat split.
Qed.

(** X7.  When the ledger refuses the row of a cycle that went through its
    decisions, the cycle throws the error of the ledger and no row is
    added; the orders that the batch sent to the venue stay sent. *)
Theorem ledger_failure_loses_the_row
  (initialCapital : option Js.number) (w w1 w2 w3 : World) (d : Decided)
  (b : Batch) (t1 t2 : Trace) (e : string) :
  decide initialCapital w = (Returned d, w1, t1) ->
  Verdict.allowed (dailyLossCheck (getRiskConfig w) (account d)) = true ->
  processDecisions (getRiskConfig w) (decisions d)
    (startOfBatch (account d)) w1 = (Returned b, w2, t2) ->
  chatCreate (batchRow (reasoning d) (userPrompt d) b) w2 = (Some e, w3) ->
  exists t,
    run initialCapital w = (Thrown e, w3, t)
    /\ ledgerRows t = []
    /\ orders t = orders t2.
Proof.
  intros E A E2 E3.
  destruct (decide_trace _ _ _ _ _ E) as (O1 & L1 & _).
  destruct (trade_open (getRiskConfig w) d w1 A)
    as (b' & w2' & t2' & E2' & S & Et).
  rewrite E2 in E2'; inversion E2'; subst b' w2' t2'.
  rewrite (run_decided _ _ _ _ _ E), Et.
  unfold prismaChatCreate; rewrite E3.
  eexists; split; [reflexivity|].
  rewrite !ledgerRows_app, !orders_app, O1, L1.
  rewrite (batch_ledger _ _ _ _ S); simpl.
  rewrite !app_nil_r; split; reflexivity.
Qed.

(** The reasoning of an answer is read without a throw, unless the
    answer brings no reasoning of its own and its [decisions] is a value
    that is not an array. *)
Lemma reasoningOf_cases (result : OracleResult.t) :
  match OracleResult.object result with
  | Some o =>
      if hasReasoning result o then
        exists text, reasoningOf result = Returned text
      else
        match OracleObject.decisions o with
        | NotAnArray => reasoningOf result = Thrown notAFunction
        | _ => exists text, reasoningOf result = Returned text
        end
  | None => exists text, reasoningOf result = Returned text
  end.
Proof.
  unfold reasoningOf, hasReasoning.
  destruct (OracleResult.object result) as [o|].
  - destruct (Js.truthyS (OracleResult.reasoning result)); simpl; [eauto|].
    destruct (Js.truthyS (OracleResult.providerReasoning result)); simpl;
      [eauto|].
    destruct (Js.truthyS (OracleObject.reasoning o)); simpl; [eauto|].
    destruct (OracleObject.decisions o); eauto.
  - destruct (Js.truthyS (OracleResult.reasoning result)); [eauto|].
    destruct (Js.truthyS (OracleResult.providerReasoning result)); eauto.
Qed.

(** X8.  An answer of the oracle that comes in time and from which no
    decision can be taken makes the cycle throw; no order is sent and
    nothing is added to the ledger.  The message tells the case: an answer
    without an object; an object that has no [decisions] array and not the
    shape of one decision; and an object whose [decisions] is not an array
    and that brings no reasoning of its own, on which the reading of the
    reasoning throws inside the oracle call. *)
Theorem answer_without_decisions_is_fatal
  (initialCapital : option Js.number) (w w1 w2 : World)
  (p : Account.t * string) (t1 : Trace) (ms : N) (result : OracleResult.t)
  (message : string) :
  prepare initialCapital w = (Returned p, w1, t1) ->
  generateObject (getTradingPrompt supportedSymbolEnums) (snd p) w1
  = (Resolves ms result, w2) ->
  (ms < timeout)%N ->
  match OracleResult.object result with
  | None => message = "AI failed to generate valid response"
  | Some o =>
      match OracleObject.decisions o, OracleObject.single o with
      | DecisionsArray _, _ => False
      | NoDecisions, None =>
          message = "AI response missing 'decisions' array"
      | NoDecisions, Some _ => False
      | NotAnArray, single =>
          if hasReasoning result o then
            single = None
            /\ message = "AI response missing 'decisions' array"
          else message = "AI failed: " ++ errorText notAFunction
      end
  end ->
  exists t,
    run initialCapital w = (Thrown message, w2, t)
    /\ orders t = []
    /\ ledgerRows t = []
    /\ filter isOracle t = [CallOracle timeout].
Proof.
  intros E G Hms Ho.
  pose proof (prepare_trace initialCapital w) as P; rewrite E in P.
  destruct (preparation_trace _ P) as (O1 & L1 & K1); simpl in O1, L1, K1.
  apply N.ltb_lt in Hms.
  pose proof (reasoningOf_cases result) as R.
  assert (D : exists tail,
            decide initialCapital w
            = (Thrown message, w2, (t1 ++ CallOracle timeout :: tail)%list)
            /\ forallb
                 (fun e => match e with Console _ => true | _ => false end)
                 tail = true).
  { unfold decide, bind at 1; rewrite E.
    unfold bind at 1, askOracle, bind at 1, call; rewrite G.
    unfold race; rewrite Hms.
    unfold aiFailed, ret, bind, decisionsOf, throw, emit.
    revert Ho R.
    destruct (OracleResult.object result) as [o|].
    - destruct (OracleObject.decisions o) as [|ds|] eqn:Hd.
      + destruct (OracleObject.single o) as [d1|] eqn:Hs; [intros []|].
        intros Hm R.
        assert (T : exists text, reasoningOf result = Returned text)
          by (destruct (hasReasoning result o); exact R).
        destruct T as [text T]; rewrite T; simpl; rewrite Hd, Hs.
        subst message; exists []; split; reflexivity.
      + intros [].
      + destruct (hasReasoning result o).
        * intros [Hs Hm] [text R]; rewrite R; simpl; rewrite Hd, Hs.
          subst message; exists []; split; reflexivity.
        * intros Hm R; rewrite R; simpl.
          subst message; eexists; split; reflexivity.
    - intros Hm [text R]; rewrite R; simpl; subst message.
      exists []; split; reflexivity. }
  destruct D as (tail & D & Htail).
  destruct (console_trace _ Htail) as (O3 & L3 & K3).
  eexists; split; [exact (run_undecided _ _ _ _ _ D)|].
  unfold orders in *.
  rewrite !ledgerRows_app, !filter_app, O1, L1, K1; simpl.
  rewrite ?ledgerRows_app, ?filter_app, ?O3, ?L3, ?K3; repeat split.
Qed.

(** X9.  An answer that comes in time is taken as it is: the decisions of
    its [decisions] array, all of them and in their order, whatever their
    number, and also when the object has the shape of one decision; an
    object without the array and with the shape of one decision is a batch
    of that one decision (when its [decisions] is a value that is not an
    array, provided the answer brings a reasoning of its own). *)
Theorem decisions_are_taken_as_answered
  (initialCapital : option Js.number) (w w1 w2 : World)
  (p : Account.t * string) (t1 : Trace) (ms : N) (result : OracleResult.t)
  (o : OracleObject.t) (ds : list Decision.t) :
  prepare initialCapital w = (Returned p, w1, t1) ->
  generateObject (getTradingPrompt supportedSymbolEnums) (snd p) w1
  = (Resolves ms result, w2) ->
  (ms < timeout)%N ->
  OracleResult.object result = Some o ->
  match OracleObject.decisions o, OracleObject.single o with
  | DecisionsArray answered, _ => ds = answered
  | NoDecisions, Some d1 => ds = [d1]
  | NotAnArray, Some d1 => hasReasoning result o = true /\ ds = [d1]
  | _, None => False
  end ->
  exists d,
    decide initialCapital w
    = (Returned d, w2, (t1 ++ [CallOracle timeout])%list)
    /\ decisions d = ds
    /\ account d = fst p
    /\ userPrompt d = snd p.
Proof.
  intros E G Hms Ho Hds.
  apply N.ltb_lt in Hms.
  pose proof (reasoningOf_cases result) as R; rewrite Ho in R.
  unfold decide, bind at 1; rewrite E.
  unfold bind at 1, askOracle, bind at 1, call; rewrite G.
  unfold race; rewrite Hms.
  unfold ret, bind, decisionsOf, throw.
  revert Hds R.
  destruct (OracleObject.decisions o) as [|answered|] eqn:Hd;
    destruct (OracleObject.single o) as [d1|] eqn:Hs;
    try (intros []; fail).
  - intros Hds R.
    assert (T : exists text, reasoningOf result = Returned text)
      by (destruct (hasReasoning result o); exact R).
    destruct T as [text T]; rewrite T; simpl; rewrite Ho, Hd, Hs.
    subst ds; eexists; split; [reflexivity|]; repeat split.
  - intros Hds R.
    assert (T : exists text, reasoningOf result = Returned text)
      by (destruct (hasReasoning result o); exact R).
    destruct T as [text T]; rewrite T; simpl; rewrite Ho, Hd.
    subst ds; eexists; split; [reflexivity|]; repeat split.
  - intros Hds R.
    assert (T : exists text, reasoningOf result = Returned text)
      by (destruct (hasReasoning result o); exact R).
    destruct T as [text T]; rewrite T; simpl; rewrite Ho, Hd.
    subst ds; eexists; split; [reflexivity|]; repeat split.
  - intros [Hr Hds] R; rewrite Hr in R.
    destruct R as [text T]; rewrite T; simpl; rewrite Ho, Hd, Hs.
    subst ds; eexists; split; [reflexivity|]; repeat split.
Qed.

End Failures.

(** ** The text of a row *)

Section Messages.

Context {C : Collaborators}.

(** What a decision adds to the messages of the batch: its own chat line,
    when it has a chat, and then at most the line of a risk gate. *)
Lemma processDecision_messages (riskConfig : RiskConfig) (d : Decision.t)
  (b : Batch) (w : World) :
  exists gate,
    allChatMessages (withChat d b)
    = (allChatMessages b ++ chatLines [d])%list
    /\ match fst (fst (processDecision riskConfig d b w)) with
       | Returned b' =>
           allChatMessages b'
           = (allChatMessages b ++ chatLines [d] ++ gate)%list
       | Thrown _ => False
       end
    /\ gateLine d gate.
Proof.
  assert (Hw : allChatMessages (withChat d b)
               = (allChatMessages b ++ chatLines [d])%list).
  { unfold withChat, chatLines; simpl.
    destruct (String.eqb (Decision.chat d) ""); simpl;
      [rewrite app_nil_r|]; reflexivity. }
  unfold processDecision, gateLine.
  destruct (Decision.opeartion d) eqn:Hop.
  - unfold processBuy.
    destruct (completeBuy d) as [[[[order pricing] amount] leverage]|].
    + destruct (Verdict.allowed _); simpl.
      * destruct (Js.gtb _ _); simpl.
        -- eexists; split; [exact Hw|]; run_step.
           rewrite Hw, <- app_assoc; split; [reflexivity|eauto].
        -- exists []; split; [exact Hw|]; run_step.
           rewrite app_nil_r.
           split; [destruct (OrderResult.success _); exact Hw|auto].
      * eexists; split; [exact Hw|]; run_step.
        rewrite Hw, <- app_assoc; split; [reflexivity|eauto].
    + exists []; split; [exact Hw|]; run_step.
      rewrite app_nil_r; auto.
  - unfold processSell, positionInfoOf.
    exists []; split; [exact Hw|]; rewrite app_nil_r.
    destruct (Decision.sell d) as [[[percentage|]]|]; run_step; auto.
  - unfold processHold.
    exists []; split; [exact Hw|]; rewrite app_nil_r.
    destruct (_ && _); run_step; auto.
Qed.

Lemma subsequence_refl {A : Type} (l : list A) : Subsequence l l.
Proof. induction l; constructor; assumption. Qed.

Lemma subsequence_app {A : Type} (l1 m1 l2 m2 : list A) :
  Subsequence l1 m1 -> Subsequence l2 m2 ->
  Subsequence (l1 ++ l2) (m1 ++ m2).
Proof.
  induction 1; intros H2; simpl;
    [exact H2|apply subsequence_skip; auto|apply subsequence_keep; auto].
Qed.

Lemma subsequence_grow {A : Type} (l m : list A) :
  Subsequence l (l ++ m).
Proof.
  induction l as [|x l IH]; simpl.
  - induction m; constructor; assumption.
  - constructor; exact IH.
Qed.

Lemma chatLines_app (ds1 ds2 : list Decision.t) :
  chatLines (ds1 ++ ds2) = (chatLines ds1 ++ chatLines ds2)%list.
Proof. unfold chatLines; rewrite filter_app, map_app; reflexivity. Qed.

Lemma bracket_line (s : string) : isLine ("[" ++ s).
Proof. unfold isLine; simpl; destruct s; reflexivity. Qed.

Lemma chatLines_lines (ds : list Decision.t) : Forall isLine (chatLines ds).
Proof.
  unfold chatLines; induction ds as [|d ds IH]; simpl; [constructor|].
  destruct (String.eqb (Decision.chat d) ""); simpl; [exact IH|].
  constructor; [apply bracket_line|exact IH].
Qed.

Lemma processDecisions_messages
  (riskConfig : RiskConfig) (ds : list Decision.t) (b b' : Batch)
  (w w' : World) (t : Trace) :
  processDecisions riskConfig ds b w = (Returned b', w', t) ->
  exists ms,
    allChatMessages b' = (allChatMessages b ++ ms)%list /\ Said ds ms.
Proof.
  revert b w w' t; induction ds as [|d ds IH]; intros b w w' t; simpl.
  - unfold ret; intros E; inversion E; subst.
    exists []; rewrite app_nil_r; split; constructor.
  - destruct (processDecision_messages riskConfig d b w)
      as (gate & _ & H1 & Hm).
    unfold bind.
    destruct (processDecision riskConfig d b w) as [[[b1|e] w1] t1];
      simpl in H1; [|contradiction].
    destruct (processDecisions riskConfig ds b1 w1) as [[r w2] t2] eqn:E2.
    intros E; inversion E; subst.
    destruct (IH _ _ _ _ E2) as (ms & H2 & S2).
    exists (chatLines [d] ++ gate ++ ms)%list.
    split; [rewrite H2, H1, <- !app_assoc; reflexivity|].
    constructor; assumption.
Qed.

Lemma said_lines (ds : list Decision.t) (ms : list string) :
  Said ds ms ->
  Subsequence (chatLines ds) ms
  /\ Forall isLine ms
  /\ (List.length ms <= 2 * List.length ds)%nat.
Proof.
  induction 1 as [|d ds gate ms Hg S (IH1 & IH2 & IH3)].
  - repeat split; constructor.
  - split; [|split].
    + change (d :: ds) with ([d] ++ ds)%list; rewrite chatLines_app.
      apply subsequence_app; [apply subsequence_refl|].
      destruct Hg as [Hg|(_ & reason & Hg)]; subst gate;
        simpl; [exact IH1|constructor; exact IH1].
    + apply Forall_app; split; [apply chatLines_lines|].
      apply Forall_app; split; [|exact IH2].
      destruct Hg as [Hg|(_ & reason & Hg)]; subst gate; constructor;
        [apply bracket_line|constructor].
    + rewrite !length_app.
      assert (List.length (chatLines [d]) <= 1)%nat
        by (unfold chatLines; simpl;
            destruct (String.eqb (Decision.chat d) ""); simpl; lia).
      assert (List.length gate <= 1)%nat
        by (destruct Hg as [Hg|(_ & reason & Hg)]; subst gate; simpl; lia).
      simpl; lia.
Qed.

(** X10.  The messages that a batch adds follow its decisions: for each
    decision in turn its chat line, when it has a chat, and then at most
    one line of a risk gate, which only a Buy gets, and nothing else.  So
    the chat lines are all there, in the order of the decisions; every
    message starts with the bracket of its instrument; and a decision
    adds at most two messages. *)
Theorem chat_lines_are_kept_in_order
  (riskConfig : RiskConfig) (ds : list Decision.t) (b b' : Batch)
  (w w' : World) (t : Trace) :
  processDecisions riskConfig ds b w = (Returned b', w', t) ->
  exists ms,
    allChatMessages b' = (allChatMessages b ++ ms)%list
    /\ Said ds ms
    /\ Subsequence (chatLines ds) ms
    /\ Forall isLine ms
    /\ (List.length ms <= 2 * List.length ds)%nat.
Proof.
  intros E.
  destruct (processDecisions_messages _ _ _ _ _ _ _ E) as (ms & H & S).
  exists ms; split; [exact H|split; [exact S|exact (said_lines _ _ S)]].
Qed.

Lemma line_not_empty (m : string) : isLine m -> m <> "".
Proof. intros H E; subst; discriminate H. Qed.

Lemma concat_not_empty (sep m : string) (ms : list string) :
  m <> "" -> String.concat sep (m :: ms) <> "".
Proof.
  intros H; destruct m as [|c m]; [contradiction H; reflexivity|].
  destruct ms; simpl; discriminate.
Qed.

Lemma orPlaceholder_not_empty (text placeholder : string) :
  placeholder <> "" -> orPlaceholder text placeholder <> "".
Proof.
  intros H; unfold orPlaceholder.
  destruct (String.eqb_spec text ""); assumption.
Qed.

(** The rows that [trade] adds to the ledger. *)
Lemma trade_rows (riskConfig : RiskConfig) (d : Decided) (w : World)
  (row : Chat.t) :
  In row (ledgerRows (snd (trade riskConfig d w))) ->
  (exists b w1 t1,
     processDecisions riskConfig (decisions d) (startOfBatch (account d)) w
     = (Returned b, w1, t1)
     /\ row = batchRow (reasoning d) (userPrompt d) b)
  \/ row = blockedRow (reasoning d) (userPrompt d) (decisions d)
             (dailyLossCheck riskConfig (account d)).
Proof.
  destruct (Verdict.allowed (dailyLossCheck riskConfig (account d))) eqn:A.
  - destruct (trade_open riskConfig d w A) as (b & w1 & t1 & E1 & S & E).
    rewrite E.
    destruct (prismaChatCreate_trace
                (batchRow (reasoning d) (userPrompt d) b) w1)
      as (r & w2 & stored & E2 & _).
    rewrite E2; simpl.
    rewrite ledgerRows_app, (batch_ledger _ _ _ _ S); simpl.
    destruct stored; simpl; [|contradiction].
    intros [H|[]]; left; exists b, w1, t1; split; [exact E1|auto].
  - rewrite (trade_blocked riskConfig d w A).
    destruct (prismaChatCreate_trace
                (blockedRow (reasoning d) (userPrompt d) (decisions d)
                   (dailyLossCheck riskConfig (account d))) w)
      as (r & w2 & stored & E2 & _).
    rewrite E2; simpl.
    destruct stored; simpl; [|contradiction].
    intros [H|[]]; right; auto.
Qed.

(** X11.  No row that a cycle adds to the ledger has an empty reasoning or
    an empty chat.  The reasoning of the row is the reasoning of the
    answer, and [<no reasoning>] when that is empty; the chat of the row
    of a batch is the messages of the batch, joined by an empty line, and
    [<no chat>] when there is none; the chat of the row of a blocked cycle
    is the line of the block. *)
Theorem stored_rows_have_text
  (initialCapital : option Js.number) (w : World) (row : Chat.t) :
  In row (ledgerRows (snd (run initialCapital w))) ->
  Chat.reasoning row <> "" /\ Chat.chat row <> ""
  /\ exists d w1 t1,
       decide initialCapital w = (Returned d, w1, t1)
       /\ (reasoning d = "" -> Chat.reasoning row = "<no reasoning>")
       /\ (reasoning d <> "" -> Chat.reasoning row = reasoning d)
       /\ ((exists b w2 t2,
              processDecisions (getRiskConfig w) (decisions d)
                (startOfBatch (account d)) w1 = (Returned b, w2, t2)
              /\ (allChatMessages b = [] -> Chat.chat row = "<no chat>")
              /\ (allChatMessages b <> [] ->
                  Chat.chat row
                  = String.concat (Js.nl ++ Js.nl) (allChatMessages b)))
           \/ Chat.chat row
              = blockedChat
                  (Verdict.reason
                     (dailyLossCheck (getRiskConfig w) (account d)))
                  (decisions d)).
Proof.
  destruct (decide initialCapital w) as [[[d|e] w1] t1] eqn:E.
  2: { rewrite (run_undecided _ _ _ _ _ E); simpl.
       destruct (decide_trace _ _ _ _ _ E) as (_ & L1 & _).
       rewrite ledgerRows_app, L1; simpl; contradiction. }
  destruct (run_trace _ _ _ _ _ E) as (tail & Et & _ & Htail).
  destruct (decide_trace _ _ _ _ _ E) as (_ & L1 & _).
  destruct (console_trace _ Htail) as (_ & L3 & _).
  rewrite Et, !ledgerRows_app, L1, L3, app_nil_r; simpl.
  intros H; apply trade_rows in H.
  assert (R : forall text,
            (text = "" -> orPlaceholder text "<no reasoning>"
                          = "<no reasoning>")
            /\ (text <> "" -> orPlaceholder text "<no reasoning>" = text)).
  { intros text; unfold orPlaceholder.
    destruct (String.eqb_spec text ""); split; intros; try reflexivity;
      contradiction. }
  destruct H as [(b & w2 & t2 & E2 & H)|H]; subst row; simpl.
  - split; [apply orPlaceholder_not_empty; discriminate|].
    split.
    { destruct (processDecisions_messages _ _ _ _ _ _ _ E2)
        as (ms & Hms & S).
      destruct (said_lines _ _ S) as (_ & F & _).
      simpl in Hms; unfold combinedChat; rewrite Hms.
      destruct F as [|m ms' Hm F]; [discriminate|].
      apply concat_not_empty, line_not_empty, Hm. }
    exists d, w1, t1; split; [reflexivity|].
    split; [apply R|split; [apply R|]].
    left; exists b, w2, t2; split; [exact E2|].
    unfold combinedChat; destruct (allChatMessages b); split; intros;
      try reflexivity; try discriminate; contradiction.
  - split; [apply orPlaceholder_not_empty; discriminate|].
    split; [unfold blockedChat; discriminate|].
    exists d, w1, t1; split; [reflexivity|].
    split; [apply R|split; [apply R|]].
    right; reflexivity.
Qed.

End Messages.

(** ** The ledger write *)

Section LedgerWrite.

Context {C : Collaborators}.

(** X12.  A cycle that returns has called the ledger once, and has done
    so last: the ledger has accepted the row, every call on the venue is
    made before it, and nothing comes after it. *)
Theorem ledger_is_written_once_at_the_end
  (initialCapital : option Js.number) (w w2 : World) (t : Trace) :
  run initialCapital w = (Returned tt, w2, t) ->
  exists before row w1,
    t = (before ++ [ChatCreate row true])%list
    /\ ledgerCalls before = []
    /\ orders before = orders t
    /\ chatCreate row w1 = (None, w2).
Proof.
  intros R.
  destruct (decide initialCapital w) as [[[d|e] w1] t1] eqn:E.
  2: { rewrite (run_undecided _ _ _ _ _ E) in R; discriminate R. }
  pose proof (decide_ledger _ _ _ _ _ E) as L1.
  rewrite (run_decided _ _ _ _ _ E) in R.
  destruct (Verdict.allowed (dailyLossCheck (getRiskConfig w) (account d)))
    eqn:A.
  - destruct (trade_open (getRiskConfig w) d w1 A)
      as (b & w3 & t3 & E3 & S & Et).
    pose proof (processDecisions_ledger (getRiskConfig w) (decisions d)
                  (startOfBatch (account d)) w1) as L3.
    rewrite E3 in L3; simpl in L3.
    rewrite Et in R; unfold prismaChatCreate in R.
    destruct (chatCreate (batchRow (reasoning d) (userPrompt d) b) w3)
      as [[e|] w4] eqn:G; inversion R; subst.
    exists (t1 ++ t3)%list, (batchRow (reasoning d) (userPrompt d) b), w3.
    split; [rewrite app_assoc; reflexivity|].
    split; [rewrite ledgerCalls_app, L1, L3; reflexivity|].
    split; [|exact G].
    rewrite !orders_app; simpl; rewrite app_nil_r; reflexivity.
  - rewrite (trade_blocked _ d w1 A) in R; unfold prismaChatCreate in R.
    destruct (chatCreate
                (blockedRow (reasoning d) (userPrompt d) (decisions d)
                   (dailyLossCheck (getRiskConfig w) (account d))) w1)
      as [[e|] w4] eqn:G; inversion R; subst.
    eexists (t1 ++ [_])%list, _, w1.
    split; [rewrite <- app_assoc; reflexivity|].
    split; [rewrite ledgerCalls_app, L1; reflexivity|].
    split; [|exact G].
    rewrite !orders_app; simpl; rewrite !app_nil_r; reflexivity.
Qed.

End LedgerWrite.

(** ** The activity view *)

Section Views.

Import View.

Lemma mapGet_set (key key' : string) (value : Trading.t) (m : SymbolMap) :
  mapGet key' (mapSet key value m)
  = if String.eqb key key' then Some value else mapGet key' m.
Proof.
  unfold mapGet; induction m as [|[k v] m IH]; simpl.
  - destruct (String.eqb key key'); reflexivity.
  - destruct (String.eqb_spec k key) as [E|N]; simpl.
    + subst k; destruct (String.eqb key key'); reflexivity.
    + destruct (String.eqb_spec k key') as [E'|N']; simpl.
      * subst k; destruct (String.eqb_spec key key') as [E|_];
          [contradiction N; symmetry; exact E|reflexivity].
      * exact IH.
Qed.

Lemma lastOf_cons (sym : string) (t : Trading.t) (ts : list Trading.t) :
  lastOf sym (t :: ts)
  = match lastOf sym ts with
    | Some x => Some x
    | None => if String.eqb (Trading.symbol t) sym then Some t else None
    end.
Proof.
  unfold lastOf; simpl.
  induction (rev ts) as [|x l IH]; simpl; [reflexivity|].
  destruct (String.eqb (Trading.symbol x) sym); [reflexivity|exact IH].
Qed.

Lemma mapGet_fold (sym : string) (ts : list Trading.t) (m : SymbolMap) :
  mapGet sym (fold_left (fun m t => mapSet (Trading.symbol t) t m) ts m)
  = match lastOf sym ts with
    | Some x => Some x
    | None => mapGet sym m
    end.
Proof.
  revert m; induction ts as [|t ts IH]; intros m; simpl; [reflexivity|].
  rewrite IH, lastOf_cons, mapGet_set.
  destruct (lastOf sym ts); [reflexivity|].
  destruct (String.eqb _ _); reflexivity.
Qed.

Lemma lastOf_symbol (sym : string) (ts : list Trading.t) (t : Trading.t) :
  lastOf sym ts = Some t -> Trading.symbol t = sym /\ In t ts.
Proof.
  unfold lastOf; intros H; apply find_some in H; destruct H as [Hin Hs].
  split; [apply String.eqb_eq; exact Hs|apply in_rev; exact Hin].
Qed.

Lemma decisions_shown (chat : Chat.t) :
  decisions chat = map (shown chat) DEFAULT_FIVE_SYMBOLS.
Proof.
  unfold decisions, shown, bySymbol.
  apply map_ext; intros sym.
  rewrite mapGet_fold.
  destruct (lastOf sym (Chat.tradings chat)); reflexivity.
Qed.

(** X13.  The decisions shown for a chat are, for each of the five default
    instruments and in their order, the last record that the chat has for
    the instrument (a later record replaces an earlier one), or the
    placeholder of the instrument when the chat has none. *)
Theorem shown_decisions_are_the_last_records (chat : Chat.t) :
  decisions chat = map (shown chat) DEFAULT_FIVE_SYMBOLS.
Proof. apply decisions_shown. Qed.

Lemma shown_symbol (chat : Chat.t) (sym : string) :
  Trading.symbol (shown chat sym) = sym.
Proof.
  unfold shown.
  destruct (lastOf sym (Chat.tradings chat)) as [t|] eqn:E; [|reflexivity].
  apply (lastOf_symbol _ _ _ E).
Qed.

(** X14.  Whatever records a chat has, five decisions are shown for it,
    one for each default instrument and in the default order: records of
    other instruments are not shown, and an instrument is not shown
    twice. *)
Theorem five_decisions_are_shown (chat : Chat.t) :
  map Trading.symbol (decisions chat) = DEFAULT_FIVE_SYMBOLS
  /\ List.length (decisions chat) = 5%nat.
Proof.
  rewrite decisions_shown; simpl.
  rewrite !shown_symbol; split; reflexivity.
Qed.

(** X15.  Showing is idempotent: the decisions shown for a chat whose
    records are the decisions shown for it are those same decisions. *)
Theorem shown_decisions_are_stable (chat : Chat.t) :
  decisions (withTradings chat (decisions chat)) = decisions chat.
Proof.
  rewrite (decisions_shown (withTradings chat (decisions chat))).
  rewrite (decisions_shown chat); simpl map.
  pose proof (shown_symbol chat "BTC") as H1.
  pose proof (shown_symbol chat "ETH") as H2.
  pose proof (shown_symbol chat "BNB") as H3.
  pose proof (shown_symbol chat "SOL") as H4.
  pose proof (shown_symbol chat "DOGE") as H5.
  generalize dependent (shown chat "BTC"); intros s1 H1.
  generalize dependent (shown chat "ETH"); intros s2 H2.
  generalize dependent (shown chat "BNB"); intros s3 H3.
  generalize dependent (shown chat "SOL"); intros s4 H4.
  generalize dependent (shown chat "DOGE"); intros s5 H5.
  unfold shown, lastOf; simpl.
  rewrite H1, H2, H3, H4, H5; reflexivity.
Qed.

Lemma completed_trade (chats : list Chat.t) :
  map Completed.trade (completedTrades chats)
  = filter isTrade (flat_map Chat.tradings chats).
Proof.
  unfold completedTrades; induction chats as [|chat chats IH]; simpl;
    [reflexivity|].
  rewrite map_app, filter_app, IH, map_map; simpl.
  rewrite map_id; reflexivity.
Qed.

(** X16.  The completed trades are the Buy and Sell records of the chats,
    all of them and no Hold, in the order of the chats and of their
    records, each with the identifier and the model of the chat it comes
    from. *)
Theorem completed_trades_are_the_buys_and_sells (chats : list Chat.t) :
  map Completed.trade (completedTrades chats)
  = filter isTrade (flat_map Chat.tradings chats)
  /\ forall c,
       In c (completedTrades chats)
       <-> exists chat,
             In chat chats
             /\ In (Completed.trade c) (Chat.tradings chat)
             /\ Trading.opeartion (Completed.trade c) <> Hold
             /\ Completed.chatId c = Chat.id chat
             /\ Completed.model c = Chat.model chat.
Proof.
  split; [apply completed_trade|].
  intros c; unfold completedTrades; rewrite in_flat_map.
  split.
  - intros (chat & Hc & H); exists chat; split; [exact Hc|].
    apply in_map_iff in H; destruct H as (t & E & Ht); subst c; simpl.
    apply filter_In in Ht; destruct Ht as [Hin Htrade].
    split; [exact Hin|].
    split; [|split; reflexivity].
    unfold isTrade in Htrade; intros E; rewrite E in Htrade; discriminate.
  - intros (chat & Hc & Hin & Hop & Hid & Hm); exists chat.
    split; [exact Hc|].
    apply in_map_iff; exists (Completed.trade c); split.
    + destruct c; simpl in *; subst; reflexivity.
    + apply filter_In; split; [exact Hin|].
      unfold isTrade; destruct (Trading.opeartion (Completed.trade c));
        [reflexivity|reflexivity|contradiction Hop; reflexivity].
Qed.


(** X18.  The precision with which an amount is shown is 2, 4, 6 or 8
    decimals, and a larger amount never gets more decimals than a smaller
    one. *)
Theorem amount_precision_is_antitone (a b : Js.number) :
  Js.leb a b = true ->
  (getAmountPrecision b <= getAmountPrecision a)%nat
  /\ In (getAmountPrecision a) [2; 4; 6; 8]%nat.
Proof.
  intros H; unfold getAmountPrecision, Js.geb.
  assert (T : forall c, Js.leb c a = true -> Js.leb c b = true)
    by (intros c Hc; exact (leb_trans _ _ _ Hc H)).
  destruct (Js.leb 1000 a) eqn:A1; [rewrite (T _ A1)|];
    (destruct (Js.leb 10 a) eqn:A2; [rewrite ?(T _ A2)|]);
    (destruct (Js.leb 1 a) eqn:A3; [rewrite ?(T _ A3)|]);
    destruct (Js.leb 1000 b); destruct (Js.leb 10 b);
    destruct (Js.leb 1 b);
    (split; [lia|simpl; tauto]).
Qed.

Lemma prefix_empty (s : string) : prefix "" s = true.
Proof. destruct s; reflexivity. Qed.

Lemma showN_digit (n : N) (rest : string) :
  prefix "-" (Js.showN n ++ rest) = false.
Proof.
  unfold Js.showN, NilZero.string_of_uint.
  destruct (N.to_uint n); reflexivity.
Qed.

Lemma fixed2_sign (x : Q) :
  prefix "-" (Js.fixed2 x) = negb (Qle_bool 0 x).
Proof.
  unfold Js.fixed2; destruct (Qle_bool 0 x); simpl.
  - apply showN_digit.
  - apply prefix_empty.
Qed.

(** The sign of the percentage of a level against a positive price. *)
Lemma percent_sign (l p : Q) :
  0 < p -> (Qle_bool 0 ((l - p) / p * 100) = false <-> l < p).
Proof.
  intros Hp.
  assert (Hi : 0 < / p) by (apply Qinv_lt_0_compat; exact Hp).
  assert (Hx : (l - p) / p * 100 == (l - p) * / p * 100)
    by (unfold Qdiv; reflexivity).
  split.
  - intros B.
    assert (N : ~ 0 <= (l - p) / p * 100)
      by (intros L; apply Qle_bool_iff in L; congruence).
    rewrite Hx in N.
    destruct (Qlt_le_dec l p) as [H|H]; [exact H|].
    exfalso; apply N.
    apply Qmult_le_0_compat; [|lra].
    apply Qmult_le_0_compat; lra.
  - intros H.
    destruct (Qle_bool 0 ((l - p) / p * 100)) eqn:B; [|reflexivity].
    apply Qle_bool_iff in B; rewrite Hx in B.
    exfalso.
    assert (Hn : (p - l) * / p > 0)
      by (apply Qmult_lt_0_compat; lra).
    lra.
Qed.

Lemma Qeq_bool_false (x y : Q) : ~ x == y <-> Qeq_bool x y = false.
Proof.
  split; [|apply Qeq_bool_neq].
  intros N; destruct (Qeq_bool x y) eqn:B; [|reflexivity].
  apply Qeq_bool_iff in B; contradiction.
Qed.

Lemma quotient_zero (d p : Q) : 0 < p -> d / p == 0 -> d == 0.
Proof.
  intros Hp E; unfold Qdiv in E.
  apply Qmult_integral in E; destruct E as [E|E]; [exact E|].
  assert (Hi : 0 < / p) by (apply Qinv_lt_0_compat; exact Hp).
  lra.
Qed.

(** X19.  The percentage of a stop-loss or take-profit level is shown
    when, and only when, the price and the level are both truthy (there,
    not zero and not NaN), so that it never divides by a missing or a zero
    price.  For a finite positive price it is printed with a minus sign
    exactly when the level is below the price. *)
Theorem level_percent_sign (pricing level : option Js.number) :
  (levelPercent pricing level <> None
   <-> Js.truthy pricing = true /\ Js.truthy level = true)
  /\ forall shownAs,
       levelPercent pricing level = Some shownAs ->
       Js.isFinite (number pricing) = true ->
       Js.gtb (number pricing) 0 = true ->
       (prefix "-" shownAs = true
        <-> Js.ltb (number level) (number pricing) = true).
Proof.
  unfold levelPercent; split.
  - destruct (Js.truthy pricing), (Js.truthy level); simpl; split;
      try discriminate; try tauto; intros [H1 H2]; discriminate.
  - intros shownAs.
    destruct (Js.truthy pricing) eqn:Tp; [|discriminate].
    destruct (Js.truthy level) eqn:Tl; [|discriminate].
    simpl; intros E; inversion E; subst shownAs; clear E.
    destruct pricing as [p|]; [|discriminate]; simpl in *.
    destruct level as [l|]; [|discriminate]; simpl in *.
    intros Hf Hp.
    destruct p as [p| | |sp]; try discriminate.
    assert (P : 0 < p).
    { unfold Js.gtb, Js.ltb in Hp.
      cbn [Js.compare Js.value Js.ofZ inject_Z] in Hp.
      pose proof (cmp_cases 0 p) as K.
      destruct (0 ?= p); try discriminate; exact K. }
    assert (Np : Qeq_bool p 0 = false)
      by (apply Qeq_bool_false; lra).
    assert (Sp : Qle_bool 0 p = true) by (apply Qle_bool_iff; lra).
    destruct l as [l| | |sl]; try discriminate.
    + unfold Js.ltb; cbn [Js.compare Js.value Js.sub].
      cbn [Js.div Js.isZero Js.negative Js.value]; rewrite Np, Sp.
      destruct (Qeq_bool (l - p) 0) eqn:D.
      * apply Qeq_bool_iff in D.
        assert (Sd : Qle_bool 0 (l - p) = true)
          by (apply Qle_bool_iff; lra).
        rewrite Sd; simpl.
        pose proof (cmp_cases l p) as K.
        destruct (l ?= p); split; try discriminate; intros _; lra.
      * apply Qeq_bool_false in D.
        cbn [Js.mul Js.isZero Js.value Js.ofZ].
        assert (Nq : Qeq_bool ((l - p) / p) 0 = false).
        { apply Qeq_bool_false; intros Z.
          apply D, (quotient_zero _ p P Z). }
        rewrite Nq; simpl; rewrite fixed2_sign, negb_true_iff.
        change (inject_Z 100) with 100%Q.
        rewrite (percent_sign l p P).
        pose proof (cmp_cases l p) as K.
        destruct (l ?= p); split; try discriminate; try reflexivity;
          intros H; lra.
    + unfold Js.ltb; cbn [Js.compare Js.value Js.sub Js.div Js.negative].
      rewrite Sp; simpl; destruct sl; simpl; split; auto; discriminate.
Qed.

End Views.

(** ** The token script *)

Section Tokens.

Import Token.

Lemma urlSafe_cons (x : ascii) (s : string) :
  urlSafe (String x s)
  = if Ascii.eqb x "=" then urlSafe s else String (urlChar x) (urlSafe s).
Proof.
  unfold urlSafe, urlChar; simpl.
  destruct (Ascii.eqb x "="); reflexivity.
Qed.

Lemma base64Char_value (s : Sextet) :
  Ascii.eqb (base64Char s) "=" = false
  /\ charValue (urlChar (base64Char s)) = Some s.
Proof.
  destruct s as [[[[[b5 b4] b3] b2] b1] b0].
  destruct b5, b4, b3, b2, b1, b0; split; reflexivity.
Qed.

Lemma urlSafe_char (s : Sextet) (rest : string) :
  urlSafe (String (base64Char s) rest)
  = String (urlChar (base64Char s)) (urlSafe rest).
Proof.
  rewrite urlSafe_cons, (proj1 (base64Char_value s)); reflexivity.
Qed.

Lemma sextets_bytes (a b c : ascii) :
  match sextets a b c with
  | (s1, s2, s3, s4) =>
      firstByte s1 s2 = a /\ secondByte s2 s3 = b /\ thirdByte s3 s4 = c
  end.
Proof. destruct a, b, c; repeat split. Qed.

(** Induction on a text by groups of three bytes. *)
Lemma by_three (P : string -> Prop) :
  P EmptyString ->
  (forall a, P (String a EmptyString)) ->
  (forall a b, P (String a (String b EmptyString))) ->
  (forall a b c rest, P rest -> P (String a (String b (String c rest)))) ->
  forall s, P s.
Proof.
  intros H0 H1 H2 H3 s.
  assert (H : P s /\ (forall a, P (String a s))
              /\ (forall a b, P (String a (String b s)))).
  { induction s as [|x s (IH0 & IH1 & IH2)].
    - repeat split; auto.
    - repeat split; auto. }
  apply H.
Qed.

Lemma base64_three (a b c : ascii) (rest : string) :
  urlSafe (base64 (String a (String b (String c rest))))
  = match sextets a b c with
    | (s1, s2, s3, s4) =>
        String (urlChar (base64Char s1))
          (String (urlChar (base64Char s2))
             (String (urlChar (base64Char s3))
                (String (urlChar (base64Char s4)) (urlSafe (base64 rest)))))
    end.
Proof.
  cbn [base64].
  destruct (sextets a b c) as [[[s1 s2] s3] s4].
  rewrite !urlSafe_char; reflexivity.
Qed.

Lemma base64_two (a b : ascii) :
  urlSafe (base64 (String a (String b EmptyString)))
  = match sextets a b zero with
    | (s1, s2, s3, _) =>
        String (urlChar (base64Char s1))
          (String (urlChar (base64Char s2))
             (String (urlChar (base64Char s3)) EmptyString))
    end.
Proof.
  cbn [base64].
  destruct (sextets a b zero) as [[[s1 s2] s3] s4].
  rewrite !urlSafe_char; reflexivity.
Qed.

Lemma base64_one (a : ascii) :
  urlSafe (base64 (String a EmptyString))
  = match sextets a zero zero with
    | (s1, s2, _, _) =>
        String (urlChar (base64Char s1))
          (String (urlChar (base64Char s2)) EmptyString)
    end.
Proof.
  cbn [base64].
  destruct (sextets a zero zero) as [[[s1 s2] s3] s4].
  rewrite !urlSafe_char; reflexivity.
Qed.

(** The URL-safe text of some bytes stands for these bytes. *)
Lemma decode_base64 (input : string) :
  decode (urlSafe (base64 input)) = Some input.
Proof.
  induction input as [|a|a b|a b c rest IH] using by_three.
  - reflexivity.
  - rewrite base64_one.
    pose proof (sextets_bytes a zero zero) as H.
    destruct (sextets a zero zero) as [[[s1 s2] s3] s4].
    cbn [decode].
    rewrite (proj2 (base64Char_value s1)), (proj2 (base64Char_value s2)).
    destruct H as (H1 & _); rewrite H1; reflexivity.
  - rewrite base64_two.
    pose proof (sextets_bytes a b zero) as H.
    destruct (sextets a b zero) as [[[s1 s2] s3] s4].
    cbn [decode].
    rewrite (proj2 (base64Char_value s1)), (proj2 (base64Char_value s2)),
      (proj2 (base64Char_value s3)).
    destruct H as (H1 & H2 & _); rewrite H1, H2; reflexivity.
  - rewrite base64_three.
    pose proof (sextets_bytes a b c) as H.
    destruct (sextets a b c) as [[[s1 s2] s3] s4].
    cbn [decode].
    rewrite (proj2 (base64Char_value s1)), (proj2 (base64Char_value s2)),
      (proj2 (base64Char_value s3)), (proj2 (base64Char_value s4)), IH.
    destruct H as (H1 & H2 & H3); rewrite H1, H2, H3; reflexivity.
Qed.

(** The UTF-8 bytes of an ASCII text are its characters. *)
Lemma utf8_ascii (s : string) :
  isAscii s = true -> utf8 (codeUnits s) = s.
Proof.
  unfold isAscii; induction s as [|c s IH]; simpl; [reflexivity|].
  intros H; apply andb_prop in H; destruct H as [Hc Hs].
  assert (L : (N_of_ascii c < 128)%N) by (apply N.ltb_lt; exact Hc).
  unfold isHighSurrogate, isLowSurrogate, encode.
  replace (55296 <=? N_of_ascii c)%N with false
    by (symmetry; apply N.leb_gt; lia).
  replace (56320 <=? N_of_ascii c)%N with false
    by (symmetry; apply N.leb_gt; lia).
  rewrite Hc; simpl.
  rewrite ascii_N_embedding, (IH Hs); reflexivity.
Qed.

(** X20.  [base64url] loses nothing of the bytes it encodes, although the
    padding is stripped: two inputs with the same text have the same
    UTF-8 bytes, and two ASCII texts (what the script encodes) with the
    same text are the same text. *)
Theorem base64url_is_injective (input1 input2 : list N) :
  base64url input1 = base64url input2 ->
  utf8 input1 = utf8 input2
  /\ forall s1 s2,
       input1 = codeUnits s1 -> input2 = codeUnits s2 ->
       isAscii s1 = true -> isAscii s2 = true -> s1 = s2.
Proof.
  unfold base64url; intros E.
  assert (U : utf8 input1 = utf8 input2).
  { pose proof (decode_base64 (utf8 input1)) as H1.
    rewrite E, decode_base64 in H1.
    inversion H1; reflexivity. }
  split; [exact U|].
  intros s1 s2 E1 E2 A1 A2; subst.
  rewrite !utf8_ascii in U by assumption; exact U.
Qed.

Lemma base64_alphabet (input : string) :
  forallb isUrlSafe (chars (urlSafe (base64 input))) = true.
Proof.
  unfold isUrlSafe.
  induction input as [|a|a b|a b c rest IH] using by_three.
  - reflexivity.
  - rewrite base64_one.
    destruct (sextets a zero zero) as [[[s1 s2] s3] s4]; cbn [chars forallb].
    rewrite (proj2 (base64Char_value s1)), (proj2 (base64Char_value s2)).
    reflexivity.
  - rewrite base64_two.
    destruct (sextets a b zero) as [[[s1 s2] s3] s4]; cbn [chars forallb].
    rewrite (proj2 (base64Char_value s1)), (proj2 (base64Char_value s2)),
      (proj2 (base64Char_value s3)).
    reflexivity.
  - rewrite base64_three.
    destruct (sextets a b c) as [[[s1 s2] s3] s4]; cbn [chars forallb].
    rewrite (proj2 (base64Char_value s1)), (proj2 (base64Char_value s2)),
      (proj2 (base64Char_value s3)), (proj2 (base64Char_value s4)), IH.
    reflexivity.
Qed.

Lemma base64_length (input : string) :
  String.length (urlSafe (base64 input))
  = ((4 * String.length input + 2) / 3)%nat.
Proof.
  induction input as [|a|a b|a b c rest IH] using by_three.
  - reflexivity.
  - rewrite base64_one.
    destruct (sextets a zero zero) as [[[s1 s2] s3] s4]; reflexivity.
  - rewrite base64_two.
    destruct (sextets a b zero) as [[[s1 s2] s3] s4]; reflexivity.
  - rewrite base64_three.
    destruct (sextets a b c) as [[[s1 s2] s3] s4].
    cbn [String.length]; rewrite IH.
    replace (4 * S (S (S (String.length rest))) + 2)%nat
      with ((4 * String.length rest + 2) + 4 * 3)%nat by lia.
    rewrite Nat.div_add by discriminate; lia.
Qed.

Lemma url_safe_char (c : ascii) :
  isUrlSafe c = true ->
  c <> "="%char /\ c <> "+"%char /\ c <> "/"%char /\ c <> "."%char.
Proof.
  intros H; repeat split; intros E; subst c; discriminate H.
Qed.

(** X21.  The text of [base64url] has only letters, digits, [-] and [_],
    so no padding, no [+], no [/] and no dot; and it has four characters
    for every three bytes of the UTF-8 encoding of the input, rounded up:
    for an ASCII text, for every three characters. *)
Theorem base64url_is_url_safe (input : list N) :
  forallb isUrlSafe (chars (base64url input)) = true
  /\ (forall c,
        In c (chars (base64url input)) ->
        c <> "="%char /\ c <> "+"%char /\ c <> "/"%char /\ c <> "."%char)
  /\ String.length (base64url input)
     = ((4 * String.length (utf8 input) + 2) / 3)%nat
  /\ (forall s,
        input = codeUnits s -> isAscii s = true ->
        String.length (base64url input)
        = ((4 * String.length s + 2) / 3)%nat).
Proof.
  unfold base64url.
  split; [apply base64_alphabet|split; [|split; [apply base64_length|]]].
  - intros c H; apply url_safe_char.
    pose proof (base64_alphabet (utf8 input)) as A.
    rewrite forallb_forall in A; apply A; exact H.
  - intros s E A; subst input.
    rewrite base64_length, (utf8_ascii s A); reflexivity.
Qed.

Lemma append_assoc (s1 s2 s3 : string) :
  (s1 ++ s2) ++ s3 = s1 ++ s2 ++ s3.
Proof.
  induction s1 as [|x s1 IH]; simpl; [reflexivity|].
  rewrite IH; reflexivity.
Qed.

Lemma split_no_dot (s : string) :
  forallb isUrlSafe (chars s) = true -> split "." s = [s].
Proof.
  induction s as [|x s IH]; simpl; [reflexivity|].
  intros H; apply andb_prop in H; destruct H as [Hx Hs].
  destruct (Ascii.eqb_spec x ".") as [E|_];
    [subst x; discriminate Hx|].
  rewrite (IH Hs); reflexivity.
Qed.

Lemma split_at_dot (s1 s2 : string) :
  forallb isUrlSafe (chars s1) = true ->
  split "." (s1 ++ String "." s2) = s1 :: split "." s2.
Proof.
  induction s1 as [|x s1 IH]; simpl; [reflexivity|].
  intros H; apply andb_prop in H; destruct H as [Hx Hs].
  destruct (Ascii.eqb_spec x ".") as [E|_];
    [subst x; discriminate Hx|].
  simpl in IH; rewrite (IH Hs); reflexivity.
Qed.

(** X22.  With a secret that is not empty the script prints a token of
    exactly three segments between dots: the [base64url] of the header,
    that of the payload, whose [iat] is the time in whole seconds, and
    the URL-safe base64 of the digest of the first two segments joined by
    a dot.  Without a secret, or with an empty one, it prints no token and
    exits with the code 1. *)
Theorem token_has_three_segments
  (hmacSha256 : string -> string -> string) (now : N) :
  (forall secret,
     secret <> "" ->
     exists token,
       main hmacSha256 (Some secret) now = Printed token
       /\ split "." token
          = [base64url (codeUnits header);
             base64url (codeUnits (payload (now / 1000)));
             urlSafe
               (base64
                  (hmacSha256 secret
                     (base64url (codeUnits header) ++ "."
                        ++ base64url (codeUnits (payload (now / 1000))))))])
  /\ main hmacSha256 None now = Failed "CRON_SECRET_KEY is not set" 1
  /\ main hmacSha256 (Some "") now = Failed "CRON_SECRET_KEY is not set" 1.
Proof.
  split; [|split; reflexivity].
  intros secret Hs; unfold main.
  destruct (String.eqb_spec secret "") as [E|_]; [contradiction|].
  eexists; split; [reflexivity|].
  unfold base64url.
  pose proof (base64_alphabet (utf8 (codeUnits header))) as Hh.
  pose proof (base64_alphabet (utf8 (codeUnits (payload (now / 1000)))))
    as Hp.
  generalize dependent (urlSafe (base64 (utf8 (codeUnits header))));
    intros h Hh.
  generalize dependent
    (urlSafe (base64 (utf8 (codeUnits (payload (now / 1000))))));
    intros p Hp.
  pose proof (base64_alphabet (hmacSha256 secret (h ++ "." ++ p))) as Hg.
  generalize dependent (urlSafe (base64 (hmacSha256 secret (h ++ "." ++ p)))).
  intros g Hg.
  rewrite append_assoc; simpl.
  rewrite (split_at_dot h _ Hh), (split_at_dot p _ Hp), (split_no_dot g Hg).
  reflexivity.
Qed.

End Tokens.

(** ** More of the theorems at work *)

Section MoreEvidence.

Import Desk Runs Cases.

(** The theorem of X1 on the desk of [calm]: one order for two buys. *)
Lemma orders_follow_witness :
  exists d t1,
    @decide (collaborators (calm twoBuys)) None tt = (Returned d, tt, t1)
    /\ Placed (decisions d) (orders (snd (cycle (calm twoBuys))))
    /\ (List.length (orders (snd (cycle (calm twoBuys)))) <= 2)%nat.
Proof.
  do 2 eexists; split; [reflexivity|].
  exact (@orders_follow_the_decisions (collaborators (calm twoBuys))
           None tt tt _ _ eq_refl).
Defined.

(** The theorem of X2 on the desk of [calm]. *)
Lemma balance_witness :
  exists b t,
    @processDecisions (collaborators (calm twoBuys)) tt twoBuys
      (startOfBatch (cash 1000)) tt = (Returned b, tt, t)
    /\ Forall nonNegativeMargin twoBuys
    /\ Js.leb 0 (remainingAvailableCash b) = true
    /\ Js.leb (remainingAvailableCash b) 1000 = true
    /\ Js.toFixed2 (remainingAvailableCash b) = "400.00".
Proof.
  do 2 eexists; split; [reflexivity|].
  assert (F : Forall nonNegativeMargin twoBuys) by (repeat constructor).
  split; [exact F|].
  destruct (@balance_stays_within_its_start (collaborators (calm twoBuys))
              tt twoBuys (startOfBatch (cash 1000)) _ tt tt _ eq_refl F
              eq_refl eq_refl) as (H1 & H2 & _).
  split; [exact H1|split; [exact H2|reflexivity]].
Defined.

(** The theorem of X3 on a Hold that moves its stop-loss to 95. *)
Lemma hold_witness :
  Decision.opeartion (holdWithStop 95) = Hold
  /\ exists r,
       Trading.opeartion r = Hold /\ Trading.stopLoss r = Some 95
       /\ fst (fst (@processDecision (collaborators (calm [])) tt
                      (holdWithStop 95) (startOfBatch (cash 1000)) tt))
          = Returned
              (pushRecord r
                 (withChat (holdWithStop 95) (startOfBatch (cash 1000)))).
Proof.
  split; [reflexivity|].
  destruct (@hold_touches_only_protective_orders (collaborators (calm []))
              tt (holdWithStop 95) (startOfBatch (cash 1000)) tt eq_refl)
    as (r & w1 & t & E & H1 & H2 & _).
  exists r; split; [exact H1|split; [exact H2|rewrite E; reflexivity]].
Defined.

(** The theorem of X4 on a desk with an open position of leverage 3. *)
Lemma sell_witness :
  let d := decision Sell SOL None (close 50) "take profit" in
  let s := withPosition solPosition (soldAt 150 1) (calm oneSell) in
  Decision.opeartion d = Sell
  /\ @fetchPositions (collaborators s) tt = (Some [solPosition], tt)
  /\ exists r,
       Trading.leverage r = Some 3 /\ Trading.amount r = Some 1
       /\ fst (fst (@processDecision (collaborators s) tt d
                      (startOfBatch (cash 1000)) tt))
          = Returned (pushRecord r (withChat d (startOfBatch (cash 1000)))).
Proof.
  intros d s.
  split; [reflexivity|]. split; [reflexivity|].
  destruct (@sell_is_sent_and_recorded (collaborators s) tt d
              (startOfBatch (cash 1000)) tt tt tt 50 _ _
              eq_refl eq_refl eq_refl eq_refl)
    as (r & t & E & _ & _ & H3 & H4 & _).
  exists r; split; [exact H4|split; [exact H3|rewrite E; reflexivity]].
Defined.

(** The theorem of X6 on a desk whose account cannot be read. *)
Lemma preparation_failure_witness :
  let s := withAccount (Thrown "account unavailable") (calm oneBuy) in
  exists t1,
    @prepare (collaborators s) None tt
    = (Thrown "account unavailable", tt, t1)
    /\ exists t,
         cycle s = (Thrown "account unavailable", tt, t)
         /\ filter isOracle t = [] /\ orders t = [] /\ ledgerRows t = [].
Proof.
  intros s; eexists; split; [reflexivity|].
  exact (@preparation_failure_is_fatal (collaborators s) None tt tt _ _
           eq_refl).
Defined.

(** The theorem of X7 on a desk whose ledger refuses the row: the buy
    stays sent. *)
Lemma ledger_failure_witness :
  let s := withLedger (Some "ledger unavailable") (calm oneBuy) in
  exists d t1 b t2,
    @decide (collaborators s) None tt = (Returned d, tt, t1)
    /\ @processDecisions (collaborators s) tt (decisions d)
         (startOfBatch (account d)) tt = (Returned b, tt, t2)
    /\ exists t,
         cycle s = (Thrown "ledger unavailable", tt, t)
         /\ ledgerRows t = [] /\ orders t = orders t2
         /\ List.length (orders t) = 1%nat.
Proof.
  intros s; do 4 eexists; split; [reflexivity|]. split; [reflexivity|].
  destruct (@ledger_failure_loses_the_row (collaborators s) None tt tt tt tt
              _ _ _ _ "ledger unavailable" eq_refl eq_refl eq_refl eq_refl)
    as (t & E & H1 & H2).
  exists t; split; [exact E|split; [exact H1|split; [exact H2|]]].
  rewrite H2; reflexivity.
Defined.

(** The theorem of X8 on a desk whose oracle answers without an object. *)
Lemma answer_without_decisions_witness :
  let s := withAnswer noObject (calm oneBuy) in
  exists p t1,
    @prepare (collaborators s) None tt = (Returned p, tt, t1)
    /\ (1500 < timeout)%N
    /\ exists t,
         cycle s = (Thrown "AI failed to generate valid response", tt, t)
         /\ orders t = [] /\ ledgerRows t = [].
Proof.
  intros s; do 2 eexists; split; [reflexivity|]. split; [reflexivity|].
  destruct (@answer_without_decisions_is_fatal (collaborators s) None tt tt
              tt _ _ 1500 _ "AI failed to generate valid response"
              eq_refl eq_refl eq_refl eq_refl)
    as (t & E & H1 & H2 & _).
  exists t; split; [exact E|split; [exact H1|exact H2]].
Defined.

(** An answer whose [decisions] is not an array: with a reasoning of its
    own the array is found missing; without one the reading of the
    reasoning throws first. *)
Example decisions_that_are_not_an_array :
  fst (fst (cycle (withAnswer (notAnArray (Some "thinking")) (calm []))))
  = Thrown "AI response missing 'decisions' array"
  /\ fst (fst (cycle (withAnswer (notAnArray None) (calm []))))
     = Thrown "AI failed: object?.decisions?.map is not a function".
Proof. split; reflexivity. Qed.

(** The theorem of X9 on a desk whose oracle answers one decision. *)
Lemma decisions_as_answered_witness :
  let one := decision Hold BTC None None "wait" in
  let s := withAnswer (oneDecision one) (calm []) in
  exists p t1,
    @prepare (collaborators s) None tt = (Returned p, tt, t1)
    /\ exists d,
         @decide (collaborators s) None tt
         = (Returned d, tt, (t1 ++ [CallOracle timeout])%list)
         /\ decisions d = [one].
Proof.
  intros one s; do 2 eexists; split; [reflexivity|].
  destruct (@decisions_are_taken_as_answered (collaborators s) None tt tt tt
              _ _ 1500 _ _ [one] eq_refl eq_refl eq_refl eq_refl eq_refl)
    as (d & E & H & _).
  exists d; split; [exact E|exact H].
Defined.

(** The theorem of X10 on the desk of [calm] with the two buys: the
    second is held for its margin, and the line of the gate follows its
    chat line. *)
Lemma chat_lines_witness :
  exists b t,
    @processDecisions (collaborators (calm twoBuys)) tt twoBuys
      (startOfBatch (cash 1000)) tt = (Returned b, tt, t)
    /\ List.length (allChatMessages b) = 3%nat
    /\ exists ms,
         allChatMessages b = ms
         /\ Said twoBuys ms
         /\ Subsequence ["[BTC] breakout"; "[ETH] follow"] ms.
Proof.
  do 2 eexists; split; [reflexivity|]. split; [reflexivity|].
  destruct (@chat_lines_are_kept_in_order (collaborators (calm twoBuys))
              tt twoBuys (startOfBatch (cash 1000)) _ tt tt _ eq_refl)
    as (ms & H1 & H2 & H3 & _).
  exists ms; split; [exact H1|split; [exact H2|exact H3]].
Defined.

(** The theorem of X11 on the row of a Hold without a chat, answered
    without a reasoning. *)
Lemma stored_rows_witness :
  let s :=
    withAnswer (oneDecision (decision Hold BTC None None "")) (calm []) in
  exists row,
    In row (ledgerRows (snd (cycle s)))
    /\ Chat.reasoning row = "<no reasoning>"
    /\ Chat.chat row = "<no chat>"
    /\ Chat.reasoning row <> "" /\ Chat.chat row <> "".
Proof.
  intros s; eexists; split; [left; reflexivity|].
  split; [reflexivity|]. split; [reflexivity|].
  destruct (@stored_rows_have_text (collaborators s) None tt _
              (or_introl eq_refl)) as (H1 & H2 & _).
  split; [exact H1|exact H2].
Defined.

(** The theorem of X12 on the desk of [calm]. *)
Lemma ledger_written_witness :
  exists t,
    cycle (calm twoBuys) = (Returned tt, tt, t)
    /\ exists before row,
         t = (before ++ [ChatCreate row true])%list
         /\ ledgerCalls before = []
         /\ List.length (orders before) = 1%nat.
Proof.
  eexists; split; [reflexivity|].
  destruct (@ledger_is_written_once_at_the_end
              (collaborators (calm twoBuys)) None tt tt _ eq_refl)
    as (before & row & w1 & H1 & H2 & H3 & _).
  exists before, row; split; [exact H1|split; [exact H2|]].
  rewrite H3; reflexivity.
Defined.

(** The decisions shown for [sampleChat]: the later record of BTC, the
    record of ETH and three placeholders; the record of XRP is not
    shown. *)
Example sample_decisions :
  map View.Trading.id (View.decisions sampleChat)
  = ["t3"; "t4"; "virtual-c1-BNB"; "virtual-c1-SOL"; "virtual-c1-DOGE"].
Proof. reflexivity. Qed.

Example sample_completed_trades :
  map (fun c => View.Trading.id (View.Completed.trade c))
    (View.completedTrades [sampleChat])
  = ["t1"; "t2"; "t4"].
Proof. reflexivity. Qed.


(** The theorem of X18 on the amounts 5 and 2000. *)
Lemma amount_precision_witness :
  Js.leb 5 2000 = true
  /\ View.getAmountPrecision 2000 = 2%nat
  /\ View.getAmountPrecision 5 = 6%nat
  /\ (View.getAmountPrecision 2000 <= View.getAmountPrecision 5)%nat.
Proof.
  split; [reflexivity|]. split; [reflexivity|]. split; [reflexivity|].
  exact (proj1 (amount_precision_is_antitone 5 2000 eq_refl)).
Defined.

(** The theorem of X19 on a stop-loss of 95 for a price of 100. *)
Lemma level_percent_witness :
  View.levelPercent (Some 100) (Some 95) = Some "-5.00"
  /\ Js.isFinite (View.number (Some 100)) = true
  /\ Js.gtb (View.number (Some 100)) 0 = true
  /\ (prefix "-" "-5.00" = true
      <-> Js.ltb (View.number (Some 95)) (View.number (Some 100)) = true).
Proof.
  split; [reflexivity|]. split; [reflexivity|]. split; [reflexivity|].
  exact (proj2 (level_percent_sign (Some 100) (Some 95)) "-5.00"
           eq_refl eq_refl eq_refl).
Defined.

(** Without a price, or with a price of zero, no percentage is shown. *)
Example no_percent_without_a_price :
  View.levelPercent None (Some 95) = None
  /\ View.levelPercent (Some 0) (Some 95) = None
  /\ View.levelPercent (Some 100) None = None
  /\ View.levelPercent (Some Js.NaN) (Some 95) = None.
Proof. repeat split. Qed.

(** The header of every token. *)
Example token_header :
  Token.base64url (Token.codeUnits Token.header)
  = "eyJhbGciOiJIUzI1NiIsInR5cCI6IkpXVCJ9".
Proof. reflexivity. Qed.

(** The theorem of X20 on a text of three characters. *)
Lemma base64url_injective_witness :
  Token.base64url (Token.codeUnits "Man")
  = Token.base64url (Token.codeUnits "Man")
  /\ Token.isAscii "Man" = true
  /\ Token.utf8 (Token.codeUnits "Man") = Token.utf8 (Token.codeUnits "Man")
  /\ "Man" = "Man".
Proof.
  split; [reflexivity|]. split; [reflexivity|].
  destruct (base64url_is_injective
              (Token.codeUnits "Man") (Token.codeUnits "Man") eq_refl)
    as [H1 H2].
  split; [exact H1|].
  exact (H2 "Man" "Man" eq_refl eq_refl eq_refl eq_refl).
Defined.

(** On strings that are not ASCII texts [base64url] does lose something:
    a surrogate without its pair is encoded as U+FFFD is. *)
Example lone_surrogate_is_replaced :
  Token.base64url [55296%N] = Token.base64url [65533%N]
  /\ Token.base64url [55296%N] = "77-9".
Proof. split; reflexivity. Qed.

(** The theorem of X21 on a text of two bytes, whose base64 is padded,
    and on a character of two bytes. *)
Lemma base64url_safe_witness :
  Token.base64 "Ma" = "TWE="
  /\ Token.base64url (Token.codeUnits "Ma") = "TWE"
  /\ Token.base64url [233%N] = "w6k"
  /\ In "E"%char (Token.chars (Token.base64url (Token.codeUnits "Ma")))
  /\ "E"%char <> "="%char.
Proof.
  split; [reflexivity|]. split; [reflexivity|]. split; [reflexivity|].
  assert (H : In "E"%char
                (Token.chars (Token.base64url (Token.codeUnits "Ma"))))
    by (simpl; auto).
  split; [exact H|].
  exact (proj1 (proj1 (proj2 (base64url_is_url_safe (Token.codeUnits "Ma")))
                  _ H)).
Defined.

(** The theorem of X22 with a digest of three bytes. *)
Lemma token_witness :
  "s3cret" <> ""
  /\ exists token,
       Token.main (fun _ _ => "abc") (Some "s3cret") 1700000000123
       = Token.Printed token
       /\ List.length (Token.split "." token) = 3%nat.
Proof.
  assert (H : "s3cret" <> "") by discriminate.
  split; [exact H|].
  destruct (proj1 (token_has_three_segments (fun _ _ => "abc")
                     1700000000123) "s3cret" H) as (token & E & S).
  exists token; split; [exact E|rewrite S; reflexivity].
Defined.

End MoreEvidence.

